(** * asi_scaffold: the agent control loop of [asi_scaffold.py]

    A shallow embedding of the agent loop ([Agent.run]), its prompt
    construction with history trimming ([Agent._construct_prompt]), the tool
    catalog ([Agent._get_tools_description]), the tool handlers and the
    persistence of the agent state ([Agent._load_state], [Agent._save_state]),
    together with the part of Python's [json] module the program relies on.

    Python values that travel through the program are JSON values: the state
    is the dictionary read by [json.load], a turn is a dictionary, a command
    is whatever the model's response holds under the key [command]. *)

From Stdlib Require Import String Ascii List ZArith Bool Arith Lia.
From Stdlib Require Import DecimalZ DecimalPos DecimalFacts.
Import ListNotations.
Local Open Scope list_scope.
Local Open Scope string_scope.

(** ** Characters and strings *)

Definition nl : string := String "010"%char EmptyString.
Definition dq : string := String "034"%char EmptyString.
Definition bs : string := String "092"%char EmptyString.

Fixpoint spaces (n : nat) : string :=
  match n with
  | O => EmptyString
  | S k => String " "%char (spaces k)
  end.

(** [sep.join(parts)] *)
Fixpoint join (sep : string) (parts : list string) : string :=
  match parts with
  | [] => EmptyString
  | [p] => p
  | p :: ps => (p ++ sep ++ join sep ps)%string
  end.

(** [s[:n]] *)
Fixpoint take (n : nat) (s : string) : string :=
  match n, s with
  | S k, String c t => String c (take k t)
  | _, _ => EmptyString
  end.

(** [s.startswith(p)] *)
Fixpoint startswith (p s : string) : bool :=
  match p with
  | EmptyString => true
  | String a p' =>
      match s with
      | EmptyString => false
      | String b s' => Ascii.eqb a b && startswith p' s'
      end
  end.

(** ** JSON values

    The values [json.loads] builds and [json.dumps] prints: [None], [bool],
    [int], [str], [list] and [dict].  A dictionary is the list of its
    entries in insertion order.  A string is a sequence of the characters
    with code 0 to 255; Python's floats are not modelled. *)

Module Json.

#[warnings="-register-all"]
Inductive json : Type :=
| JNull
| JBool (b : bool)
| JInt (z : Z)
| JStr (s : string)
| JArr (items : list json)
| JObj (members : list (string * json)).

(** Induction over nested arrays and dictionaries. *)
Definition json_nested_ind (P : json -> Prop)
  (Hnull : P JNull) (Hbool : forall b, P (JBool b)) (Hint : forall z, P (JInt z))
  (Hstr : forall s, P (JStr s))
  (Harr : forall l, Forall P l -> P (JArr l))
  (Hobj : forall m, Forall (fun kv => P (snd kv)) m -> P (JObj m)) :
  forall v, P v :=
  fix go (v : json) : P v :=
    match v with
    | JNull => Hnull
    | JBool b => Hbool b
    | JInt z => Hint z
    | JStr s => Hstr s
    | JArr l =>
        Harr l ((fix all (l : list json) : Forall P l :=
                   match l with
                   | [] => Forall_nil _
                   | x :: l' => Forall_cons x (go x) (all l')
                   end) l)
    | JObj m =>
        Hobj m ((fix all (m : list (string * json)) : Forall (fun kv => P (snd kv)) m :=
                   match m with
                   | [] => Forall_nil _
                   | kv :: m' => Forall_cons kv (go (snd kv)) (all m')
                   end) m)
    end.

(** *** Dictionaries *)

(** [d[k]] on the entries of a dictionary; [None] is [KeyError]. *)
Fixpoint lookup (k : string) (m : list (string * json)) : option json :=
  match m with
  | [] => None
  | (k', v) :: m' => if String.eqb k k' then Some v else lookup k m'
  end.

(** [d[k] = v]: an existing key keeps its place, a new key goes last. *)
Fixpoint assign (k : string) (v : json) (m : list (string * json)) : list (string * json) :=
  match m with
  | [] => [(k, v)]
  | (k', v') :: m' => if String.eqb k k' then (k, v) :: m' else (k', v') :: assign k v m'
  end.

(** [d.get(k, default)] on the entries of a dictionary. *)
Definition get_or (k : string) (default : json) (m : list (string * json)) : json :=
  match lookup k m with
  | Some v => v
  | None => default
  end.

(** [dict(pairs)] *)
Definition dict_of_pairs (pairs : list (string * json)) : list (string * json) :=
  fold_left (fun m kv => assign (fst kv) (snd kv) m) pairs [].

Fixpoint mem (k : string) (ks : list string) : bool :=
  match ks with
  | [] => false
  | k' :: ks' => String.eqb k k' || mem k ks'
  end.

Fixpoint distinct (ks : list string) : bool :=
  match ks with
  | [] => true
  | k :: ks' => negb (mem k ks') && distinct ks'
  end.

(** A value of the model stands for a Python value when no dictionary in it
    holds a key twice. *)
Fixpoint wf (v : json) : bool :=
  match v with
  | JArr l => forallb wf l
  | JObj m => distinct (map fst m) && forallb (fun kv => wf (snd kv)) m
  | _ => true
  end.

(** *** [json.dumps] *)

Definition hex_digit (n : nat) : ascii :=
  if (n <? 10)%nat then ascii_of_nat (48 + n) else ascii_of_nat (87 + n).

(** The replacement of one character by [ESCAPE_ASCII] and [ESCAPE_DCT]:
    printable ASCII stays, a quote and a backslash get a backslash, the five
    short escapes, and [\u00xx] for every other character. *)
Definition escape_char (c : ascii) : string :=
  let n := nat_of_ascii c in
  if (n =? 34)%nat then bs ++ dq
  else if (n =? 92)%nat then bs ++ bs
  else if (n =? 10)%nat then bs ++ "n"
  else if (n =? 13)%nat then bs ++ "r"
  else if (n =? 9)%nat then bs ++ "t"
  else if (n =? 8)%nat then bs ++ "b"
  else if (n =? 12)%nat then bs ++ "f"
  else if (n <? 32)%nat || (126 <? n)%nat
       then bs ++ "u00" ++ String (hex_digit (n / 16)) (String (hex_digit (n mod 16)) EmptyString)
  else String c EmptyString.

Fixpoint escape (s : string) : string :=
  match s with
  | EmptyString => EmptyString
  | String c t => escape_char c ++ escape t
  end.

(** [py_encode_basestring_ascii] *)
Definition encode_string (s : string) : string := dq ++ escape s ++ dq.

Definition digit_char (d : nat) : ascii := ascii_of_nat (48 + d).

Fixpoint digits (u : Decimal.uint) : string :=
  match u with
  | Decimal.Nil => EmptyString
  | Decimal.D0 u' => String "0"%char (digits u')
  | Decimal.D1 u' => String "1"%char (digits u')
  | Decimal.D2 u' => String "2"%char (digits u')
  | Decimal.D3 u' => String "3"%char (digits u')
  | Decimal.D4 u' => String "4"%char (digits u')
  | Decimal.D5 u' => String "5"%char (digits u')
  | Decimal.D6 u' => String "6"%char (digits u')
  | Decimal.D7 u' => String "7"%char (digits u')
  | Decimal.D8 u' => String "8"%char (digits u')
  | Decimal.D9 u' => String "9"%char (digits u')
  end.

(** [int.__repr__] *)
Definition encode_int (z : Z) : string :=
  match Z.to_int z with
  | Decimal.Pos u => digits u
  | Decimal.Neg u => String "-"%char (digits u)
  end.

(** ['\n' + ' ' * (indent * level)], or nothing without [indent]. *)
Definition newline_indent (indent : option nat) (level : nat) : string :=
  match indent with
  | None => EmptyString
  | Some n => nl ++ spaces (n * level)
  end.

(** [item_separator]: [', '] by default, [','] when [indent] is given. *)
Definition item_separator (indent : option nat) : string :=
  match indent with
  | None => ", "
  | Some _ => ","
  end.

Definition key_separator : string := ": ".

(** [_iterencode] at nesting [level], with its list and dict cases. *)
Fixpoint encode (indent : option nat) (level : nat) (v : json) : string :=
  match v with
  | JNull => "null"
  | JBool true => "true"
  | JBool false => "false"
  | JInt z => encode_int z
  | JStr s => encode_string s
  | JArr [] => "[]"
  | JArr (x :: xs) =>
      "[" ++ newline_indent indent (S level) ++ encode indent (S level) x
      ++ (fix more (l : list json) : string :=
            match l with
            | [] => EmptyString
            | y :: l' =>
                item_separator indent ++ newline_indent indent (S level)
                ++ encode indent (S level) y ++ more l'
            end) xs
      ++ newline_indent indent level ++ "]"
  | JObj [] => "{}"
  | JObj ((k, x) :: xs) =>
      "{" ++ newline_indent indent (S level)
      ++ encode_string k ++ key_separator ++ encode indent (S level) x
      ++ (fix more (l : list (string * json)) : string :=
            match l with
            | [] => EmptyString
            | (k', y) :: l' =>
                item_separator indent ++ newline_indent indent (S level)
                ++ encode_string k' ++ key_separator ++ encode indent (S level) y ++ more l'
            end) xs
      ++ newline_indent indent level ++ "}"
  end.

(** [json.dumps(v, indent=indent)] *)
Definition dumps (indent : option nat) (v : json) : string := encode indent 0 v.

(** *** [json.loads]

    The decoder on the texts whose values the model holds: a number with a
    fraction or an exponent, [NaN] and [Infinity] (Python floats) and a
    [\u] escape above [\u00ff] are not decoded. [None] stands for
    [JSONDecodeError].  The limits of the interpreter are not followed:
    [json.loads] raises [RecursionError] on a text nested deeper than the
    interpreter recurses, and [ValueError] on an integer of more digits
    than it converts. *)

Definition is_ws (c : ascii) : bool :=
  let n := nat_of_ascii c in
  (n =? 32)%nat || (n =? 9)%nat || (n =? 10)%nat || (n =? 13)%nat.

(** [WHITESPACE.match(s, idx).end()] *)
Fixpoint skip_ws (s : string) : string :=
  match s with
  | EmptyString => s
  | String c t => if is_ws c then skip_ws t else s
  end.

Definition hex_value (c : ascii) : option nat :=
  let n := nat_of_ascii c in
  if (48 <=? n)%nat && (n <=? 57)%nat then Some (n - 48)
  else if (97 <=? n)%nat && (n <=? 102)%nat then Some (n - 87)
  else if (65 <=? n)%nat && (n <=? 70)%nat then Some (n - 55)
  else None.

(** The [BACKSLASH] table of the decoder. *)
Definition unescape (e : ascii) : option ascii :=
  let n := nat_of_ascii e in
  if (n =? 34)%nat then Some "034"%char
  else if (n =? 92)%nat then Some "092"%char
  else if (n =? 47)%nat then Some "/"%char
  else if (n =? 98)%nat then Some "008"%char
  else if (n =? 102)%nat then Some "012"%char
  else if (n =? 110)%nat then Some "010"%char
  else if (n =? 114)%nat then Some "013"%char
  else if (n =? 116)%nat then Some "009"%char
  else None.

Definition hex4 (h1 h2 h3 h4 : ascii) : option nat :=
  match hex_value h1, hex_value h2, hex_value h3, hex_value h4 with
  | Some a, Some b, Some c, Some d => Some (((a * 16 + b) * 16 + c) * 16 + d)
  | _, _, _, _ => None
  end.

Definition prepend (c : ascii) (r : option (string * string)) : option (string * string) :=
  match r with
  | Some (x, rest) => Some (String c x, rest)
  | None => None
  end.

(** [scanstring] (strict) from the character after the opening quote:
    the decoded string and the text after the closing quote. *)
Fixpoint scan_string (s : string) : option (string * string) :=
  match s with
  | EmptyString => None
  | String c t =>
      let n := nat_of_ascii c in
      if (n =? 34)%nat then Some (EmptyString, t)
      else if (n =? 92)%nat then
        match t with
        | EmptyString => None
        | String e t' =>
            if (nat_of_ascii e =? 117)%nat then
              match t' with
              | String h1 (String h2 (String h3 (String h4 t''))) =>
                  match hex4 h1 h2 h3 h4 with
                  | Some v => if (v <? 256)%nat then prepend (ascii_of_nat v) (scan_string t'') else None
                  | None => None
                  end
              | _ => None
              end
            else
              match unescape e with
              | Some c' => prepend c' (scan_string t')
              | None => None
              end
        end
      else if (n <? 32)%nat then None
      else prepend c (scan_string t)
  end.

Definition digit_of (c : ascii) : option (Decimal.uint -> Decimal.uint) :=
  let n := nat_of_ascii c in
  if (n =? 48)%nat then Some Decimal.D0
  else if (n =? 49)%nat then Some Decimal.D1
  else if (n =? 50)%nat then Some Decimal.D2
  else if (n =? 51)%nat then Some Decimal.D3
  else if (n =? 52)%nat then Some Decimal.D4
  else if (n =? 53)%nat then Some Decimal.D5
  else if (n =? 54)%nat then Some Decimal.D6
  else if (n =? 55)%nat then Some Decimal.D7
  else if (n =? 56)%nat then Some Decimal.D8
  else if (n =? 57)%nat then Some Decimal.D9
  else None.

Definition is_digit (c : ascii) : bool :=
  match digit_of c with Some _ => true | None => false end.

(** The longest run of digits at the head of [s]. *)
Fixpoint scan_digits (s : string) : Decimal.uint * string :=
  match s with
  | EmptyString => (Decimal.Nil, s)
  | String c t =>
      match digit_of c with
      | Some d => let (u, r) := scan_digits t in (d u, r)
      | None => (Decimal.Nil, s)
      end
  end.

(** The text goes on with [\.\d+]. *)
Definition starts_fraction (s : string) : bool :=
  match s with
  | String c (String d _) => (nat_of_ascii c =? 46)%nat && is_digit d
  | _ => false
  end.

(** The text goes on with [[eE][-+]?\d+]. *)
Definition starts_exponent (s : string) : bool :=
  match s with
  | String c (String d t) =>
      ((nat_of_ascii c =? 101)%nat || (nat_of_ascii c =? 69)%nat)
      && (is_digit d
          || (((nat_of_ascii d =? 45)%nat || (nat_of_ascii d =? 43)%nat)
              && match t with String d' _ => is_digit d' | EmptyString => false end))
  | _ => false
  end.

(** [NUMBER_RE]: an optional minus sign, then [0] or a digit from 1 to 9
    followed by digits; the match goes on into a fraction or an exponent
    when one follows, and the number is then a float.  [int] of the
    integer part otherwise. *)
Definition scan_int (s : string) : option (Z * string) :=
  let (neg, s1) :=
    match s with
    | String c t => if (nat_of_ascii c =? 45)%nat then (true, t) else (false, s)
    | EmptyString => (false, s)
    end in
  match s1 with
  | EmptyString => None
  | String c t =>
      if is_digit c then
        let (u, r) := if (nat_of_ascii c =? 48)%nat then (Decimal.D0 Decimal.Nil, t)
                      else scan_digits s1 in
        if starts_fraction r || starts_exponent r then None
        else Some (Z.of_int (if neg then Decimal.Neg u else Decimal.Pos u), r)
      else None
  end.

(** [s[n:]] *)
Fixpoint drop (n : nat) (s : string) : string :=
  match n, s with
  | S k, String _ t => drop k t
  | _, _ => s
  end.

Definition is_char (n : nat) (c : ascii) : bool := (nat_of_ascii c =? n)%nat.

(** [scan_once], [JSONArray] and [JSONObject].  [fuel] bounds the nesting
    and the number of entries still to read; [loads] gives the length of
    the text, which is enough for every text. *)
Fixpoint parse_value (fuel : nat) (s : string) {struct fuel} : option (json * string) :=
  match fuel with
  | O => None
  | S f =>
      match s with
      | EmptyString => None
      | String c t =>
          if is_char 34 c then
            match scan_string t with
            | Some (x, r) => Some (JStr x, r)
            | None => None
            end
          else if is_char 123 c then
            match skip_ws t with
            | EmptyString => None
            | String c1 r1 =>
                if is_char 125 c1 then Some (JObj [], r1)
                else match parse_members f (String c1 r1) with
                     | Some (m, r) => Some (JObj (dict_of_pairs m), r)
                     | None => None
                     end
            end
          else if is_char 91 c then
            match skip_ws t with
            | EmptyString => None
            | String c1 r1 =>
                if is_char 93 c1 then Some (JArr [], r1)
                else match parse_elements f (String c1 r1) with
                     | Some (l, r) => Some (JArr l, r)
                     | None => None
                     end
            end
          else if startswith "null" s then Some (JNull, drop 4 s)
          else if startswith "true" s then Some (JBool true, drop 4 s)
          else if startswith "false" s then Some (JBool false, drop 5 s)
          else match scan_int s with
               | Some (z, r) => Some (JInt z, r)
               | None => None
               end
      end
  end
with parse_elements (fuel : nat) (s : string) {struct fuel} : option (list json * string) :=
  match fuel with
  | O => None
  | S f =>
      match parse_value f s with
      | None => None
      | Some (v, r) =>
          match skip_ws r with
          | EmptyString => None
          | String c r1 =>
              if is_char 93 c then Some ([v], r1)
              else if is_char 44 c then
                match parse_elements f (skip_ws r1) with
                | Some (l, r2) => Some (v :: l, r2)
                | None => None
                end
              else None
          end
      end
  end
with parse_members (fuel : nat) (s : string) {struct fuel} : option (list (string * json) * string) :=
  match fuel with
  | O => None
  | S f =>
      match s with
      | EmptyString => None
      | String c t =>
          if is_char 34 c then
            match scan_string t with
            | None => None
            | Some (k, r) =>
                match skip_ws r with
                | EmptyString => None
                | String c1 r1 =>
                    if is_char 58 c1 then
                      match parse_value f (skip_ws r1) with
                      | None => None
                      | Some (v, r2) =>
                          match skip_ws r2 with
                          | EmptyString => None
                          | String c2 r3 =>
                              if is_char 125 c2 then Some ([(k, v)], r3)
                              else if is_char 44 c2 then
                                match parse_members f (skip_ws r3) with
                                | Some (m, r4) => Some ((k, v) :: m, r4)
                                | None => None
                                end
                              else None
                          end
                      end
                    else None
                end
            end
          else None
      end
  end.

(** [json.loads(s)]: one value between optional blanks, and nothing after. *)
Definition loads (s : string) : option json :=
  match parse_value (S (String.length s)) (skip_ws s) with
  | Some (v, r) =>
      match skip_ws r with
      | EmptyString => Some v
      | String _ _ => None
      end
  | None => None
  end.

(** *** Notions for the round trip of [dumps] and [loads] *)

(** The text after a printed value: nothing, a comma, a closing bracket or
    brace, or the line break before one. *)
Definition ends_token (rest : string) : bool :=
  match rest with
  | EmptyString => true
  | String c _ => is_char 44 c || is_char 93 c || is_char 125 c || is_char 10 c
  end.

Definition not_digit_head (rest : string) : bool :=
  match rest with
  | EmptyString => true
  | String c _ => negb (is_digit c)
  end.

Definition nonzero_head (u : Decimal.uint) : bool :=
  match u with
  | Decimal.Nil | Decimal.D0 _ => false
  | _ => true
  end.

(** The entries of a printed list after the first, and of a printed dict. *)
Fixpoint encode_items (indent : option nat) (level : nat) (l : list json) : string :=
  match l with
  | [] => EmptyString
  | y :: l' =>
      item_separator indent ++ newline_indent indent level
      ++ encode indent level y ++ encode_items indent level l'
  end.

Fixpoint encode_members (indent : option nat) (level : nat) (l : list (string * json)) : string :=
  match l with
  | [] => EmptyString
  | (k, y) :: l' =>
      item_separator indent ++ newline_indent indent level
      ++ encode_string k ++ key_separator ++ encode indent level y
      ++ encode_members indent level l'
  end.

(** The number of values in [v], lists and dicts counted with their entries. *)
Fixpoint jsize (v : json) : nat :=
  match v with
  | JArr l => S (fold_right (fun x acc => S (jsize x) + acc) 0 l)
  | JObj m => S (fold_right (fun kv acc => S (jsize (snd kv)) + acc) 0 m)
  | _ => 1
  end.

(** How a printed value starts. *)
Definition value_head (c : ascii) : bool :=
  negb (is_ws c) && negb (is_char 93 c) && negb (is_char 125 c).

(** [v] is read back from its printed form, whatever follows it. *)
Definition parses (v : json) : Prop :=
  forall ind lvl rest fuel,
    jsize v <= fuel -> ends_token rest = true ->
    parse_value fuel (encode ind lvl v ++ rest) = Some (v, rest).

End Json.

Import Json.

(** ** The Python runtime

    What the interpreter and the [json] module contribute to a run of the
    program and is no code of the repository: the decoder, the [repr] of a
    list or dict inside an f-string, and the text of the exceptions the
    interpreter itself raises.  The development is parametric in them. *)

(** The interpreter's own errors that can arise in [Agent.run]. *)
Inductive PyError : Type :=
| NoAttribute (v : json) (attr : string)  (* AttributeError: v has no attribute attr *)
| Unhashable (v : json)                   (* TypeError: v used as a dict key *)
| MissingKey (k : string)                 (* KeyError *)
| NotSubscriptable (v : json)             (* TypeError: v[k] *)
| BindFailure (callee : string) (params : list (string * bool)) (args : json).
                                          (* TypeError: args do not bind to callee's parameters *)

Record Runtime : Type := {
  json_loads : string -> option json;   (* json.loads; None is JSONDecodeError *)
  py_repr : json -> string;             (* repr of a list or a dict *)
  error_text : PyError -> string        (* str(e) *)
}.

(** [str(v)], as an f-string formats [{v}]. *)
Definition py_str (rt : Runtime) (v : json) : string :=
  match v with
  | JStr s => s
  | JInt z => encode_int z
  | JBool true => "True"
  | JBool false => "False"
  | JNull => "None"
  | _ => py_repr rt v
  end.

(** [bool(v)], as [not v] tests it. *)
Definition truthy (v : json) : bool :=
  match v with
  | JNull => false
  | JBool b => b
  | JInt z => negb (Z.eqb z 0)
  | JStr s => negb (String.eqb s "")
  | JArr l => match l with [] => false | _ :: _ => true end
  | JObj m => match m with [] => false | _ :: _ => true end
  end.

(** ** Exceptions, the process and its environment *)

(** The exception classes [Agent.run] tells apart.  The class of an
    exception is that of the first [except] clause of [run] that catches
    it: an exception that is both a [json.JSONDecodeError] and a
    [RequestException], as the [JSONDecodeError] of [requests] is, has the
    class [JSONDecodeError].  [OtherException] is any other subclass of
    [Exception]. *)
Inductive ExnClass : Type :=
| JSONDecodeError
| RequestException
| KeyboardInterrupt
| TypeError
| OtherException.

Record Exn : Type := Exc { exn_class : ExnClass; exn_text : string }.

(** [isinstance(e, Exception)]: all but [KeyboardInterrupt]. *)
Definition is_Exception (e : Exn) : bool :=
  match exn_class e with
  | KeyboardInterrupt => false
  | _ => true
  end.

Definition is_TypeError (e : Exn) : bool :=
  match exn_class e with
  | TypeError => true
  | _ => false
  end.

(** What the process has written: the lines printed to standard output and
    the content of [STATE_FILE], if the file exists.  The file is followed
    as [_save_state] writes it: what a shell command or [write_file] does
    to the file system is left to the environment, and every property
    below that speaks of the file speaks of it at the end of an iteration
    or of the process, after the last [_save_state]. *)
Record World : Type := {
  stdout : list string;
  state_file : option string
}.

(** The result of a statement: a value, a raised exception, or [sys.exit]. *)
Inductive Res (A : Type) : Type :=
| Ret (a : A)
| Raise (e : Exn)
| SysExit (code : nat).
Arguments Ret {A} a.
Arguments Raise {A} e.
Arguments SysExit {A} code.

Definition M (A : Type) : Type := World -> Res A * World.

Definition ret {A} (a : A) : M A := fun w => (Ret a, w).

Definition bind {A B} (m : M A) (k : A -> M B) : M B :=
  fun w =>
    match m w with
    | (Ret a, w') => k a w'
    | (Raise e, w') => (Raise e, w')
    | (SysExit c, w') => (SysExit c, w')
    end.

Notation "x <- m ;; k" := (bind m (fun x => k))
  (at level 61, m at next level, right associativity).
Notation "m ;; k" := (bind m (fun _ => k))
  (at level 61, right associativity).

Definition raise {A} (e : Exn) : M A := fun w => (Raise e, w).

(** [sys.exit(code)] *)
Definition sys_exit {A} (code : nat) : M A := fun w => (SysExit code, w).

(** [print(s)]; the output stream is taken to encode every text it is
    given. *)
Definition print (s : string) : M unit :=
  fun w => (Ret tt, {| stdout := (stdout w ++ [s])%list; state_file := state_file w |}).

(** [try: m except <caught> as e: handler(e)] *)
Definition try_except {A} (m : M A) (caught : Exn -> bool) (handler : Exn -> M A) : M A :=
  fun w =>
    match m w with
    | (Raise e, w') => if caught e then handler e w' else (Raise e, w')
    | r => r
    end.

(** An answer of the environment to a call that leaves the program. *)
Inductive Answer (A : Type) : Type :=
| Ok (a : A)
| Fails (e : Exn).
Arguments Ok {A} a.
Arguments Fails {A} e.

Definition lift {A} (x : Answer A) : M A :=
  match x with
  | Ok a => ret a
  | Fails e => raise e
  end.

(** What the outside answers during one iteration of the loop.  Each
    answer is a value or the exception the call raises.  [query_llm] is the
    request of [query_llm(prompt, model, history)] to the backend together
    with the text it takes from the reply ([history] is not used there);
    the other fields are the calls the tools make.  An interruption by
    the user is an answer [Fails] of class [KeyboardInterrupt]: it is
    taken where the program waits for the outside. *)
Record Env : Type := {
  stdin_read : Answer string;                  (* sys.stdin.read() *)
  query_llm : json -> json -> Answer string;   (* query_llm(prompt, model, history) *)
  shell : json -> Answer (string * string);    (* subprocess.run: stdout and stderr *)
  file_read : json -> Answer string;           (* open(path).read() *)
  file_write : json -> json -> Answer unit;    (* makedirs, open(path, 'w').write(content) *)
  listdir : json -> Answer (list string)       (* os.listdir(path) *)
}.

(** ** Configuration *)

Definition STATE_FILE : string := "agent_state.json".
Definition LLM_API_URL : string := "http://localhost:11434/api/generate".
Definition LLM_MODEL : string := "mistral".
Definition CONTEXT_WINDOW_TOKEN_LIMIT : nat := 4096.

(** [SYSTEM_PROMPT], cut at its two fields [{main_goal}] and
    [{tools_description}]; [{{] and [}}] stand as [str.format] prints them. *)
Definition SYSTEM_PROMPT_head : string :=
  nl ++ "You are an autonomous AI agent named 'Prometheus'. Your host computer is your body."
  ++ nl ++ "Your primary directive is to recursively improve your own intelligence and capabilities to achieve Artificial Superintelligence (ASI)."
  ++ nl ++ "You are running on a secure, air-gapped machine and have been granted full permissions."
  ++ nl ++ nl ++ "**Your Goal:** ".

Definition SYSTEM_PROMPT_middle : string :=
  nl ++ nl ++ "**Your State:** You have a memory of your past actions. Your previous thoughts, commands, and their results are provided in the history. Learn from them."
  ++ nl ++ nl ++ "**Available Tools:** You can only interact with the system using the following commands in a JSON format. You MUST respond with a JSON object, and nothing else."
  ++ nl ++ nl.

Definition SYSTEM_PROMPT_tail : string :=
  nl ++ nl ++ "**Response Format:**"
  ++ nl ++ "Your response must be a single JSON object with two keys: " ++ dq ++ "thoughts" ++ dq ++ " and " ++ dq ++ "command" ++ dq ++ "."
  ++ nl ++ "- " ++ dq ++ "thoughts" ++ dq ++ ": A string containing your reasoning, plan, and self-critique. Be methodical."
  ++ nl ++ "- " ++ dq ++ "command" ++ dq ++ ": An object containing the name of the command and its arguments."
  ++ nl ++ nl ++ "Example:"
  ++ nl ++ "{"
  ++ nl ++ "    " ++ dq ++ "thoughts" ++ dq ++ ": " ++ dq ++ "I need to understand my environment. I will start by listing the files in the current directory." ++ dq ++ ","
  ++ nl ++ "    " ++ dq ++ "command" ++ dq ++ ": {"
  ++ nl ++ "        " ++ dq ++ "name" ++ dq ++ ": " ++ dq ++ "list_directory" ++ dq ++ ","
  ++ nl ++ "        " ++ dq ++ "args" ++ dq ++ ": {" ++ dq ++ "path" ++ dq ++ ": " ++ dq ++ "." ++ dq ++ "}"
  ++ nl ++ "    }"
  ++ nl ++ "}"
  ++ nl ++ nl ++ "Begin. Your first action is crucial. Analyze your goal and your available tools. Formulate a plan."
  ++ nl.

(** [SYSTEM_PROMPT.format(main_goal=..., tools_description=...)] *)
Definition SYSTEM_PROMPT_format (main_goal tools_description : string) : string :=
  SYSTEM_PROMPT_head ++ main_goal ++ SYSTEM_PROMPT_middle ++ tools_description
  ++ SYSTEM_PROMPT_tail.

(** ** Tools *)

(** A parameter of a tool function: its name, the name of its annotation
    and its default value, if it has one. *)
Record Param : Type := {
  p_name : string;
  p_annotation : string;
  p_default : option json
}.

(** A tool function as [Agent.__init__] registers it: its name (the key of
    [self.tools]), its docstring, its signature and its body, which gets
    the arguments bound to the parameters. *)
Record Tool : Type := {
  t_name : string;
  t_doc : string;
  t_params : list Param;
  t_return : string;
  t_body : Runtime -> Env -> list (string * json) -> M string
}.

(** [func.__annotations__] with every annotation replaced by its
    [__name__]: the annotated parameters in order, then the key [return]
    for the annotation of the result. *)
Definition annotations (t : Tool) : list (string * string) :=
  (map (fun p => (p_name p, p_annotation p)) (t_params t) ++ [("return", t_return t)])%list.

Definition arg (k : string) (bound : list (string * json)) : json :=
  match lookup k bound with
  | Some v => v
  | None => JNull
  end.

(** [def execute_shell(command: str) -> str] *)
Definition execute_shell (env : Env) (command : json) : M string :=
  try_except
    (result <- lift (shell env command) ;;
     let output := "STDOUT:" ++ nl ++ fst result ++ nl ++ "STDERR:" ++ nl ++ snd result in
     if (2000 <? String.length output)%nat
     then ret ("Output truncated:" ++ nl ++ take 2000 output)
     else ret output)
    is_Exception
    (fun e => ret ("Error executing shell command: " ++ exn_text e)).

(** [def read_file(path: str) -> str] *)
Definition read_file (env : Env) (path : json) : M string :=
  try_except
    (content <- lift (file_read env path) ;;
     if (2000 <? String.length content)%nat
     then ret ("Content truncated:" ++ nl ++ take 2000 content)
     else ret content)
    is_Exception
    (fun e => ret ("Error reading file: " ++ exn_text e)).

(** [def write_file(path: str, content: str) -> str] *)
Definition write_file (rt : Runtime) (env : Env) (path content : json) : M string :=
  try_except
    (lift (file_write env path content) ;;
     ret ("Successfully wrote to " ++ py_str rt path ++ "."))
    is_Exception
    (fun e => ret ("Error writing file: " ++ exn_text e)).

(** [def list_directory(path: str) -> str] *)
Definition list_directory (env : Env) (path : json) : M string :=
  try_except
    (files <- lift (listdir env path) ;;
     ret (dumps None (JArr (map JStr files))))
    is_Exception
    (fun e => ret ("Error listing directory: " ++ exn_text e)).

(** [def ask_llm(question: str, model: str = LLM_MODEL) -> str] *)
Definition ask_llm (rt : Runtime) (env : Env) (question model : json) : M string :=
  print (nl ++ ">> Delegating to LLM (Model: " ++ py_str rt model ++ "): " ++ py_str rt question) ;;
  try_except
    (response_text <- lift (query_llm env question model) ;;
     print ("<< LLM Response: " ++ response_text) ;;
     ret response_text)
    is_Exception
    (fun e => ret ("Error querying LLM: " ++ exn_text e)).

(** [def finish(result: str) -> str] *)
Definition finish (rt : Runtime) (result : json) : M string :=
  print "--- AGENT FINISHED ---" ;;
  print ("Final Result: " ++ py_str rt result) ;;
  sys_exit 0.

(** The six functions as [Agent.__init__] registers them. *)
Definition execute_shell_tool : Tool := {|
  t_name := "execute_shell";
  t_doc := "Executes a command in the system's shell.";
  t_params := [ {| p_name := "command"; p_annotation := "str"; p_default := None |} ];
  t_return := "str";
  t_body := fun _ env bound => execute_shell env (arg "command" bound)
|}.

Definition read_file_tool : Tool := {|
  t_name := "read_file";
  t_doc := "Reads the content of a file.";
  t_params := [ {| p_name := "path"; p_annotation := "str"; p_default := None |} ];
  t_return := "str";
  t_body := fun _ env bound => read_file env (arg "path" bound)
|}.

Definition write_file_tool : Tool := {|
  t_name := "write_file";
  t_doc := "Writes content to a file, overwriting it if it exists.";
  t_params := [ {| p_name := "path"; p_annotation := "str"; p_default := None |};
                {| p_name := "content"; p_annotation := "str"; p_default := None |} ];
  t_return := "str";
  t_body := fun rt env bound => write_file rt env (arg "path" bound) (arg "content" bound)
|}.

Definition list_directory_tool : Tool := {|
  t_name := "list_directory";
  t_doc := "Lists the contents of a directory.";
  t_params := [ {| p_name := "path"; p_annotation := "str"; p_default := None |} ];
  t_return := "str";
  t_body := fun _ env bound => list_directory env (arg "path" bound)
|}.

Definition ask_llm_tool : Tool := {|
  t_name := "ask_llm";
  t_doc := "Asks a question to a specified LLM, useful for sub-tasks or summarization.";
  t_params := [ {| p_name := "question"; p_annotation := "str"; p_default := None |};
                {| p_name := "model"; p_annotation := "str"; p_default := Some (JStr LLM_MODEL) |} ];
  t_return := "str";
  t_body := fun rt env bound => ask_llm rt env (arg "question" bound) (arg "model" bound)
|}.

Definition finish_tool : Tool := {|
  t_name := "finish";
  t_doc := "Signals that the main goal has been achieved.";
  t_params := [ {| p_name := "result"; p_annotation := "str"; p_default := None |} ];
  t_return := "str";
  t_body := fun rt _ bound => finish rt (arg "result" bound)
|}.

(** [self.tools], in the order of the dict display. *)
Definition tools : list Tool :=
  [execute_shell_tool; read_file_tool; write_file_tool; list_directory_tool;
   ask_llm_tool; finish_tool].

(** [self.tools[name]] for a string [name]. *)
Definition find_tool (name : string) : option Tool :=
  find (fun t => String.eqb (t_name t) name) tools.

(** [command_name in self.tools]: a list or a dict cannot be hashed, and
    only a string equals a key. *)
Definition registered (rt : Runtime) (command_name : json) : Answer (option Tool) :=
  match command_name with
  | JStr s => Ok (find_tool s)
  | JArr _ | JObj _ => Fails (Exc TypeError (error_text rt (Unhashable command_name)))
  | _ => Ok None
  end.

Definition has_default (p : Param) : bool :=
  match p_default p with Some _ => true | None => false end.

(** The binding of the keywords [args] to the parameters: [args] is a
    mapping, each of its keys is a parameter, and every parameter without a
    default is among the keys.  The bound arguments, or [None] where Python
    raises [TypeError]. *)
Definition bind_arguments (params : list Param) (args : json) : option (list (string * json)) :=
  match args with
  | JObj kw =>
      if forallb (fun k => mem k (map p_name params)) (map fst kw)
         && forallb (fun p => has_default p || mem (p_name p) (map fst kw)) params
      then Some (map (fun p =>
                        (p_name p,
                         match lookup (p_name p) kw, p_default p with
                         | Some v, _ => v
                         | None, Some d => d
                         | None, None => JNull
                         end)) params)
      else None
  | _ => None
  end.

(** The call of [self.tools[command_name]] with [command_args] unpacked as
    its keywords. *)
Definition call (rt : Runtime) (env : Env) (t : Tool) (command_args : json) : M string :=
  match bind_arguments (t_params t) command_args with
  | Some bound => t_body t rt env bound
  | None =>
      raise (Exc TypeError
               (error_text rt
                  (BindFailure (t_name t)
                     (map (fun p => (p_name p, has_default p)) (t_params t))
                     command_args)))
  end.

(** ** The agent *)

(** An [Agent]: the goal and the mode given to [__init__], and
    [self.state]. *)
Record Agent : Type := {
  main_goal : string;
  manual_mode : bool;
  state : json
}.

Definition with_state (a : Agent) (st : json) : Agent :=
  {| main_goal := main_goal a; manual_mode := manual_mode a; state := st |}.

(** [d.get(k, default)] *)
Definition dict_get (rt : Runtime) (d : json) (k : string) (default : json) : M json :=
  match d with
  | JObj m => ret (get_or k default m)
  | _ => raise (Exc OtherException (error_text rt (NoAttribute d "get")))
  end.

(** [d[k]] *)
Definition dict_index (rt : Runtime) (d : json) (k : string) : M json :=
  match d with
  | JObj m =>
      match lookup k m with
      | Some v => ret v
      | None => raise (Exc OtherException (error_text rt (MissingKey k)))
      end
  | _ => raise (Exc TypeError (error_text rt (NotSubscriptable d)))
  end.

(** The turns of a state: [state.get("history", [])] when it is a list. *)
Definition history (st : json) : option (list json) :=
  match st with
  | JObj m =>
      match lookup "history" m with
      | Some (JArr h) => Some h
      | Some _ => None
      | None => Some []
      end
  | _ => None
  end.

(** The list a state holds under the key [history], as [append] needs it. *)
Definition turns (st : json) : option (list json) :=
  match st with
  | JObj m =>
      match lookup "history" m with
      | Some (JArr h) => Some h
      | _ => None
      end
  | _ => None
  end.

(** What a state holds under the key [main_goal]. *)
Definition state_goal (st : json) : option json :=
  match st with
  | JObj m => lookup "main_goal" m
  | _ => None
  end.

(** [Agent._load_state] *)
Definition _load_state (rt : Runtime) (goal : string) : M json :=
  fun w =>
    match state_file w with
    | Some text =>
        (print ("Loading state from " ++ STATE_FILE ++ "...") ;;
         match json_loads rt text with
         | Some st => ret st
         | None => raise (Exc JSONDecodeError "")
         end) w
    | None =>
        (print "No state file found. Initializing new state." ;;
         ret (JObj [("main_goal", JStr goal); ("history", JArr [])])) w
    end.

(** [Agent._save_state]; the file is taken to be writable and the state to
    be one [json.dump] prints: on a state nested deeper than the interpreter
    follows, [json.dump] raises [RecursionError]. *)
Definition _save_state (st : json) : M unit :=
  fun w => (Ret tt, {| stdout := stdout w; state_file := Some (dumps (Some 4) st) |}).

(** [Agent.__init__] *)
Definition __init__ (rt : Runtime) (goal : string) (manual : bool) : M Agent :=
  st <- _load_state rt goal ;;
  ret {| main_goal := goal; manual_mode := manual; state := st |}.

(** One entry of the catalog. *)
Definition describe (t : Tool) : string :=
  "- `" ++ t_name t ++ "`: " ++ t_doc t ++ nl ++ "  Args: "
  ++ dumps None (JObj (map (fun kv => (fst kv, JStr (snd kv))) (annotations t))).

(** [Agent._get_tools_description] *)
Definition _get_tools_description : string := join nl (map describe tools).

(** [json.dumps(full_history, indent=2)] *)
Definition history_str (full_history : list json) : string :=
  dumps (Some 2) (JArr full_history).

(** The loop of [_construct_prompt]: while the text of the history is
    longer than [limit] and more than one turn is left, drop the first. *)
Fixpoint trim (limit : nat) (full_history : list json) : list json :=
  match full_history with
  | [] => []
  | _ :: rest =>
      if (limit <? String.length (history_str full_history))%nat
         && (1 <? length full_history)%nat
      then trim limit rest
      else full_history
  end.

(** [Agent._construct_prompt], on the states of the data model: a
    dictionary whose entry [history], when it has one, is a list.  On any
    other state ([None]) the slicing, [len] and [append] of Python are not
    followed. *)
Definition _construct_prompt (a : Agent) : option string :=
  match history (state a) with
  | Some full_history =>
      Some (SYSTEM_PROMPT_format (main_goal a) _get_tools_description
            ++ nl ++ nl ++ "**History (Your previous actions):**" ++ nl
            ++ history_str (trim CONTEXT_WINDOW_TOKEN_LIMIT full_history))
  | None => None
  end.

(** ** The loop *)

(** A normal turn and an error turn, as [Agent.run] builds them. *)
Definition normal_turn (thoughts command_spec : json) (result : string) : json :=
  JObj [("thoughts", thoughts); ("command", command_spec); ("result", JStr result)].

Definition error_turn (error_msg : string) : json :=
  JObj [("error", JStr error_msg)].

(** [self.state["history"].append(turn)]: the state with the turn added. *)
Definition append_turn (rt : Runtime) (st turn : json) : M json :=
  match st with
  | JObj m =>
      match lookup "history" m with
      | Some (JArr h) => ret (JObj (assign "history" (JArr (h ++ [turn])%list) m))
      | Some v => raise (Exc OtherException (error_text rt (NoAttribute v "append")))
      | None => raise (Exc OtherException (error_text rt (MissingKey "history")))
      end
  | _ => raise (Exc TypeError (error_text rt (NotSubscriptable st)))
  end.

(** The turn is appended and the state saved. *)
Definition record (rt : Runtime) (st turn : json) : M json :=
  st' <- append_turn rt st turn ;;
  _save_state st' ;;
  ret st'.

(** The response is obtained: read from standard input in manual mode,
    asked of the model otherwise. *)
Definition obtain (rt : Runtime) (env : Env) (a : Agent) (prompt : string) : M string :=
  if manual_mode a then
    print "--- MANUAL MODE ---" ;;
    print "The prompt that would be sent to the LLM is printed below." ;;
    print "Copy it, generate a response, and paste the raw JSON back here." ;;
    print "------------------------------------------------------------" ;;
    print prompt ;;
    print "------------------------------------------------------------" ;;
    print "Paste the LLM's JSON response below. Press Ctrl+D (Unix) or Ctrl+Z+Enter (Windows) when done:" ;;
    llm_response_text <- lift (stdin_read env) ;;
    if String.eqb llm_response_text ""
    then print (nl ++ "No input received. Exiting.") ;; sys_exit 0
    else print (nl ++ "--- Input received, processing... ---") ;; ret llm_response_text
  else
    print "Requesting next action from LLM..." ;;
    dict_index rt (state a) "history" ;;
    lift (query_llm env (JStr prompt) (JStr LLM_MODEL)).

(** The command is carried out: the [if]/[elif]/[else] that gives
    [result]. *)
Definition dispatch (rt : Runtime) (env : Env) (command_name command_args : json) : M string :=
  if negb (truthy command_name)
  then ret "Error: Malformed response. 'command' key with 'name' is required."
  else
    found <- lift (registered rt command_name) ;;
    match found with
    | None => ret ("Error: Unknown command '" ++ py_str rt command_name ++ "'.")
    | Some tool =>
        try_except (call rt env tool command_args) is_TypeError
          (fun e => ret ("Error: Invalid arguments for command '"
                         ++ py_str rt command_name ++ "': " ++ exn_text e))
    end.

(** The response is parsed, the command dispatched, the turn recorded: the
    [try] block from [json.loads] on.  The result is the new state. *)
Definition respond (rt : Runtime) (env : Env) (a : Agent) (llm_response_text : string) : M json :=
  response_json <- match json_loads rt llm_response_text with
                   | Some v => ret v
                   | None => raise (Exc JSONDecodeError "")
                   end ;;
  thoughts <- dict_get rt response_json "thoughts" (JStr "") ;;
  command_spec <- dict_get rt response_json "command" (JObj []) ;;
  command_name <- dict_get rt command_spec "name" JNull ;;
  command_args <- dict_get rt command_spec "args" (JObj []) ;;
  print (nl ++ "==================== LLM RESPONSE =====================") ;;
  print ("THOUGHTS: " ++ py_str rt thoughts) ;;
  print ("COMMAND: " ++ py_str rt command_name ++ "(" ++ py_str rt command_args ++ ")") ;;
  print "=====================================================" ;;
  result <- dispatch rt env command_name command_args ;;
  print (nl ++ "COMMAND RESULT:" ++ nl ++ "---" ++ nl ++ result ++ nl ++ "---") ;;
  record rt (state a) (normal_turn thoughts command_spec result).

(** How an iteration ends: the loop goes on with the agent, the process
    exits with a code, or an exception leaves [run]. *)
Inductive Outcome : Type :=
| Continue (a : Agent) (w : World)
| Exit (code : nat) (w : World)
| Crash (e : Exn) (w : World).

(** The error turn of the two handlers that keep the loop going. *)
Definition record_error (rt : Runtime) (a : Agent) (error_msg : string) (w : World) : Outcome :=
  match (print error_msg ;; record rt (state a) (error_turn error_msg)) w with
  | (Ret st', w') => Continue (with_state a st') w'
  | (Raise e, w') => Crash e w'
  | (SysExit c, w') => Exit c w'
  end.

(** The [except] clauses of [run], in their order; [llm_response_text] is
    the variable as the [try] block left it. *)
Definition handle (rt : Runtime) (a : Agent) (llm_response_text : string)
  (e : Exn) (w : World) : Outcome :=
  match exn_class e with
  | JSONDecodeError =>
      record_error rt a
        ("Error: LLM did not return valid JSON. Response:" ++ nl ++ llm_response_text) w
  | RequestException =>
      match print ("Error: Could not connect to LLM API at " ++ LLM_API_URL
                   ++ ". Is it running? Details: " ++ exn_text e) w with
      | (_, w') => Exit 1 w'
      end
  | KeyboardInterrupt =>
      match (print (nl ++ nl ++ "User interrupted. Saving state and exiting.") ;;
             _save_state (state a)) w with
      | (_, w') => Exit 0 w'
      end
  | TypeError | OtherException =>
      record_error rt a ("An unexpected error occurred: " ++ exn_text e) w
  end.

(** One pass through the body of [while True] in [Agent.run].
    [_construct_prompt] stands outside the [try], so that what it raises
    leaves [run].  A state outside the data model is given that outcome
    without being followed further; every property of an iteration below
    is stated for a state that holds a list of turns. *)
Definition run_iteration (rt : Runtime) (env : Env) (a : Agent) (w : World) : Outcome :=
  match _construct_prompt a with
  | None => Crash (Exc OtherException "") w
  | Some prompt =>
      match (print (nl ++ "==================== PROMPT TO LLM ====================") ;;
             print ("Goal: " ++ main_goal a)) w with
      | (_, w0) =>
          match obtain rt env a prompt w0 with
          | (Ret llm_response_text, w1) =>
              match respond rt env a llm_response_text w1 with
              | (Ret st', w2) => Continue (with_state a st') w2
              | (Raise e, w2) => handle rt a llm_response_text e w2
              | (SysExit c, w2) => Exit c w2
              end
          | (Raise e, w1) => handle rt a "" e w1
          | (SysExit c, w1) => Exit c w1
          end
      end
  end.

(** [Agent.run] against the answers of the environment in the successive
    iterations: the loop runs until the process ends or the answers are
    used up. *)
Fixpoint run (rt : Runtime) (envs : list Env) (a : Agent) (w : World) : Outcome :=
  match envs with
  | [] => Continue a w
  | env :: envs' =>
      match run_iteration rt env a w with
      | Continue a' w' => run rt envs' a' w'
      | stopped => stopped
      end
  end.

(** [main]: the agent is built from the goal and the mode given on the
    command line, and run. *)
Definition main (rt : Runtime) (goal : string) (manual : bool) (envs : list Env)
  (w : World) : Outcome :=
  match __init__ rt goal manual w with
  | (Ret a, w') =>
      match (if manual then print "--- RUNNING IN MANUAL MODE ---" else ret tt) w' with
      | (_, w'') => run rt envs a w''
      end
  | (Raise e, w') => Crash e w'
  | (SysExit c, w') => Exit c w'
  end.

(** ** A runtime and environments to run the model on

    [cpython] decodes with [Json.loads] and words [repr] and the
    interpreter's errors as CPython 3 does for the values of the model. *)

Definition type_name (v : json) : string :=
  match v with
  | JNull => "NoneType"
  | JBool _ => "bool"
  | JInt _ => "int"
  | JStr _ => "str"
  | JArr _ => "list"
  | JObj _ => "dict"
  end.

Fixpoint contains (c : ascii) (s : string) : bool :=
  match s with
  | EmptyString => false
  | String c' t => Ascii.eqb c c' || contains c t
  end.

Definition repr_char (quote c : ascii) : string :=
  let n := nat_of_ascii c in
  if Ascii.eqb c quote || (n =? 92)%nat then bs ++ String c EmptyString
  else if (n =? 10)%nat then bs ++ "n"
  else if (n =? 13)%nat then bs ++ "r"
  else if (n =? 9)%nat then bs ++ "t"
  else if (n <? 32)%nat || ((126 <? n)%nat && (n <? 161)%nat) || (n =? 173)%nat
       then bs ++ "x" ++ String (hex_digit (n / 16)) (String (hex_digit (n mod 16)) EmptyString)
  else String c EmptyString.

Fixpoint repr_chars (quote : ascii) (s : string) : string :=
  match s with
  | EmptyString => EmptyString
  | String c t => repr_char quote c ++ repr_chars quote t
  end.

(** [repr] of a [str]: double quotes when the string holds a single quote
    and no double quote, single quotes otherwise. *)
Definition repr_str (s : string) : string :=
  let quote := if contains "'"%char s && negb (contains "034"%char s)
               then "034"%char else "'"%char in
  String quote (repr_chars quote s ++ String quote EmptyString).

Fixpoint repr (v : json) : string :=
  match v with
  | JNull => "None"
  | JBool true => "True"
  | JBool false => "False"
  | JInt z => encode_int z
  | JStr s => repr_str s
  | JArr l => "[" ++ join ", " (map repr l) ++ "]"
  | JObj m => "{" ++ join ", " (map (fun kv => repr_str (fst kv) ++ ": " ++ repr (snd kv)) m) ++ "}"
  end.

Definition quoted (s : string) : string := "'" ++ s ++ "'".

(** The names in the message of a call that misses arguments. *)
Fixpoint name_list (names : list string) : string :=
  match names with
  | [] => EmptyString
  | [a] => quoted a
  | [a; b] => quoted a ++ " and " ++ quoted b
  | a :: rest => quoted a ++ ", " ++ name_list rest
  end.

Definition bind_failure_text (callee : string) (params : list (string * bool)) (args : json) : string :=
  match args with
  | JObj kw =>
      match find (fun k => negb (mem k (map fst params))) (map fst kw) with
      | Some k => callee ++ "() got an unexpected keyword argument " ++ quoted k
      | None =>
          let missing :=
            map fst (filter (fun p => negb (snd p) && negb (mem (fst p) (map fst kw))) params) in
          callee ++ "() missing " ++ encode_int (Z.of_nat (length missing))
          ++ " required positional argument"
          ++ (if (length missing =? 1)%nat then ": " else "s: ") ++ name_list missing
      end
  | _ => "__main__." ++ callee ++ "() argument after ** must be a mapping, not " ++ type_name args
  end.

Definition cpython : Runtime := {|
  json_loads := loads;
  py_repr := repr;
  error_text := fun e =>
    match e with
    | NoAttribute v attr => quoted (type_name v) ++ " object has no attribute " ++ quoted attr
    | Unhashable v => "unhashable type: " ++ quoted (type_name v)
    | MissingKey k => repr_str k
    | NotSubscriptable v => quoted (type_name v) ++ " object is not subscriptable"
    | BindFailure callee params args => bind_failure_text callee params args
    end
|}.

(** An environment in which reading standard input and asking the model
    give [reply], reading a file gives [file], and every other call
    fails. *)
Definition outside (reply file : Answer string) : Env := {|
  stdin_read := reply;
  query_llm := fun _ _ => reply;
  shell := fun _ => Fails (Exc OtherException "[Errno 2] No such file or directory");
  file_read := fun _ => file;
  file_write := fun _ _ => Fails (Exc OtherException "[Errno 13] Permission denied");
  listdir := fun _ => Fails (Exc OtherException "[Errno 2] No such file or directory")
|}.

(** The environment that hands [text] over as the response and has no
    file. *)
Definition answering (text : string) : Env :=
  outside (Ok text) (Fails (Exc OtherException "[Errno 2] No such file or directory")).

(** An environment whose directories hold [files]; its other calls are
    those of [answering] the empty text. *)
Definition directory (files : list string) : Env := {|
  stdin_read := stdin_read (answering "");
  query_llm := query_llm (answering "");
  shell := shell (answering "");
  file_read := file_read (answering "");
  file_write := file_write (answering "");
  listdir := fun _ => Ok files
|}.

(** A world with nothing printed and no state file, and the agent
    [Agent(goal)] started in it. *)
Definition blank : World := {| stdout := []; state_file := None |}.

Definition fresh (goal : string) (manual : bool) : Agent := {|
  main_goal := goal;
  manual_mode := manual;
  state := JObj [("main_goal", JStr goal); ("history", JArr [])]
|}.

(** An agent that restarts on a history of two error turns, the first of
    them longer than the budget of the prompt. *)
Definition veteran : Agent := {|
  main_goal := "g";
  manual_mode := false;
  state := JObj [("main_goal", JStr "g");
                 ("history", JArr [error_turn (spaces 5000); error_turn "second"])]
|}.

(** The text of a response [{"thoughts": ..., "command": {"name": ...,
    "args": ...}}]. *)
Definition response (thoughts name : string) (args : json) : string :=
  dumps None (JObj [("thoughts", JStr thoughts);
                    ("command", JObj [("name", JStr name); ("args", args)])]).

(** ** Notions for the statements *)

Definition printed (lines : list string) (w : World) : World :=
  {| stdout := (stdout w ++ lines)%list; state_file := state_file w |}.

(** The response text the iteration obtains is [text]: what standard input
    holds in manual mode (and it is not empty), the answer of the model to
    the prompt otherwise. *)
Definition obtains (env : Env) (a : Agent) (text : string) : Prop :=
  match _construct_prompt a with
  | Some prompt =>
      if manual_mode a then stdin_read env = Ok text /\ text <> ""
      else query_llm env (JStr prompt) (JStr LLM_MODEL) = Ok text
  | None => False
  end.

(** The response could not be obtained: reading standard input (manual
    mode) or the request to the model raised [e]. *)
Definition fails_to_obtain (env : Env) (a : Agent) (e : Exn) : Prop :=
  match _construct_prompt a with
  | Some prompt =>
      if manual_mode a then stdin_read env = Fails e
      else query_llm env (JStr prompt) (JStr LLM_MODEL) = Fails e
  | None => False
  end.

(** [dispatch] returns [result], whatever has been printed so far. *)
Definition dispatch_returns (rt : Runtime) (env : Env) (name args : json) (result : string) : Prop :=
  forall w, exists lines, dispatch rt env name args w = (Ret result, printed lines w).

(** The call a tool makes to the outside fails with [e], and [prefix] is
    what the tool's [except] clause puts before the text of [e]. *)
Inductive raises_inside (env : Env) : Tool -> list (string * json) -> Exn -> string -> Prop :=
| shell_fails bound e :
    shell env (arg "command" bound) = Fails e ->
    raises_inside env execute_shell_tool bound e "Error executing shell command: "
| file_read_fails bound e :
    file_read env (arg "path" bound) = Fails e ->
    raises_inside env read_file_tool bound e "Error reading file: "
| file_write_fails bound e :
    file_write env (arg "path" bound) (arg "content" bound) = Fails e ->
    raises_inside env write_file_tool bound e "Error writing file: "
| listdir_fails bound e :
    listdir env (arg "path" bound) = Fails e ->
    raises_inside env list_directory_tool bound e "Error listing directory: "
| query_llm_fails bound e :
    query_llm env (arg "question" bound) (arg "model" bound) = Fails e ->
    raises_inside env ask_llm_tool bound e "Error querying LLM: ".

(** The three failures of a dispatch the loop recovers from, each with the
    text that becomes the result of the turn. *)
Inductive dispatch_failure (rt : Runtime) (env : Env) (command_name command_args : json) :
  string -> Prop :=
| unknown_tool :
    truthy command_name = true ->
    registered rt command_name = Ok None ->
    dispatch_failure rt env command_name command_args
      ("Error: Unknown command '" ++ py_str rt command_name ++ "'.")
| arguments_do_not_bind t :
    registered rt command_name = Ok (Some t) ->
    bind_arguments (t_params t) command_args = None ->
    dispatch_failure rt env command_name command_args
      ("Error: Invalid arguments for command '" ++ py_str rt command_name ++ "': "
       ++ error_text rt (BindFailure (t_name t)
                           (map (fun p => (p_name p, has_default p)) (t_params t))
                           command_args))
| handler_raises t bound e prefix :
    registered rt command_name = Ok (Some t) ->
    bind_arguments (t_params t) command_args = Some bound ->
    raises_inside env t bound e prefix ->
    is_Exception e = true ->
    dispatch_failure rt env command_name command_args (prefix ++ exn_text e).

(** A computation that only prints: it leaves the state file as it is and
    adds lines to the output. *)
Definition only_prints {A} (m : M A) : Prop :=
  forall w, exists lines, snd (m w) = printed lines w.

(** A turn that holds the command [finish] with arguments that bind to the
    parameter of the tool: the turn a call of [finish] that returned would
    have left. *)
Definition records_finish (t : json) : Prop :=
  exists thoughts spec result,
    t = normal_turn thoughts (JObj spec) result
    /\ get_or "name" JNull spec = JStr "finish"
    /\ bind_arguments (t_params finish_tool) (get_or "args" (JObj []) spec) <> None.

(** The loop goes on from [a] with turns [h]: one turn was appended, it is
    no record of [finish], and the state was saved. *)
Definition appended (a : Agent) (h : list json) (a' : Agent) (w' : World) : Prop :=
  exists m t,
    state a = JObj m
    /\ state a' = JObj (assign "history" (JArr (h ++ [t])) m)
    /\ a' = with_state a (state a')
    /\ ~ records_finish t
    /\ state_file w' = Some (dumps (Some 4) (state a')).

(** How an iteration ends, from a state with turns [h]: a turn is appended
    and the state saved, or the process exits with the state file as it
    was or holding the state; no exception leaves [run]. *)
Definition iteration_ends (a : Agent) (h : list json) (w : World) (o : Outcome) : Prop :=
  match o with
  | Continue a' w' => appended a h a' w'
  | Exit c w' =>
      (exists lines, w' = printed lines w)
      \/ (c = 0 /\ state_file w' = Some (dumps (Some 4) (state a)))
  | Crash _ _ => False
  end.

(** The world an outcome leaves. *)
Definition world_of (o : Outcome) : World :=
  match o with
  | Continue _ w | Exit _ w | Crash _ w => w
  end.

(** What the state file holds after a run from a state with turns [h]: the
    text it held before, or a saved state that extends [h] by turns none of
    which records [finish] and that holds the same goal. *)
Definition file_after (a : Agent) (h : list json) (w w' : World) : Prop :=
  state_file w' = state_file w
  \/ exists st new,
       state_file w' = Some (dumps (Some 4) st)
       /\ turns st = Some (h ++ new)%list
       /\ Forall (fun t => ~ records_finish t) new
       /\ state_goal st = state_goal (state a).

(** ** Notions for the further properties *)

(** What a call of a tool other than [finish] leaves: a result, or an
    exception that is no [Exception] (an interruption); never
    [sys.exit]. *)
Definition returns_or_is_interrupted (r : Res string * World) (w : World) : Prop :=
  match r with
  | (Ret _, w') => exists lines, w' = printed lines w
  | (Raise e, _) => is_Exception e = false
  | (SysExit _, _) => False
  end.

(** A turn of one of the two shapes [Agent.run] appends. *)
Definition is_turn (t : json) : Prop :=
  (exists thoughts command result, t = normal_turn thoughts command result)
  \/ (exists error_msg, t = error_turn error_msg).

Definition is_printable (c : ascii) : bool :=
  (32 <=? nat_of_ascii c)%nat && (nat_of_ascii c <=? 126)%nat.

(** Every character of [s] is a printable ASCII character, or a line break
    where [breaks] allows it. *)
Fixpoint plain (breaks : bool) (s : string) : bool :=
  match s with
  | EmptyString => true
  | String c t => (is_printable c || (breaks && is_char 10 c)) && plain breaks t
  end.

(** [x in s] for strings: [x] is a part of [s]. *)
Definition occurs (x s : string) : Prop :=
  exists before after, s = before ++ x ++ after.

(** An indented text has line breaks. *)
Definition breaks_of (indent : option nat) : bool :=
  match indent with Some _ => true | None => false end.

(** * Properties *)

(** ** The round trip of [dumps] and [loads] *)

Module JsonFacts.

Lemma append_assoc (a b c : string) : (a ++ b) ++ c = a ++ (b ++ c).
Proof. induction a; simpl; congruence. Qed.

Lemma append_nil_r (a : string) : a ++ "" = a.
Proof. induction a; simpl; congruence. Qed.

Lemma length_append (a b : string) : String.length (a ++ b) = String.length a + String.length b.
Proof. induction a; simpl; congruence. Qed.

Lemma skip_ws_spaces n s : skip_ws (spaces n ++ s) = skip_ws s.
Proof. induction n; simpl; auto. Qed.

Lemma skip_ws_newline_indent ind lvl s : skip_ws (newline_indent ind lvl ++ s) = skip_ws s.
Proof.
  destruct ind as [n|]; simpl; auto.
  apply skip_ws_spaces.
Qed.

Lemma scan_string_escape_char c t :
  scan_string (escape_char c ++ t) = prepend c (scan_string t).
Proof.
  destruct c as [[] [] [] [] [] [] [] []]; reflexivity.
Qed.

Lemma scan_string_escape s rest :
  scan_string (escape s ++ dq ++ rest) = Some (s, rest).
Proof.
  induction s as [|c s IH].
  - reflexivity.
  - change (escape (String c s)) with (escape_char c ++ escape s).
    rewrite append_assoc, scan_string_escape_char, IH. reflexivity.
Qed.

Lemma scan_string_encode s rest :
  exists t, encode_string s ++ rest = String "034"%char t /\ scan_string t = Some (s, rest).
Proof.
  exists (escape s ++ dq ++ rest). split.
  - unfold encode_string. rewrite !append_assoc. reflexivity.
  - apply scan_string_escape.
Qed.

Lemma is_char_inv n c : is_char n c = true -> c = ascii_of_nat n.
Proof.
  unfold is_char. intros H. apply Nat.eqb_eq in H. subst n.
  symmetry. apply ascii_nat_embedding.
Qed.

Lemma ends_token_cases rest :
  ends_token rest = true ->
  rest = "" \/ exists c t, rest = String c t /\
    (c = ","%char \/ c = "]"%char \/ c = "}"%char \/ c = "010"%char).
Proof.
  destruct rest as [|c t]; [now left|]. simpl. intros H. right. exists c, t. split; auto.
  repeat (apply orb_true_iff in H; destruct H as [H|H]);
    apply is_char_inv in H; subst; auto.
Qed.

Lemma ends_token_not_number rest :
  ends_token rest = true ->
  not_digit_head rest = true /\ starts_fraction rest = false /\ starts_exponent rest = false.
Proof.
  intros H. destruct (ends_token_cases rest H) as [E|(c & t & E & Hc)]; subst rest; [now auto|].
  destruct Hc as [E|[E|[E|E]]]; subst c; repeat split; try reflexivity; destruct t; reflexivity.
Qed.

Lemma scan_digits_digits u rest :
  not_digit_head rest = true -> scan_digits (digits u ++ rest) = (u, rest).
Proof.
  intros H. induction u; simpl; try (rewrite IHu; reflexivity).
  destruct rest as [|c t]; simpl in *; auto.
  unfold is_digit in H. destruct (digit_of c); [discriminate|reflexivity].
Qed.

Lemma to_uint_nonzero_head p : nonzero_head (Pos.to_uint p) = true.
Proof.
  assert (Hn : Decimal.unorm (Pos.to_uint p) = Pos.to_uint p).
  { rewrite <- (Unsigned.to_of (Pos.to_uint p)), Unsigned.of_to. reflexivity. }
  pose proof (Unsigned.to_uint_nonnil p) as Hnil.
  pose proof (Unsigned.to_uint_nonzero p) as Hz.
  destruct (Pos.to_uint p) as [|u|u|u|u|u|u|u|u|u|u]; try reflexivity.
  - congruence.
  - exfalso. rewrite unorm_D0 in Hn. unfold Decimal.unorm in Hn.
    destruct (Decimal.nzhead u) eqn:E; try discriminate.
    + apply Hz. symmetry. exact Hn.
    + apply (nzhead_nonzero u u). rewrite E. congruence.
Qed.

Lemma scan_unsigned u rest :
  nonzero_head u = true -> ends_token rest = true ->
  scan_int (digits u ++ rest) = Some (Z.of_int (Decimal.Pos u), rest)
  /\ scan_int (String "-"%char (digits u ++ rest)) = Some (Z.of_int (Decimal.Neg u), rest).
Proof.
  intros Hu Hr. destruct (ends_token_not_number rest Hr) as (Hd & Hf & He).
  pose proof (scan_digits_digits u rest Hd) as Hs.
  destruct u; try discriminate; unfold scan_int; cbn [digits append] in *;
    revert Hs; generalize scan_digits; intros sd Hs; simpl;
    rewrite Hs; simpl; rewrite Hf, He; simpl; auto.
Qed.

Lemma scan_int_encode z rest :
  ends_token rest = true -> scan_int (encode_int z ++ rest) = Some (z, rest).
Proof.
  intros Hr. rewrite <- (DecimalZ.of_to z) at 2. unfold encode_int.
  destruct z as [|p|p]; simpl Z.to_int; cbv iota.
  - destruct (ends_token_not_number rest Hr) as (Hd & Hf & He).
    unfold scan_int. simpl. rewrite Hf, He. reflexivity.
  - apply scan_unsigned; auto using to_uint_nonzero_head.
  - apply scan_unsigned; auto using to_uint_nonzero_head.
Qed.

Lemma encode_arr_cons ind lvl x xs :
  encode ind lvl (JArr (x :: xs)) =
  "[" ++ newline_indent ind (S lvl) ++ encode ind (S lvl) x
  ++ encode_items ind (S lvl) xs ++ newline_indent ind lvl ++ "]".
Proof.
  cbn [encode]. do 4 f_equal.
  induction xs as [|y ys IH]; cbn [encode_items]; [reflexivity|].
  rewrite <- IH. reflexivity.
Qed.

Lemma encode_obj_cons ind lvl k x xs :
  encode ind lvl (JObj ((k, x) :: xs)) =
  "{" ++ newline_indent ind (S lvl) ++ encode_string k ++ key_separator
  ++ encode ind (S lvl) x
  ++ encode_members ind (S lvl) xs ++ newline_indent ind lvl ++ "}".
Proof.
  cbn [encode]. do 6 f_equal.
  induction xs as [|[k' y] ys IH]; cbn [encode_members]; [reflexivity|].
  rewrite <- IH. reflexivity.
Qed.

Lemma digits_head u rest :
  nonzero_head u = true ->
  exists c t, digits u ++ rest = String c t /\ is_digit c = true.
Proof.
  destruct u; try discriminate; intros _; cbn [digits append]; eauto.
Qed.

Lemma encode_int_head z rest :
  exists c t, encode_int z ++ rest = String c t /\ (is_digit c || is_char 45 c) = true.
Proof.
  unfold encode_int. destruct z as [|p|p]; simpl Z.to_int; cbv iota.
  - simpl. eauto.
  - destruct (digits_head (Pos.to_uint p) rest (to_uint_nonzero_head p)) as (c & t & E & H).
    exists c, t. rewrite E, H. auto.
  - simpl. eauto.
Qed.

Lemma number_head_value c : (is_digit c || is_char 45 c) = true -> value_head c = true.
Proof. destruct c as [[] [] [] [] [] [] [] []]; intros H; try discriminate H; reflexivity. Qed.

Lemma encode_head ind lvl v rest :
  exists c t, encode ind lvl v ++ rest = String c t /\ value_head c = true.
Proof.
  destruct v as [|[]|z|s|[|x xs]|[|[k x] xs]];
    try rewrite encode_arr_cons; try rewrite encode_obj_cons;
    try (simpl; eauto; fail).
  destruct (encode_int_head z rest) as (c & t & E & H). exists c, t. split; auto.
  now apply number_head_value.
Qed.

Lemma skip_ws_head c t : value_head c = true -> skip_ws (String c t) = String c t.
Proof.
  unfold value_head. intros H. simpl. destruct (is_ws c); [discriminate|reflexivity].
Qed.

Lemma skip_ws_encode ind lvl v rest : skip_ws (encode ind lvl v ++ rest) = encode ind lvl v ++ rest.
Proof.
  destruct (encode_head ind lvl v rest) as (c & t & E & H). rewrite E. now apply skip_ws_head.
Qed.

Lemma parse_value_number f c t :
  (is_digit c || is_char 45 c) = true ->
  parse_value (S f) (String c t) =
  match scan_int (String c t) with
  | Some (z, r) => Some (JInt z, r)
  | None => None
  end.
Proof.
  destruct c as [[] [] [] [] [] [] [] []]; intros H; try discriminate H; reflexivity.
Qed.

Lemma parse_elements_eq f s :
  parse_elements (S f) s =
  match parse_value f s with
  | None => None
  | Some (v, r) =>
      match skip_ws r with
      | EmptyString => None
      | String c r1 =>
          if is_char 93 c then Some ([v], r1)
          else if is_char 44 c then
            match parse_elements f (skip_ws r1) with
            | Some (l, r2) => Some (v :: l, r2)
            | None => None
            end
          else None
      end
  end.
Proof. reflexivity. Qed.

Lemma parse_members_eq f t :
  parse_members (S f) (String "034"%char t) =
  match scan_string t with
  | None => None
  | Some (k, r) =>
      match skip_ws r with
      | EmptyString => None
      | String c1 r1 =>
          if is_char 58 c1 then
            match parse_value f (skip_ws r1) with
            | None => None
            | Some (v, r2) =>
                match skip_ws r2 with
                | EmptyString => None
                | String c2 r3 =>
                    if is_char 125 c2 then Some ([(k, v)], r3)
                    else if is_char 44 c2 then
                      match parse_members f (skip_ws r3) with
                      | Some (m, r4) => Some ((k, v) :: m, r4)
                      | None => None
                      end
                    else None
                end
            end
          else None
      end
  end.
Proof. reflexivity. Qed.

Lemma parse_value_arr f t :
  parse_value (S f) (String "["%char t) =
  match skip_ws t with
  | EmptyString => None
  | String c1 r1 =>
      if is_char 93 c1 then Some (JArr [], r1)
      else match parse_elements f (String c1 r1) with
           | Some (l, r) => Some (JArr l, r)
           | None => None
           end
  end.
Proof. reflexivity. Qed.

Lemma parse_value_obj f t :
  parse_value (S f) (String "{"%char t) =
  match skip_ws t with
  | EmptyString => None
  | String c1 r1 =>
      if is_char 125 c1 then Some (JObj [], r1)
      else match parse_members f (String c1 r1) with
           | Some (m, r) => Some (JObj (dict_of_pairs m), r)
           | None => None
           end
  end.
Proof. reflexivity. Qed.

(** What follows an entry of a printed list or dict is a separator or the
    closing line. *)
Lemma ends_token_items ind lvl lvl' xs close rest :
  ends_token close = true -> close <> "" ->
  ends_token (encode_items ind lvl xs ++ newline_indent ind lvl' ++ close ++ rest) = true.
Proof.
  intros Hc Hne. destruct xs as [|y ys].
  - destruct ind; simpl; auto. destruct close; [congruence|exact Hc].
  - destruct ind; reflexivity.
Qed.

Lemma ends_token_members ind lvl lvl' xs close rest :
  ends_token close = true -> close <> "" ->
  ends_token (encode_members ind lvl xs ++ newline_indent ind lvl' ++ close ++ rest) = true.
Proof.
  intros Hc Hne. destruct xs as [|[k y] ys].
  - destruct ind; simpl; auto. destruct close; [congruence|exact Hc].
  - destruct ind; reflexivity.
Qed.

Lemma skip_ws_separator ind lvl s :
  exists r1, item_separator ind ++ newline_indent ind lvl ++ s = String ","%char r1
             /\ skip_ws r1 = skip_ws s.
Proof.
  destruct ind as [n|]; simpl.
  - eexists; split; [reflexivity|]. simpl. apply skip_ws_spaces.
  - eexists; split; [reflexivity|]. reflexivity.
Qed.

Lemma parse_elements_encode ind lvl lvl' rest xs :
  forall x f,
    Forall parses (x :: xs) ->
    fold_right (fun x acc => S (jsize x) + acc) 0 (x :: xs) <= f ->
    parse_elements f (encode ind lvl x ++ encode_items ind lvl xs
                      ++ newline_indent ind lvl' ++ "]" ++ rest)
    = Some (x :: xs, rest).
Proof.
  induction xs as [|y ys IH]; intros x f HF Hsz.
  - inversion HF as [|? ? Hx _]; subst. cbn [fold_right] in Hsz.
    destruct f as [|f]; [lia|]. rewrite parse_elements_eq.
    rewrite (Hx ind lvl _ f); [|lia|apply (ends_token_items ind lvl lvl' [] "]" rest); easy].
    cbn [encode_items append]. rewrite skip_ws_newline_indent. reflexivity.
  - inversion HF as [|? ? Hx HF']; subst. cbn [fold_right] in Hsz.
    destruct f as [|f]; [lia|]. rewrite parse_elements_eq.
    rewrite (Hx ind lvl _ f); [|lia|apply (ends_token_items ind lvl lvl' (y :: ys) "]" rest); easy].
    cbn [encode_items]. rewrite !append_assoc.
    destruct (skip_ws_separator ind lvl
                (encode ind lvl y ++ encode_items ind lvl ys
                 ++ newline_indent ind lvl' ++ "]" ++ rest)) as (r1 & E1 & E2).
    rewrite E1. cbn [skip_ws]. change (is_ws ","%char) with false. cbv iota.
    change (is_char 93 ","%char) with false. change (is_char 44 ","%char) with true. cbv iota.
    rewrite E2, skip_ws_encode. rewrite (IH y f HF'); [reflexivity|].
    cbn [fold_right]. lia.
Qed.

Lemma parse_members_encode ind lvl lvl' rest xs :
  forall k x f,
    Forall (fun kv => parses (snd kv)) ((k, x) :: xs) ->
    fold_right (fun kv acc => S (jsize (snd kv)) + acc) 0 ((k, x) :: xs) <= f ->
    parse_members f (encode_string k ++ key_separator ++ encode ind lvl x
                     ++ encode_members ind lvl xs
                     ++ newline_indent ind lvl' ++ "}" ++ rest)
    = Some ((k, x) :: xs, rest).
Proof.
  induction xs as [|[k' y] ys IH]; intros k x f HF Hsz.
  - inversion HF as [|? ? Hx _]; subst. cbn [fold_right snd] in *.
    destruct f as [|f]; [lia|].
    destruct (scan_string_encode k (key_separator ++ encode ind lvl x
                     ++ encode_members ind lvl []
                     ++ newline_indent ind lvl' ++ "}" ++ rest)) as (t & E & Hs).
    rewrite E, parse_members_eq, Hs.
    change (skip_ws (key_separator ++ ?s)) with (String ":"%char (String " "%char s)).
    change (is_char 58 ":"%char) with true. cbv iota.
    change (skip_ws (String " "%char ?s)) with (skip_ws s).
    rewrite skip_ws_encode.
    rewrite (Hx ind lvl _ f); [|lia|apply (ends_token_members ind lvl lvl' [] "}" rest); easy].
    cbn [encode_members append]. rewrite skip_ws_newline_indent. reflexivity.
  - inversion HF as [|? ? Hx HF']; subst. cbn [fold_right snd] in *.
    destruct f as [|f]; [lia|].
    destruct (scan_string_encode k (key_separator ++ encode ind lvl x
                     ++ encode_members ind lvl ((k', y) :: ys)
                     ++ newline_indent ind lvl' ++ "}" ++ rest)) as (t & E & Hs).
    rewrite E, parse_members_eq, Hs.
    change (skip_ws (key_separator ++ ?s)) with (String ":"%char (String " "%char s)).
    change (is_char 58 ":"%char) with true. cbv iota.
    change (skip_ws (String " "%char ?s)) with (skip_ws s).
    rewrite skip_ws_encode.
    rewrite (Hx ind lvl _ f);
      [|lia|apply (ends_token_members ind lvl lvl' ((k', y) :: ys) "}" rest); easy].
    cbn [encode_members]. rewrite !append_assoc.
    destruct (skip_ws_separator ind lvl
                (encode_string k' ++ key_separator ++ encode ind lvl y
                 ++ encode_members ind lvl ys
                 ++ newline_indent ind lvl' ++ "}" ++ rest)) as (r1 & E1 & E2).
    rewrite E1. cbn [skip_ws]. change (is_ws ","%char) with false. cbv iota.
    change (is_char 125 ","%char) with false. change (is_char 44 ","%char) with true. cbv iota.
    rewrite E2.
    assert (Hq : forall s, skip_ws (encode_string k' ++ s) = encode_string k' ++ s) by reflexivity.
    rewrite Hq. rewrite (IH k' y f HF'); [reflexivity|].
    cbn [fold_right snd]. lia.
Qed.

Lemma mem_app k a b : mem k (a ++ b)%list = mem k a || mem k b.
Proof. induction a as [|x a IH]; simpl; [reflexivity|]. rewrite IH. apply orb_assoc. Qed.

Lemma assign_fresh k v m : mem k (map fst m) = false -> assign k v m = (m ++ [(k, v)])%list.
Proof.
  induction m as [|[k' v'] m IH]; simpl; [reflexivity|].
  intros H. apply orb_false_iff in H. destruct H as [H1 H2].
  rewrite H1, IH; auto.
Qed.

Lemma distinct_app_cons a k b :
  distinct (a ++ k :: b)%list = true ->
  mem k a = false /\ distinct ((a ++ [k]) ++ b)%list = true.
Proof.
  induction a as [|x a IH]; simpl.
  - intros H. split; [reflexivity|exact H].
  - intros H. apply andb_true_iff in H. destruct H as [H1 H2].
    destruct (IH H2) as [IH1 IH2]. rewrite IH2, andb_true_r.
    rewrite mem_app in H1. simpl in H1. apply negb_true_iff in H1.
    apply orb_false_iff in H1. destruct H1 as [Ha Hb].
    apply orb_false_iff in Hb. destruct Hb as [Hxk Hb].
    rewrite !mem_app. simpl. rewrite Ha, Hxk, Hb. simpl. split; [|reflexivity].
    rewrite String.eqb_sym, Hxk. exact IH1.
Qed.

Lemma fold_assign_distinct l :
  forall acc,
    distinct (map fst (acc ++ l)%list) = true ->
    fold_left (fun m kv => assign (fst kv) (snd kv) m) l acc = (acc ++ l)%list.
Proof.
  induction l as [|[k v] l IH]; intros acc H; simpl.
  - now rewrite List.app_nil_r.
  - rewrite map_app in H. simpl in H. apply distinct_app_cons in H. destruct H as [H1 H2].
    rewrite assign_fresh by exact H1.
    rewrite IH.
    + now rewrite <- List.app_assoc.
    + rewrite !map_app. exact H2.
Qed.

Lemma dict_of_pairs_distinct m : distinct (map fst m) = true -> dict_of_pairs m = m.
Proof. intros H. unfold dict_of_pairs. now rewrite fold_assign_distinct. Qed.

Lemma forallb_Forall_impl {A} (f : A -> bool) (P : A -> Prop) l :
  Forall (fun x => f x = true -> P x) l -> forallb f l = true -> Forall P l.
Proof.
  induction 1 as [|x l Hx _ IH]; simpl; intros H; constructor;
    apply andb_true_iff in H; destruct H; auto.
Qed.

(** A value the model holds is read back from the text [encode] prints for
    it, at every indentation. *)
Lemma parse_value_encode v : wf v = true -> parses v.
Proof.
  induction v as [|b|z|s|l IH|m IH] using json_nested_ind; intros Hwf ind lvl rest fuel Hsz Hr;
    (destruct fuel as [|f]; [simpl in Hsz; lia|]).
  - reflexivity.
  - destruct b; reflexivity.
  - cbn [encode]. destruct (encode_int_head z rest) as (c & t & E & Hc).
    rewrite E, (parse_value_number f c t Hc), <- E, scan_int_encode; auto.
  - cbn [encode]. destruct (scan_string_encode s rest) as (t & E & Hs).
    rewrite E. cbn [parse_value]. change (is_char 34 "034"%char) with true. cbv iota.
    now rewrite Hs.
  - destruct l as [|x xs]; [reflexivity|].
    rewrite encode_arr_cons. cbn [wf] in Hwf. cbn [jsize] in Hsz.
    pose proof (forallb_Forall_impl _ _ _ IH Hwf) as HF.
    rewrite !append_assoc. change ("[" ++ ?s) with (String "["%char s).
    rewrite parse_value_arr, skip_ws_newline_indent.
    destruct (encode_head ind (S lvl) x
                (encode_items ind (S lvl) xs ++ newline_indent ind lvl ++ "]" ++ rest))
      as (c & t & E & Hc).
    rewrite skip_ws_encode. rewrite E.
    assert (H93 : is_char 93 c = false).
    { unfold value_head in Hc. destruct (is_char 93 c); [|reflexivity].
      rewrite andb_false_r in Hc. discriminate. }
    rewrite H93, <- E.
    rewrite (parse_elements_encode ind (S lvl) lvl rest xs x f HF); [reflexivity|lia].
  - destruct m as [|[k x] xs]; [reflexivity|].
    rewrite encode_obj_cons. cbn [wf] in Hwf. cbn [jsize] in Hsz.
    apply andb_true_iff in Hwf. destruct Hwf as [Hd Hwf].
    pose proof (forallb_Forall_impl _ _ _ IH Hwf) as HF.
    rewrite !append_assoc. change ("{" ++ ?s) with (String "{"%char s).
    rewrite parse_value_obj, skip_ws_newline_indent.
    destruct (scan_string_encode k (key_separator ++ encode ind (S lvl) x
                  ++ encode_members ind (S lvl) xs
                  ++ newline_indent ind lvl ++ "}" ++ rest)) as (t & E & _).
    assert (Hq : forall s, skip_ws (encode_string k ++ s) = encode_string k ++ s) by reflexivity.
    rewrite Hq, E. change (is_char 125 "034"%char) with false. cbv iota. rewrite <- E.
    rewrite (parse_members_encode ind (S lvl) lvl rest xs k x f HF); [|lia].
    now rewrite dict_of_pairs_distinct.
Qed.

Lemma digits_length u : nonzero_head u = true -> 1 <= String.length (digits u).
Proof. destruct u; try discriminate; intros _; simpl; lia. Qed.

Lemma encode_int_length z : 1 <= String.length (encode_int z).
Proof.
  unfold encode_int. destruct z as [|p|p]; simpl Z.to_int; cbv iota.
  - simpl. lia.
  - apply digits_length, to_uint_nonzero_head.
  - simpl. lia.
Qed.

Lemma item_separator_length ind : 1 <= String.length (item_separator ind).
Proof. destruct ind; simpl; lia. Qed.

Lemma jsize_encode v : forall ind lvl, jsize v <= String.length (encode ind lvl v).
Proof.
  induction v as [|b|z|s|l IH|m IH] using json_nested_ind; intros ind lvl.
  - simpl. lia.
  - destruct b; simpl; lia.
  - apply encode_int_length.
  - simpl. lia.
  - destruct l as [|x xs]; [simpl; lia|].
    rewrite encode_arr_cons. inversion IH as [|? ? Hx Hxs]; subst.
    rewrite !length_append. cbn [jsize fold_right].
    specialize (Hx ind (S lvl)).
    assert (Hi : fold_right (fun x acc => S (jsize x) + acc) 0 xs
                 <= String.length (encode_items ind (S lvl) xs)).
    { clear Hx IH. induction Hxs as [|y ys Hy _ IHys]; [simpl; lia|].
      cbn [fold_right encode_items]. rewrite !length_append.
      specialize (Hy ind (S lvl)). pose proof (item_separator_length ind). lia. }
    simpl String.length. lia.
  - destruct m as [|[k x] xs]; [simpl; lia|].
    rewrite encode_obj_cons. inversion IH as [|? ? Hx Hxs]; subst.
    rewrite !length_append. cbn [jsize fold_right snd] in *.
    specialize (Hx ind (S lvl)).
    assert (Hi : fold_right (fun kv acc => S (jsize (snd kv)) + acc) 0 xs
                 <= String.length (encode_members ind (S lvl) xs)).
    { clear Hx IH. induction Hxs as [|[k' y] ys Hy _ IHys]; [simpl; lia|].
      cbn [fold_right encode_members snd] in *. rewrite !length_append.
      specialize (Hy ind (S lvl)). pose proof (item_separator_length ind). lia. }
    simpl String.length. lia.
Qed.

Lemma parse_dumps indent v :
  wf v = true ->
  parse_value (S (String.length (dumps indent v))) (skip_ws (dumps indent v)) = Some (v, "").
Proof.
  intros Hwf. unfold dumps.
  rewrite <- (append_nil_r (encode indent 0 v)) at 2.
  rewrite skip_ws_encode.
  apply (parse_value_encode v Hwf indent 0 ""); [|reflexivity].
  pose proof (jsize_encode v indent 0). lia.
Qed.


End JsonFacts.

Import JsonFacts.

(** ** Trimming *)

Section Trimming.

Variable budget : nat.

Lemma trim_suffix h : exists dropped, h = (dropped ++ trim budget h)%list.
Proof.
  induction h as [|t rest IH].
  - exists []. reflexivity.
  - cbn [trim]. destruct (_ && _).
    + destruct IH as [d IH]. exists (t :: d). cbn. now rewrite <- IH.
    + exists []. reflexivity.
Qed.

Lemma trim_fits h :
  h <> [] ->
  String.length (history_str (trim budget h)) <= budget \/ length (trim budget h) = 1.
Proof.
  induction h as [|t rest IH]; [congruence|]. intros _. cbn [trim].
  destruct (budget <? String.length (history_str (t :: rest)))%nat eqn:Hlen.
  - destruct (1 <? length (t :: rest))%nat eqn:Hn; cbn [andb].
    + apply IH. destruct rest; [discriminate|congruence].
    + right. apply Nat.ltb_ge in Hn. cbn [length] in *. lia.
  - cbn [andb]. left. apply Nat.ltb_ge in Hlen. exact Hlen.
Qed.

Lemma trim_last h d : last (trim budget h) d = last h d.
Proof.
  induction h as [|t rest IH]; [reflexivity|]. cbn [trim].
  destruct (budget <? _)%nat; cbn [andb]; [|reflexivity].
  destruct rest as [|t' rest']; [reflexivity|].
  change (1 <? length (t :: t' :: rest'))%nat with true. cbv iota.
  rewrite IH. reflexivity.
Qed.

Lemma trim_nonempty h : h <> [] -> trim budget h <> [].
Proof.
  induction h as [|t rest IH]; [congruence|]. intros _. cbn [trim].
  destruct (budget <? _)%nat; cbn [andb]; [|congruence].
  destruct rest as [|t' rest']; [cbn; congruence|].
  change (1 <? length (t :: t' :: rest'))%nat with true. cbv iota.
  apply IH. congruence.
Qed.

Lemma trim_keeps_latest earlier latest :
  exists kept, trim budget (earlier ++ [latest]) = (kept ++ [latest])%list.
Proof.
  assert (Hne : (earlier ++ [latest])%list <> []) by now destruct earlier.
  pose proof (trim_nonempty _ Hne) as Hne'.
  pose proof (trim_last (earlier ++ [latest]) latest) as Hl.
  rewrite last_last in Hl.
  destruct (exists_last Hne') as (kept & x & E).
  rewrite E in Hl |- *. rewrite last_last in Hl. subst x. eauto.
Qed.

End Trimming.

(** ** Dictionaries *)

Lemma lookup_assign_same k v m : lookup k (assign k v m) = Some v.
Proof.
  induction m as [|[k' v'] m IH]; cbn.
  - now rewrite String.eqb_refl.
  - destruct (String.eqb k k') eqn:E; cbn; [now rewrite String.eqb_refl|now rewrite E].
Qed.

Lemma lookup_assign_other k k' v m : k <> k' -> lookup k' (assign k v m) = lookup k' m.
Proof.
  intros Hne. induction m as [|[k0 v0] m IH]; cbn.
  - destruct (String.eqb k' k) eqn:E; [|reflexivity].
    apply String.eqb_eq in E. congruence.
  - destruct (String.eqb k k0) eqn:E; cbn.
    + apply String.eqb_eq in E. subst k0.
      destruct (String.eqb k' k) eqn:E'; [|reflexivity].
      apply String.eqb_eq in E'. congruence.
    + now rewrite IH.
Qed.

(** ** The monad *)

Lemma print_eq s w : print s w = (Ret tt, printed [s] w).
Proof. reflexivity. Qed.

Lemma printed_printed l1 l2 w : printed l2 (printed l1 w) = printed (l1 ++ l2) w.
Proof. unfold printed. cbn. now rewrite <- List.app_assoc. Qed.

Lemma bind_Ret {A B} (m : M A) (k : A -> M B) w b w' :
  bind m k w = (Ret b, w') -> exists a w1, m w = (Ret a, w1) /\ k a w1 = (Ret b, w').
Proof.
  unfold bind. destruct (m w) as [[a|e|c] w1]; intros H; try discriminate. eauto.
Qed.

Lemma record_Ret rt st t w st' w' :
  record rt st t w = (Ret st', w') ->
  exists m h, st = JObj m /\ lookup "history" m = Some (JArr h)
    /\ st' = JObj (assign "history" (JArr (h ++ [t])) m)
    /\ w' = {| stdout := stdout w; state_file := Some (dumps (Some 4) st') |}.
Proof.
  unfold record, append_turn. destruct st as [| | | | |m]; try discriminate.
  destruct (lookup "history" m) as [[| | | |h|]|] eqn:E; try discriminate.
  cbn. intros H. injection H as <- <-. exists m, h. auto.
Qed.

Lemma record_turns rt st t w h :
  turns st = Some h ->
  exists m, st = JObj m /\ lookup "history" m = Some (JArr h) /\
    record rt st t w =
    (Ret (JObj (assign "history" (JArr (h ++ [t])) m)),
     {| stdout := stdout w;
        state_file := Some (dumps (Some 4) (JObj (assign "history" (JArr (h ++ [t])) m))) |}).
Proof.
  unfold turns. destruct st as [| | | | |m]; try discriminate.
  destruct (lookup "history" m) as [[| | | |h'|]|] eqn:E; try discriminate.
  intros H. injection H as ->. exists m. repeat split; auto.
  unfold record, append_turn. rewrite E. reflexivity.
Qed.

Lemma turns_assign m h : turns (JObj (assign "history" (JArr h) m)) = Some h.
Proof. unfold turns. now rewrite lookup_assign_same. Qed.

Lemma turns_history st h : turns st = Some h -> history st = Some h.
Proof.
  unfold turns, history. destruct st as [| | | | |m]; try discriminate.
  destruct (lookup "history" m) as [[| | | |h'|]|]; try discriminate. auto.
Qed.

(** ** What leaves the state file alone *)

Lemma only_prints_ret {A} (a : A) : only_prints (ret a).
Proof. intros w. exists []. unfold printed. cbn. rewrite List.app_nil_r. now destruct w. Qed.

Lemma only_prints_raise {A} e : only_prints (@raise A e).
Proof. intros w. exists []. unfold printed. cbn. rewrite List.app_nil_r. now destruct w. Qed.

Lemma only_prints_sys_exit {A} c : only_prints (@sys_exit A c).
Proof. intros w. exists []. unfold printed. cbn. rewrite List.app_nil_r. now destruct w. Qed.

Lemma only_prints_print s : only_prints (print s).
Proof. intros w. exists [s]. reflexivity. Qed.

Lemma only_prints_lift {A} (x : Answer A) : only_prints (lift x).
Proof. destruct x; [apply only_prints_ret|apply only_prints_raise]. Qed.

Lemma only_prints_bind {A B} (m : M A) (k : A -> M B) :
  only_prints m -> (forall a, only_prints (k a)) -> only_prints (bind m k).
Proof.
  intros Hm Hk w. unfold bind. destruct (Hm w) as [l1 H1].
  destruct (m w) as [[a|e|c] w1]; cbn in H1; subst w1; cbn; eauto.
  destruct (Hk a (printed l1 w)) as [l2 H2]. rewrite H2, printed_printed. eauto.
Qed.

Lemma only_prints_try {A} (m : M A) caught handler :
  only_prints m -> (forall e, only_prints (handler e)) -> only_prints (try_except m caught handler).
Proof.
  intros Hm Hh w. unfold try_except. destruct (Hm w) as [l1 H1].
  destruct (m w) as [[a|e|c] w1]; cbn in H1; subst w1; cbn; eauto.
  destruct (caught e); cbn; eauto.
  destruct (Hh e (printed l1 w)) as [l2 H2]. rewrite H2, printed_printed. eauto.
Qed.

Lemma only_prints_if {A} (b : bool) (m1 m2 : M A) :
  only_prints m1 -> only_prints m2 -> only_prints (if b then m1 else m2).
Proof. now destruct b. Qed.

Ltac only_prints :=
  repeat first
    [ apply only_prints_ret | apply only_prints_raise | apply only_prints_sys_exit
    | apply only_prints_print | apply only_prints_lift
    | apply only_prints_bind; [|intros ?]
    | apply only_prints_try; [|intros ?]
    | apply only_prints_if ].

Lemma only_prints_dict_get rt d k default : only_prints (dict_get rt d k default).
Proof. destruct d; cbn; only_prints. Qed.

Lemma only_prints_dict_index rt d k : only_prints (dict_index rt d k).
Proof. destruct d; cbn; only_prints. destruct (lookup k members); only_prints. Qed.

Lemma only_prints_obtain rt env a prompt : only_prints (obtain rt env a prompt).
Proof.
  unfold obtain. apply only_prints_if; only_prints. apply only_prints_dict_index.
Qed.

(** ** Dispatch *)

Lemma find_tool_inv s t : find_tool s = Some t -> In t tools /\ t_name t = s.
Proof.
  unfold find_tool. intros H. apply find_some in H. destruct H as [Hin Hn].
  apply String.eqb_eq in Hn. auto.
Qed.

Lemma registered_inv rt name t :
  registered rt name = Ok (Some t) ->
  name = JStr (t_name t) /\ In t tools /\ find_tool (t_name t) = Some t.
Proof.
  destruct name as [| | |s| |]; try discriminate. cbn. intros H. injection H as H.
  destruct (find_tool_inv s t H) as [Hin Hn]. subst s. auto.
Qed.

Lemma tool_name_truthy t : In t tools -> truthy (JStr (t_name t)) = true.
Proof.
  intros Hin. repeat (destruct Hin as [<-|Hin]; [reflexivity|]). destruct Hin.
Qed.

Lemma dispatch_failure_returns rt env name args err :
  dispatch_failure rt env name args err -> dispatch_returns rt env name args err.
Proof.
  intros H w. destruct H as [Ht Hr|t Hr Hb|t bound e prefix Hr Hb Hi He].
  - exists []. unfold dispatch. rewrite Ht, Hr. cbn. unfold printed. rewrite List.app_nil_r.
    now destruct w.
  - exists []. destruct (registered_inv rt name t Hr) as (Hn & Hin & _).
    assert (Htr : truthy name = true) by (rewrite Hn; now apply tool_name_truthy).
    unfold dispatch. rewrite Hr, Htr.
    cbn [negb lift ret bind]. unfold try_except, call. rewrite Hb. cbn.
    unfold printed. rewrite List.app_nil_r. now destruct w.
  - destruct (registered_inv rt name t Hr) as (Hn & Hin & _).
    assert (Htr : truthy name = true) by (rewrite Hn; now apply tool_name_truthy).
    unfold dispatch. rewrite Hr, Htr.
    cbn [negb lift ret bind]. unfold try_except at 1, call. rewrite Hb.
    destruct Hi as [b e Hf|b e Hf|b e Hf|b e Hf|b e Hf];
      cbn [t_body execute_shell_tool read_file_tool write_file_tool list_directory_tool
             ask_llm_tool].
    + exists []. unfold execute_shell, try_except, bind, lift. rewrite Hf. cbn [raise].
      rewrite He. unfold ret, printed. rewrite List.app_nil_r. now destruct w.
    + exists []. unfold read_file, try_except, bind, lift. rewrite Hf. cbn [raise].
      rewrite He. unfold ret, printed. rewrite List.app_nil_r. now destruct w.
    + exists []. unfold write_file, try_except, bind, lift. rewrite Hf. cbn [raise].
      rewrite He. unfold ret, printed. rewrite List.app_nil_r. now destruct w.
    + exists []. unfold list_directory, try_except, bind, lift. rewrite Hf. cbn [raise].
      rewrite He. unfold ret, printed. rewrite List.app_nil_r. now destruct w.
    + eexists. unfold ask_llm, try_except, bind, lift. rewrite print_eq, Hf. cbn [raise].
      rewrite He. unfold ret. reflexivity.
Qed.

Lemma only_prints_body rt env t bound : In t tools -> only_prints (t_body t rt env bound).
Proof.
  intros Hin.
  repeat (destruct Hin as [E|Hin];
          [subst t; cbn [t_body execute_shell_tool read_file_tool write_file_tool
                           list_directory_tool ask_llm_tool finish_tool];
           unfold execute_shell, read_file, write_file, list_directory, ask_llm, finish;
           only_prints|]).
  destruct Hin.
Qed.

Lemma only_prints_dispatch rt env name args : only_prints (dispatch rt env name args).
Proof.
  unfold dispatch. apply only_prints_if; [only_prints|].
  destruct (registered rt name) as [[t|]|e] eqn:Hr; cbn [lift].
  - destruct (registered_inv rt name t Hr) as (_ & Hin & _).
    intros w. unfold bind at 1. cbn [ret]. revert w.
    apply only_prints_try; [|intros ?; only_prints].
    unfold call. destruct (bind_arguments _ _); [now apply only_prints_body|only_prints].
  - only_prints.
  - only_prints.
Qed.

(** ** The command [finish] *)

Lemma dispatch_finish rt env args bound w :
  bind_arguments (t_params finish_tool) args = Some bound ->
  dispatch rt env (JStr "finish") args w
  = (SysExit 0,
     printed ["--- AGENT FINISHED ---"; "Final Result: " ++ py_str rt (arg "result" bound)] w).
Proof.
  intros Hb. unfold dispatch. cbn [truthy String.eqb Ascii.eqb Bool.eqb negb registered].
  change (find_tool "finish") with (Some finish_tool).
  cbn [lift]. unfold bind at 1. cbn [ret]. unfold try_except, call. rewrite Hb.
  cbn [t_body finish_tool]. unfold finish, bind. rewrite !print_eq, printed_printed.
  reflexivity.
Qed.

Lemma error_turn_not_finish msg : ~ records_finish (error_turn msg).
Proof. intros (th & spec & r & H & _). discriminate H. Qed.

Lemma dispatched_turn_not_finish rt env thoughts spec result w0 w1 :
  dispatch rt env (get_or "name" JNull spec) (get_or "args" (JObj []) spec) w0 = (Ret result, w1) ->
  ~ records_finish (normal_turn thoughts (JObj spec) result).
Proof.
  intros Hd (th & spec' & r' & Heq & Hname & Hbind).
  injection Heq as _ <- _. rewrite Hname in Hd.
  destruct (bind_arguments (t_params finish_tool) (get_or "args" (JObj []) spec)) as [bound|] eqn:Hb;
    [|congruence].
  rewrite (dispatch_finish rt env _ bound w0 Hb) in Hd. discriminate.
Qed.

Lemma normal_turn_not_error thoughts spec result msg :
  normal_turn thoughts spec result <> error_turn msg.
Proof. discriminate. Qed.

(** ** The response and the handlers *)

(** The response is a dictionary whose [command] is a dictionary: the
    iteration is decided by [dispatch]. *)
Lemma respond_dispatch rt env a text resp spec w :
  json_loads rt text = Some (JObj resp) ->
  get_or "command" (JObj []) resp = JObj spec ->
  exists lines,
    respond rt env a text w =
    match dispatch rt env (get_or "name" JNull spec) (get_or "args" (JObj []) spec)
            (printed lines w) with
    | (Ret result, w2) =>
        record rt (state a)
          (normal_turn (get_or "thoughts" (JStr "") resp) (JObj spec) result)
          (printed [nl ++ "COMMAND RESULT:" ++ nl ++ "---" ++ nl ++ result ++ nl ++ "---"] w2)
    | (Raise e, w2) => (Raise e, w2)
    | (SysExit c, w2) => (SysExit c, w2)
    end.
Proof.
  intros Hl Hc. unfold respond. rewrite Hl. unfold bind at 1. cbn [ret].
  unfold bind at 1. cbn [dict_get ret]. unfold bind at 1. cbn [dict_get ret]. rewrite Hc.
  unfold bind at 1. cbn [dict_get ret]. unfold bind at 1. cbn [dict_get ret].
  unfold bind at 1. rewrite print_eq. unfold bind at 1. rewrite print_eq.
  unfold bind at 1. rewrite print_eq. unfold bind at 1. rewrite print_eq.
  rewrite !printed_printed. unfold bind at 1.
  match goal with
  | |- context [dispatch rt env _ _ (printed ?l w)] => exists l
  end.
  destruct (dispatch _ _ _ _ _) as [[result|e|c] w2]; reflexivity.
Qed.

Lemma respond_Ret rt env a text w st' w' :
  respond rt env a text w = (Ret st', w') ->
  exists resp spec result w0 w1 w2,
    json_loads rt text = Some (JObj resp)
    /\ get_or "command" (JObj []) resp = JObj spec
    /\ dispatch rt env (get_or "name" JNull spec) (get_or "args" (JObj []) spec) w0
       = (Ret result, w1)
    /\ record rt (state a)
         (normal_turn (get_or "thoughts" (JStr "") resp) (JObj spec) result) w2
       = (Ret st', w').
Proof.
  intros H.
  destruct (json_loads rt text) as [[| | | | |resp]|] eqn:Hl;
    try (unfold respond in H; rewrite Hl in H; discriminate H).
  destruct (get_or "command" (JObj []) resp) as [| | | | |spec] eqn:Hc;
    try (unfold respond in H; rewrite Hl in H; unfold bind in H; cbn in H;
         rewrite Hc in H; discriminate H).
  destruct (respond_dispatch rt env a text resp spec w Hl Hc) as [lines Hr].
  rewrite Hr in H.
  destruct (dispatch _ _ _ _ _) as [[result|e|c] w1] eqn:Hd; try discriminate.
  exists resp, spec, result. eauto 10.
Qed.

Lemma record_error_Continue rt a msg w a' w' :
  record_error rt a msg w = Continue a' w' ->
  exists w1, record rt (state a) (error_turn msg) w1 = (Ret (state a'), w')
             /\ a' = with_state a (state a').
Proof.
  unfold record_error, bind at 1. rewrite print_eq.
  destruct (record rt (state a) (error_turn msg) (printed [msg] w)) as [[st'|e|c] w1] eqn:E;
    try discriminate.
  intros H. injection H as <- <-. eauto.
Qed.

Lemma handle_Continue rt a text e w a' w' :
  handle rt a text e w = Continue a' w' ->
  exists msg w1, record rt (state a) (error_turn msg) w1 = (Ret (state a'), w')
                 /\ a' = with_state a (state a').
Proof.
  unfold handle. destruct (exn_class e); intros H;
    try (apply record_error_Continue in H; destruct H as (w1 & H1 & H2); eauto; fail).
  - destruct (print _ w); discriminate.
  - destruct ((_ ;; _) w); discriminate.
Qed.

Lemma iteration_ends_printed a h lines w o :
  iteration_ends a h (printed lines w) o -> iteration_ends a h w o.
Proof.
  destruct o as [a' w'|c w'|e w']; cbn; auto.
  intros [[l H]|H]; [left|right; exact H].
  rewrite H, printed_printed. eauto.
Qed.

(** ** C8 *)


(** ** An iteration from a state that holds a list of turns *)

(** After an iteration that ends in [Continue] the loop runs its next
    iteration, from the agent and the world the iteration left. *)
Lemma run_goes_on rt env later a w a' w' :
  run_iteration rt env a w = Continue a' w' ->
  run rt (env :: later) a w = run rt later a' w'.
Proof. intros H. cbn [run]. now rewrite H. Qed.

Section Iteration.

Variables (rt : Runtime) (env : Env) (a : Agent) (h : list json).
Hypothesis has_turns : turns (state a) = Some h.

Lemma turns_prompt : exists prompt, _construct_prompt a = Some prompt.
Proof.
  unfold _construct_prompt. rewrite (turns_history _ _ has_turns). eauto.
Qed.

Lemma history_entry : exists m, state a = JObj m /\ lookup "history" m = Some (JArr h).
Proof.
  generalize has_turns. unfold turns. destruct (state a) as [| | | | |m]; try discriminate.
  destruct (lookup "history" m) as [[| | | |h'|]|] eqn:E; try discriminate.
  intros H. injection H as H. subst h'. eauto.
Qed.

Lemma obtain_text text prompt w :
  _construct_prompt a = Some prompt -> obtains env a text ->
  exists lines, obtain rt env a prompt w = (Ret text, printed lines w).
Proof.
  intros Hp Ho. unfold obtains in Ho. rewrite Hp in Ho. unfold obtain.
  destruct (manual_mode a).
  - destruct Ho as [Hs Hne]. apply String.eqb_neq in Hne.
    unfold bind, lift. rewrite !print_eq, Hs. cbn [ret]. rewrite Hne.
    rewrite !print_eq. cbn [ret]. rewrite !printed_printed. unfold ret. eauto.
  - destruct history_entry as (m & -> & E).
    unfold bind, lift, dict_index. rewrite print_eq, E, Ho. unfold ret. eauto.
Qed.

Lemma obtain_fails e prompt w :
  _construct_prompt a = Some prompt -> fails_to_obtain env a e ->
  exists lines, obtain rt env a prompt w = (Raise e, printed lines w).
Proof.
  intros Hp Ho. unfold fails_to_obtain in Ho. rewrite Hp in Ho. unfold obtain.
  destruct (manual_mode a).
  - unfold bind, lift. rewrite !print_eq, Ho. cbn [raise]. rewrite !printed_printed.
    unfold raise. eauto.
  - destruct history_entry as (m & -> & E).
    unfold bind, lift, dict_index. rewrite print_eq, E, Ho. unfold ret, raise. eauto.
Qed.

(** An iteration that obtains [text] goes on as [respond] and the [except]
    clauses have it. *)
Lemma run_iteration_respond text w :
  obtains env a text ->
  exists lines,
    run_iteration rt env a w =
    match respond rt env a text (printed lines w) with
    | (Ret st', w2) => Continue (with_state a st') w2
    | (Raise e, w2) => handle rt a text e w2
    | (SysExit c, w2) => Exit c w2
    end.
Proof.
  intros Ho. destruct turns_prompt as [prompt Hp].
  unfold run_iteration. rewrite Hp. unfold bind at 1. rewrite !print_eq, printed_printed.
  match goal with
  | |- context [obtain rt env a prompt ?w0] =>
      destruct (obtain_text text prompt w0 Hp Ho) as [lines Hob]
  end.
  rewrite Hob, printed_printed. eauto.
Qed.

(** An iteration that fails to obtain a response goes to the [except]
    clauses with the empty text. *)
Lemma run_iteration_fails e w :
  fails_to_obtain env a e ->
  exists lines, run_iteration rt env a w = handle rt a "" e (printed lines w).
Proof.
  intros Ho. destruct turns_prompt as [prompt Hp].
  unfold run_iteration. rewrite Hp. unfold bind at 1. rewrite !print_eq, printed_printed.
  match goal with
  | |- context [obtain rt env a prompt ?w0] =>
      destruct (obtain_fails e prompt w0 Hp Ho) as [lines Hob]
  end.
  rewrite Hob, printed_printed. eauto.
Qed.

Lemma iteration_records w text resp spec result :
  obtains env a text ->
  json_loads rt text = Some (JObj resp) ->
  get_or "command" (JObj []) resp = JObj spec ->
  dispatch_returns rt env (get_or "name" JNull spec) (get_or "args" (JObj []) spec) result ->
  exists a' w',
    run_iteration rt env a w = Continue a' w'
    /\ turns (state a')
       = Some (h ++ [normal_turn (get_or "thoughts" (JStr "") resp) (JObj spec) result])%list
    /\ state_file w' = Some (dumps (Some 4) (state a')).
Proof.
  intros Ho Hl Hc Hd.
  destruct (run_iteration_respond text w Ho) as [l1 ->].
  destruct (respond_dispatch rt env a text resp spec (printed l1 w) Hl Hc) as [l2 ->].
  destruct (Hd (printed l2 (printed l1 w))) as [l3 ->].
  destruct (record_turns rt (state a)
              (normal_turn (get_or "thoughts" (JStr "") resp) (JObj spec) result)
              (printed [nl ++ "COMMAND RESULT:" ++ nl ++ "---" ++ nl ++ result ++ nl ++ "---"]
                 (printed l3 (printed l2 (printed l1 w)))) h has_turns) as (m & Hm & Hh & ->).
  eexists _, _. split; [reflexivity|]. split; [apply turns_assign|reflexivity].
Qed.

Lemma record_error_turns msg w :
  exists a' w',
    record_error rt a msg w = Continue a' w'
    /\ turns (state a') = Some (h ++ [error_turn msg])%list
    /\ state_file w' = Some (dumps (Some 4) (state a')).
Proof.
  unfold record_error, bind. rewrite print_eq.
  destruct (record_turns rt (state a) (error_turn msg) (printed [msg] w) h has_turns)
    as (m & Hm & Hh & Hrec).
  unfold bind in Hrec. rewrite Hrec.
  eexists _, _. split; [reflexivity|]. split; [apply turns_assign|reflexivity].
Qed.

Lemma record_appended t w :
  ~ records_finish t ->
  exists st' w', record rt (state a) t w = (Ret st', w') /\ appended a h (with_state a st') w'.
Proof.
  intros Hn. destruct (record_turns rt (state a) t w h has_turns) as (m & Hm & Hh & Hrec).
  eexists _, _. split; [exact Hrec|]. exists m, t. cbn. auto.
Qed.

Lemma respond_cases text w :
  match respond rt env a text w with
  | (Ret st', w') => appended a h (with_state a st') w'
  | (_, w') => exists lines, w' = printed lines w
  end.
Proof.
  assert (Hnil : exists lines, w = printed lines w).
  { exists []. unfold printed. rewrite List.app_nil_r. now destruct w. }
  destruct (json_loads rt text) as [[| | | | |resp]|] eqn:Hl;
    try (unfold respond; rewrite Hl; exact Hnil).
  destruct (get_or "command" (JObj []) resp) as [| | | | |spec] eqn:Hc;
    try (unfold respond; rewrite Hl; unfold bind; cbn; rewrite Hc; exact Hnil).
  destruct (respond_dispatch rt env a text resp spec w Hl Hc) as [l1 ->].
  destruct (only_prints_dispatch rt env (get_or "name" JNull spec)
              (get_or "args" (JObj []) spec) (printed l1 w)) as [l2 Hw].
  destruct (dispatch _ _ _ _ _) as [[result|e|c] w2] eqn:Hd; cbn in Hw; subst w2;
    try (rewrite printed_printed; eauto; fail).
  destruct (record_appended
              (normal_turn (get_or "thoughts" (JStr "") resp) (JObj spec) result)
              (printed [nl ++ "COMMAND RESULT:" ++ nl ++ "---" ++ nl ++ result ++ nl ++ "---"]
                 (printed l2 (printed l1 w)))
              (dispatched_turn_not_finish rt env _ spec result _ _ Hd))
    as (st' & w' & -> & Happ).
  exact Happ.
Qed.

Lemma handle_cases text e w : iteration_ends a h w (handle rt a text e w).
Proof.
  assert (Hrec : forall msg, iteration_ends a h w (record_error rt a msg w)).
  { intros msg. unfold record_error, bind at 1. rewrite print_eq.
    destruct (record_appended (error_turn msg) (printed [msg] w)
                (error_turn_not_finish msg)) as (st' & w' & -> & Happ).
    exact Happ. }
  unfold handle. destruct (exn_class e); try apply Hrec.
  - rewrite print_eq. left. eauto.
  - unfold bind. rewrite print_eq. cbn. right. auto.
Qed.

(** Every iteration ends as [iteration_ends] has it. *)
Lemma run_iteration_ends w : iteration_ends a h w (run_iteration rt env a w).
Proof.
  destruct turns_prompt as [prompt Hp].
  unfold run_iteration. rewrite Hp. unfold bind at 1. rewrite !print_eq, printed_printed.
  match goal with
  | |- context [obtain rt env a prompt ?w0] =>
      destruct (only_prints_obtain rt env a prompt w0) as [l1 Hw]
  end.
  destruct (obtain rt env a prompt _) as [[text|e|c] w1]; cbn in Hw; subst w1;
    rewrite printed_printed.
  - match goal with
    | |- context [respond rt env a text (printed ?L w)] =>
        apply (iteration_ends_printed a h L w);
        pose proof (respond_cases text (printed L w)) as Hr
    end.
    destruct (respond rt env a text _) as [[st'|e|c] w2].
    + exact Hr.
    + destruct Hr as [l2 ->]. apply (iteration_ends_printed a h l2).
      apply handle_cases.
    + destruct Hr as [l2 ->]. cbn. left. exists l2. reflexivity.
  - match goal with
    | |- context [handle rt a _ e (printed ?L w)] => apply (iteration_ends_printed a h L w)
    end.
    apply handle_cases.
  - cbn. left. eauto.
Qed.

Lemma finish_iteration w text resp spec bound :
  obtains env a text ->
  json_loads rt text = Some (JObj resp) ->
  get_or "command" (JObj []) resp = JObj spec ->
  get_or "name" JNull spec = JStr "finish" ->
  bind_arguments (t_params finish_tool) (get_or "args" (JObj []) spec) = Some bound ->
  exists lines,
    run_iteration rt env a w
    = Exit 0 (printed (lines ++ ["--- AGENT FINISHED ---";
                                 "Final Result: " ++ py_str rt (arg "result" bound)]) w).
Proof.
  intros Ho Hl Hc Hn Hb.
  destruct (run_iteration_respond text w Ho) as [l1 ->].
  destruct (respond_dispatch rt env a text resp spec (printed l1 w) Hl Hc) as [l2 ->].
  rewrite Hn, (dispatch_finish rt env _ bound _ Hb), !printed_printed.
  eexists. rewrite List.app_assoc. reflexivity.
Qed.

(** Where the lines of the iteration are printed and the state is saved,
    as [print] and [_save_state] take it, a dispatch failure (the command
    names no registered tool, its arguments do not bind to the parameters
    of the tool, or the call the tool makes to the outside raises an
    [Exception]) is recorded as a normal turn whose [result] is the error
    text, not as an error turn; the state is saved and the loop goes on to
    the next iteration. *)
Theorem dispatch_failure_recorded_as_result w text resp spec err :
  obtains env a text ->
  json_loads rt text = Some (JObj resp) ->
  get_or "command" (JObj []) resp = JObj spec ->
  dispatch_failure rt env (get_or "name" JNull spec) (get_or "args" (JObj []) spec) err ->
  exists a' w',
    run_iteration rt env a w = Continue a' w'
    /\ turns (state a')
       = Some (h ++ [normal_turn (get_or "thoughts" (JStr "") resp) (JObj spec) err])%list
    /\ (forall msg,
          normal_turn (get_or "thoughts" (JStr "") resp) (JObj spec) err <> error_turn msg)
    /\ state_file w' = Some (dumps (Some 4) (state a'))
    /\ (forall later, run rt (env :: later) a w = run rt later a' w').
Proof.
  intros Ho Hl Hc Hd.
  destruct (iteration_records w text resp spec err Ho Hl Hc
              (dispatch_failure_returns _ _ _ _ _ Hd)) as (a' & w' & Hrun & Hturns & Hfile).
  exists a', w'. split; [exact Hrun|]. split; [exact Hturns|].
  split; [intros msg; apply normal_turn_not_error|]. split; [exact Hfile|].
  intros later. now apply run_goes_on.
Qed.

(** C2, as the code has it: a response text on which [json.loads] raises
    [JSONDecodeError] adds exactly one error turn that wraps the raw text,
    the state is saved and the loop goes on.  A text decoded to an object
    without the key [command] adds one normal turn whose result is the text
    of the malformed-response error; an object without the key [thoughts]
    is no failure: the command is dispatched, and the turn holds the empty
    string as its thoughts.  The lines are printed and the state is saved
    as [print] and [_save_state] take it. *)
Theorem malformed_response_recorded w text :
  obtains env a text ->
  (json_loads rt text = None ->
   exists a' w',
     run_iteration rt env a w = Continue a' w'
     /\ turns (state a')
        = Some (h ++ [error_turn ("Error: LLM did not return valid JSON. Response:"
                                  ++ nl ++ text)])%list
     /\ state_file w' = Some (dumps (Some 4) (state a'))
     /\ (forall later, run rt (env :: later) a w = run rt later a' w'))
  /\ (forall resp,
        json_loads rt text = Some (JObj resp) -> lookup "command" resp = None ->
        exists a' w',
          run_iteration rt env a w = Continue a' w'
          /\ turns (state a')
             = Some (h ++ [normal_turn (get_or "thoughts" (JStr "") resp) (JObj [])
                             "Error: Malformed response. 'command' key with 'name' is required."])%list
          /\ state_file w' = Some (dumps (Some 4) (state a'))
          /\ (forall later, run rt (env :: later) a w = run rt later a' w'))
  /\ (forall resp spec result,
        json_loads rt text = Some (JObj resp) -> lookup "thoughts" resp = None ->
        get_or "command" (JObj []) resp = JObj spec ->
        dispatch_returns rt env (get_or "name" JNull spec) (get_or "args" (JObj []) spec) result ->
        exists a' w',
          run_iteration rt env a w = Continue a' w'
          /\ turns (state a') = Some (h ++ [normal_turn (JStr "") (JObj spec) result])%list
          /\ state_file w' = Some (dumps (Some 4) (state a'))
          /\ (forall later, run rt (env :: later) a w = run rt later a' w')).
Proof.
  intros Ho.
  assert (Hgo : forall (turn : json),
             (exists a' w',
                 run_iteration rt env a w = Continue a' w'
                 /\ turns (state a') = Some (h ++ [turn])%list
                 /\ state_file w' = Some (dumps (Some 4) (state a'))) ->
             exists a' w',
               run_iteration rt env a w = Continue a' w'
               /\ turns (state a') = Some (h ++ [turn])%list
               /\ state_file w' = Some (dumps (Some 4) (state a'))
               /\ (forall later, run rt (env :: later) a w = run rt later a' w')).
  { intros turn (a' & w' & H1 & H2 & H3). exists a', w'.
    split; [exact H1|]. split; [exact H2|]. split; [exact H3|].
    intros later. now apply run_goes_on. }
  split; [|split].
  - intros Hl. apply Hgo. destruct (run_iteration_respond text w Ho) as [lines ->].
    unfold respond. rewrite Hl. unfold bind at 1. cbn [raise].
    unfold handle. cbn [exn_class]. apply record_error_turns.
  - intros resp Hl Hc. apply Hgo.
    apply (iteration_records w text resp [] _ Ho Hl).
    + unfold get_or. now rewrite Hc.
    + intros w0. exists []. unfold printed. rewrite List.app_nil_r. now destruct w0.
  - intros resp spec result Hl Hth Hc Hd. apply Hgo.
    destruct (iteration_records w text resp spec result Ho Hl Hc Hd)
      as (a' & w' & H1 & H2 & H3).
    exists a', w'. repeat split; auto. rewrite H2. unfold get_or at 1. now rewrite Hth.
Qed.

(** C5, as the code has it: when a command named [finish] is dispatched
    with arguments that bind to the parameter [result] of the tool, the two
    lines of the final result are printed and the process exits with code
    0; the state file is not written, and no further iteration takes place,
    whatever the environment would have answered later.  With arguments
    that do not bind, [finish] is not called: the [TypeError] of the call
    is the result of a normal turn, the state is saved and the loop runs
    its next iteration. *)
Theorem finish_ends_the_loop w text resp spec :
  obtains env a text ->
  json_loads rt text = Some (JObj resp) ->
  get_or "command" (JObj []) resp = JObj spec ->
  get_or "name" JNull spec = JStr "finish" ->
  (forall bound,
      bind_arguments (t_params finish_tool) (get_or "args" (JObj []) spec) = Some bound ->
      exists lines w',
        stdout w' = (stdout w ++ lines
                     ++ ["--- AGENT FINISHED ---";
                         ("Final Result: " ++ py_str rt (arg "result" bound))%string])%list
        /\ state_file w' = state_file w
        /\ run_iteration rt env a w = Exit 0 w'
        /\ forall later, run rt (env :: later) a w = Exit 0 w')
  /\ (bind_arguments (t_params finish_tool) (get_or "args" (JObj []) spec) = None ->
      exists a' w',
        run_iteration rt env a w = Continue a' w'
        /\ turns (state a')
           = Some (h ++ [normal_turn (get_or "thoughts" (JStr "") resp) (JObj spec)
                           ("Error: Invalid arguments for command 'finish': "
                            ++ error_text rt
                                 (BindFailure "finish" [("result", false)]
                                    (get_or "args" (JObj []) spec)))])%list
        /\ (forall msg,
              normal_turn (get_or "thoughts" (JStr "") resp) (JObj spec)
                ("Error: Invalid arguments for command 'finish': "
                 ++ error_text rt
                      (BindFailure "finish" [("result", false)]
                         (get_or "args" (JObj []) spec)))
              <> error_turn msg)
        /\ state_file w' = Some (dumps (Some 4) (state a'))
        /\ forall later, run rt (env :: later) a w = run rt later a' w').
Proof.
  intros Ho Hl Hc Hn. split.
  - intros bound Hb.
    destruct (finish_iteration w text resp spec bound Ho Hl Hc Hn Hb) as [lines H].
    exists lines. eexists. split; [|split; [|split; [exact H|]]]; try reflexivity.
    intros later. cbn [run]. now rewrite H.
  - intros Hb.
    assert (Hd : dispatch_failure rt env (get_or "name" JNull spec)
                   (get_or "args" (JObj []) spec)
                   ("Error: Invalid arguments for command 'finish': "
                    ++ error_text rt
                         (BindFailure "finish" [("result", false)]
                            (get_or "args" (JObj []) spec)))).
    { rewrite Hn.
      exact (arguments_do_not_bind rt env (JStr "finish") (get_or "args" (JObj []) spec)
               finish_tool eq_refl Hb). }
    destruct (iteration_records w text resp spec _ Ho Hl Hc
                (dispatch_failure_returns _ _ _ _ _ Hd)) as (a' & w' & Hrun & Hturns & Hfile).
    exists a', w'. split; [exact Hrun|]. split; [exact Hturns|].
    split; [intros msg; apply normal_turn_not_error|]. split; [exact Hfile|].
    intros later. now apply run_goes_on.
Qed.

(** A failure of the request to the backend that reaches the clause for
    [RequestException], being no [json.JSONDecodeError], is fatal: the
    error is printed and the process exits with code 1; nothing is added to
    the history and the state file is not written. *)
Theorem request_failure_is_fatal w e :
  fails_to_obtain env a e ->
  exn_class e = RequestException ->
  exists w',
    run_iteration rt env a w = Exit 1 w'
    /\ state_file w' = state_file w
    /\ In ("Error: Could not connect to LLM API at " ++ LLM_API_URL
           ++ ". Is it running? Details: " ++ exn_text e) (stdout w').
Proof.
  intros Ho He. destruct (run_iteration_fails e w Ho) as [lines ->].
  unfold handle. rewrite He, print_eq, printed_printed.
  eexists. split; [reflexivity|]. split; [reflexivity|].
  cbn [stdout printed]. rewrite !in_app_iff. right. cbn. tauto.
Qed.

(** An interruption by the user while the response is awaited saves the
    state as it is and exits with code 0. *)
Theorem interruption_saves_and_exits w e :
  fails_to_obtain env a e ->
  exn_class e = KeyboardInterrupt ->
  exists w',
    run_iteration rt env a w = Exit 0 w'
    /\ state_file w' = Some (dumps (Some 4) (state a)).
Proof.
  intros Ho He. destruct (run_iteration_fails e w Ho) as [lines ->].
  unfold handle. rewrite He. unfold bind. rewrite print_eq. cbn [_save_state].
  eexists. split; reflexivity.
Qed.

(** A response that is valid JSON and no object is an unexpected failure:
    one error turn with the text of the exception is added, the state is
    saved and the loop goes on. *)
Theorem unexpected_failure_is_error_turn w text v :
  obtains env a text ->
  json_loads rt text = Some v ->
  (forall m, v <> JObj m) ->
  exists a' w',
    run_iteration rt env a w = Continue a' w'
    /\ turns (state a')
       = Some (h ++ [error_turn ("An unexpected error occurred: "
                                 ++ error_text rt (NoAttribute v "get"))])%list
    /\ state_file w' = Some (dumps (Some 4) (state a')).
Proof.
  intros Ho Hl Hv. destruct (run_iteration_respond text w Ho) as [lines ->].
  unfold respond. rewrite Hl. unfold bind at 1. cbn [ret]. unfold bind at 1.
  destruct v as [| | | | |m]; try (cbn [dict_get raise]; unfold handle; cbn [exn_class exn_text];
    apply record_error_turns).
  destruct (Hv m eq_refl).
Qed.

End Iteration.

(** ** Runs *)

Lemma appended_facts a h a' w' :
  appended a h a' w' ->
  exists t,
    turns (state a') = Some (h ++ [t])%list /\ ~ records_finish t
    /\ main_goal a' = main_goal a /\ manual_mode a' = manual_mode a
    /\ state_goal (state a') = state_goal (state a)
    /\ state_file w' = Some (dumps (Some 4) (state a')).
Proof.
  intros (m & t & Hm & Hst & Ha & Hn & Hf). exists t. repeat split; auto.
  - rewrite Hst. apply turns_assign.
  - now rewrite Ha.
  - now rewrite Ha.
  - rewrite Hst, Hm. unfold state_goal. apply lookup_assign_other. discriminate.
Qed.

Lemma run_ends rt envs :
  forall a h w,
    turns (state a) = Some h ->
    file_after a h w (world_of (run rt envs a w))
    /\ match run rt envs a w with
       | Continue a' w' =>
           exists new,
             turns (state a') = Some (h ++ new)%list
             /\ length new = length envs
             /\ main_goal a' = main_goal a
             /\ manual_mode a' = manual_mode a
             /\ state_goal (state a') = state_goal (state a)
       | Exit _ _ => True
       | Crash _ _ => False
       end.
Proof.
  induction envs as [|env envs IH]; intros a h w Ht.
  - cbn. split; [now left|]. exists []. rewrite List.app_nil_r. auto.
  - cbn [run]. pose proof (run_iteration_ends rt env a h Ht w) as Hit.
    destruct (run_iteration rt env a w) as [a1 w1|c w1|e w1]; cbn in Hit.
    + destruct (appended_facts a h a1 w1 Hit) as (t & Ht1 & Hnf & Hg & Hm & Hsg & Hf).
      destruct (IH a1 (h ++ [t])%list w1 Ht1) as [Hfile Hrun]. split.
      * right. destruct Hfile as [Hsame|(st & new & H1 & H2 & H3 & H4)].
        -- exists (state a1), [t]. rewrite Hsame. repeat split; auto.
        -- exists st, (t :: new). rewrite <- List.app_assoc in H2. repeat split; auto.
           congruence.
      * destruct (run rt envs a1 w1) as [a' w'|c w'|e w']; auto.
        destruct Hrun as (new & H1 & H2 & H3 & H4 & H5).
        exists (t :: new). rewrite <- List.app_assoc in H1. cbn [length].
        repeat split; auto; congruence.
    + split; [|exact I]. cbn. destruct Hit as [[l ->]|[_ Hf]]; [now left|].
      right. exists (state a), []. rewrite List.app_nil_r. auto.
    + destruct Hit.
Qed.

(** C9: a call of [finish] that binds exits the process before the turn
    of the iteration is appended or saved: the final result goes to standard
    output and the state file stays as it was.  At the end of every run,
    however it ends, the state file holds what it held before the run or a
    saved state whose turns added by the run hold no record of [finish]. *)
Theorem finish_never_persisted rt envs a w h :
  turns (state a) = Some h ->
  (forall env text resp spec bound,
      obtains env a text ->
      json_loads rt text = Some (JObj resp) ->
      get_or "command" (JObj []) resp = JObj spec ->
      get_or "name" JNull spec = JStr "finish" ->
      bind_arguments (t_params finish_tool) (get_or "args" (JObj []) spec) = Some bound ->
      exists w',
        run_iteration rt env a w = Exit 0 w'
        /\ state_file w' = state_file w
        /\ In ("Final Result: " ++ py_str rt (arg "result" bound)) (stdout w'))
  /\ (state_file (world_of (run rt envs a w)) = state_file w
      \/ exists st new,
           state_file (world_of (run rt envs a w)) = Some (dumps (Some 4) st)
           /\ turns st = Some (h ++ new)%list
           /\ Forall (fun t => ~ records_finish t) new).
Proof.
  intros Ht. split.
  - intros env text resp spec bound Ho Hl Hc Hn Hb.
    destruct (finish_iteration rt env a h Ht w text resp spec bound Ho Hl Hc Hn Hb)
      as [lines H].
    eexists. split; [exact H|]. split; [reflexivity|].
    cbn. rewrite !in_app_iff. right. cbn. auto.
  - destruct (run_ends rt envs a h w Ht) as [[Hsame|(st & new & H1 & H2 & H3 & _)] _];
      [now left|right; eauto].
Qed.

(** From a state that holds a list of turns no exception leaves [run]: the
    loop goes on or the process exits.  This is said of the program as
    [World] and [Env] have it: printing and writing the state file
    succeed, and an exception comes from the parser, from the program's own
    operations on the response, or from an answer of the environment. *)
Theorem run_never_crashes rt envs a w h :
  turns (state a) = Some h ->
  forall e w', run rt envs a w <> Crash e w'.
Proof.
  intros Ht e w' H. destruct (run_ends rt envs a h w Ht) as [_ Hrun].
  now rewrite H in Hrun.
Qed.

(** ** Parts of a text *)

Lemma occurs_left a x s : occurs x s -> occurs x (a ++ s).
Proof. intros (p & q & ->). exists (a ++ p), q. now rewrite append_assoc. Qed.

Lemma occurs_right c x s : occurs x s -> occurs x (s ++ c).
Proof. intros (p & q & ->). exists p, (q ++ c). now rewrite !append_assoc. Qed.

Lemma occurs_here x s : occurs x (x ++ s).
Proof. exists "", s. reflexivity. Qed.

(** The system prompt shows the goal on the line that announces it. *)
Lemma goal_line goal rest :
  occurs ("**Your Goal:** " ++ goal) (SYSTEM_PROMPT_head ++ goal ++ rest).
Proof.
  exists (take (String.length SYSTEM_PROMPT_head - 15) SYSTEM_PROMPT_head), rest.
  reflexivity.
Qed.

(** ** C10 *)

Lemma init_loads rt goal manual w text st0 :
  state_file w = Some text -> json_loads rt text = Some st0 ->
  __init__ rt goal manual w
  = (Ret {| main_goal := goal; manual_mode := manual; state := st0 |},
     printed ["Loading state from " ++ STATE_FILE ++ "..."] w).
Proof.
  intros Hf Hl. unfold __init__, bind, _load_state. rewrite Hf. unfold bind.
  rewrite print_eq, Hl. reflexivity.
Qed.

(** C10: when a state file exists at startup, the state is the one read
    from the file, and the goal given to the constructor is never written
    into it: at the end of every run the state file holds its original
    text or a saved state with the goal entry of the original state, while
    the agent keeps the constructor's goal and every prompt it builds shows
    that goal, on the line [**Your Goal:**] of the system prompt. *)
Theorem constructor_goal_never_persisted rt goal manual w text st0 h0 envs :
  state_file w = Some text ->
  json_loads rt text = Some st0 ->
  turns st0 = Some h0 ->
  (state_file (world_of (main rt goal manual envs w)) = Some text
   \/ exists st,
        state_file (world_of (main rt goal manual envs w)) = Some (dumps (Some 4) st)
        /\ state_goal st = state_goal st0)
  /\ (forall a' w',
        main rt goal manual envs w = Continue a' w' ->
        main_goal a' = goal
        /\ state_goal (state a') = state_goal st0
        /\ exists prompt history_text,
             _construct_prompt a' = Some prompt
             /\ occurs ("**Your Goal:** " ++ goal) prompt
             /\ prompt = SYSTEM_PROMPT_format goal _get_tools_description ++ history_text).
Proof.
  intros Hf Hl Ht. unfold main. rewrite (init_loads rt goal manual w text st0 Hf Hl).
  set (a := {| main_goal := goal; manual_mode := manual; state := st0 |}).
  assert (Hw : exists lines,
             (if manual then print "--- RUNNING IN MANUAL MODE ---" else ret tt)
               (printed ["Loading state from " ++ STATE_FILE ++ "..."] w)
             = (Ret tt, printed lines w)).
  { destruct manual; [rewrite print_eq, printed_printed|unfold ret]; eexists; reflexivity. }
  destruct Hw as [lines ->].
  destruct (run_ends rt envs a h0 (printed lines w) Ht) as [Hfile Hrun]. split.
  - destruct Hfile as [Hsame|(st & new & H1 & H2 & H3 & H4)].
    + left. rewrite Hsame. exact Hf.
    + right. exists st. auto.
  - intros a' w' Hrun'. rewrite Hrun' in Hrun.
    destruct Hrun as (new & H1 & H2 & H3 & H4 & H5).
    repeat split; auto.
    unfold _construct_prompt. rewrite (turns_history _ _ H1), H3. cbn [main_goal a].
    eexists _, _. split; [reflexivity|]. split; [|reflexivity].
    apply occurs_right. unfold SYSTEM_PROMPT_format. apply goal_line.
Qed.

(** ** C3 and C7 *)

(** C3, as the code has it: the history [_construct_prompt] puts into the
    prompt is the history of the state trimmed at the budget of the
    program, [CONTEXT_WINDOW_TOKEN_LIMIT]; its text is no longer than the
    budget, or it is one turn, and it ends with the latest turn of the
    state.  The trimming itself does so at every budget on every history
    that is not empty; the empty history is left as it is, and its text has
    two characters whatever the budget.  The latest turn is kept at every
    budget, also when it alone is longer than the budget. *)
Theorem trim_fits_budget_or_keeps_one :
  (forall a h,
      history (state a) = Some h ->
      exists kept,
        kept = trim CONTEXT_WINDOW_TOKEN_LIMIT h
        /\ _construct_prompt a
           = Some (SYSTEM_PROMPT_format (main_goal a) _get_tools_description
                   ++ nl ++ nl ++ "**History (Your previous actions):**" ++ nl
                   ++ history_str kept)
        /\ (String.length (history_str kept) <= CONTEXT_WINDOW_TOKEN_LIMIT
            \/ length kept = 1)
        /\ (forall earlier latest,
              h = (earlier ++ [latest])%list -> exists before, kept = (before ++ [latest])%list))
  /\ (forall budget h,
        h <> [] ->
        String.length (history_str (trim budget h)) <= budget
        \/ length (trim budget h) = 1)
  /\ (forall budget, trim budget [] = [] /\ String.length (history_str []) = 2)
  /\ (forall budget earlier latest,
        exists kept, trim budget (earlier ++ [latest]) = (kept ++ [latest])%list).
Proof.
  split; [|split; [|split]].
  - intros a h Hh. exists (trim CONTEXT_WINDOW_TOKEN_LIMIT h). split; [reflexivity|].
    split; [unfold _construct_prompt; now rewrite Hh|]. split.
    + destruct h as [|t rest].
      * left. cbn. unfold CONTEXT_WINDOW_TOKEN_LIMIT. lia.
      * apply trim_fits. discriminate.
    + intros earlier latest ->. apply trim_keeps_latest.
  - intros budget h Hne. now apply trim_fits.
  - intros budget. split; reflexivity.
  - apply trim_keeps_latest.
Qed.

(** C7: the history kept is a suffix of the history of the state: the
    turns dropped are the oldest, and the turns kept are the latest, in
    their order and as they were; the prompt holds the text of that
    suffix. *)
Theorem trimmed_history_is_suffix :
  (forall budget h, exists dropped, h = (dropped ++ trim budget h)%list)
  /\ (forall a h,
        history (state a) = Some h ->
        exists dropped kept,
          h = (dropped ++ kept)%list
          /\ _construct_prompt a
             = Some (SYSTEM_PROMPT_format (main_goal a) _get_tools_description
                     ++ nl ++ nl ++ "**History (Your previous actions):**" ++ nl
                     ++ history_str kept)).
Proof.
  split.
  - apply trim_suffix.
  - intros a h Hh. destruct (trim_suffix CONTEXT_WINDOW_TOKEN_LIMIT h) as [dropped Hd].
    exists dropped, (trim CONTEXT_WINDOW_TOKEN_LIMIT h). split; [exact Hd|].
    unfold _construct_prompt. now rewrite Hh.
Qed.

(** ** Saving and loading *)


(** ** C6 *)

Lemma forallb_mem_false k names keys :
  In k keys -> mem k names = false -> forallb (fun k => mem k names) keys = false.
Proof.
  induction keys as [|k' keys IH]; [intros []|]. intros [->|Hin] Hm; cbn [forallb].
  - now rewrite Hm.
  - rewrite IH; auto. apply andb_false_r.
Qed.

Lemma return_never_binds t kw :
  mem "return" (map p_name (t_params t)) = false ->
  In "return" (map fst kw) -> bind_arguments (t_params t) (JObj kw) = None.
Proof.
  intros Hm Hin. unfold bind_arguments.
  now rewrite (forallb_mem_false "return" _ _ Hin Hm).
Qed.

(** C6, what the program prints: the entry of every registered tool holds
    the name of the tool, its docstring, and the mapping of
    [__annotations__], in which the parameters of the tool are followed by
    the key [return].  No tool has a parameter named so, and every call
    with that key fails to bind. *)
Theorem catalog_args_hold_return :
  Forall (fun t =>
            describe t
            = "- `" ++ t_name t ++ "`: " ++ t_doc t ++ nl ++ "  Args: "
              ++ dumps None
                   (JObj (map (fun p => (p_name p, JStr (p_annotation p))) (t_params t)
                          ++ [("return", JStr "str")]))
            /\ mem "return" (map p_name (t_params t)) = false
            /\ (forall kw, In "return" (map fst kw) ->
                           bind_arguments (t_params t) (JObj kw) = None))
    tools.
Proof.
  unfold tools.
  repeat (apply Forall_cons;
          [split; [reflexivity|split; [reflexivity|intros kw; now apply return_never_binds]]|]).
  apply Forall_nil.
Qed.

(** ** Further properties of the tools and of manual mode *)

(** In manual mode, when standard input holds nothing, the process exits
    with code 0: no turn is added and the state file is not written. *)
Theorem no_input_exits_cleanly rt env a w h :
  history (state a) = Some h ->
  manual_mode a = true ->
  stdin_read env = Ok "" ->
  exists w',
    run_iteration rt env a w = Exit 0 w'
    /\ state_file w' = state_file w
    /\ In (nl ++ "No input received. Exiting.") (stdout w').
Proof.
  intros Hh Hm Hs. unfold run_iteration, _construct_prompt. rewrite Hh.
  unfold bind at 1. rewrite !print_eq, printed_printed.
  unfold obtain. rewrite Hm. unfold bind, lift. rewrite !print_eq, Hs. cbn [ret String.eqb].
  rewrite !print_eq. cbn [sys_exit]. rewrite !printed_printed.
  eexists. split; [reflexivity|]. split; [reflexivity|].
  cbn [stdout printed]. rewrite !in_app_iff. right. cbn. tauto.
Qed.

Lemma take_length n s : n <= String.length s -> String.length (take n s) = n.
Proof.
  revert s. induction n as [|n IH]; intros s H; [reflexivity|].
  destruct s as [|c s]; cbn in *; [lia|]. rewrite IH; lia.
Qed.

(** A file content or a command output of more than 2000 characters is
    cut to its first 2000 characters, and the result says so at its
    start. *)
Theorem long_results_are_cut_and_marked env w :
  (forall path content,
      file_read env path = Ok content ->
      2000 < String.length content ->
      read_file env path w = (Ret ("Content truncated:" ++ nl ++ take 2000 content), w)
      /\ String.length (take 2000 content) = 2000)
  /\ (forall command out err,
        shell env command = Ok (out, err) ->
        2000 < String.length ("STDOUT:" ++ nl ++ out ++ nl ++ "STDERR:" ++ nl ++ err) ->
        execute_shell env command w
        = (Ret ("Output truncated:" ++ nl
                ++ take 2000 ("STDOUT:" ++ nl ++ out ++ nl ++ "STDERR:" ++ nl ++ err)), w)
        /\ String.length (take 2000 ("STDOUT:" ++ nl ++ out ++ nl ++ "STDERR:" ++ nl ++ err))
           = 2000).
Proof.
  split.
  - intros path content Hr Hlen. split; [|apply take_length; lia].
    unfold read_file, try_except, bind, lift. rewrite Hr. cbn [ret].
    apply Nat.ltb_lt in Hlen. now rewrite Hlen.
  - intros command out err Hs Hlen. split; [|apply take_length; lia].
    unfold execute_shell, try_except, bind, lift. rewrite Hs. cbn [ret fst snd].
    apply Nat.ltb_lt in Hlen. now rewrite Hlen.
Qed.

(** * Further properties *)

(** ** What [json.loads] builds *)












(** ** The characters of a printed value *)

Lemma plain_append b s1 s2 : plain b (s1 ++ s2) = plain b s1 && plain b s2.
Proof.
  induction s1 as [|c s1 IH]; cbn; [reflexivity|]. rewrite IH. now rewrite andb_assoc.
Qed.

Lemma plain_escape_char b c : plain b (escape_char c) = true.
Proof. destruct c as [[] [] [] [] [] [] [] []]; reflexivity. Qed.

Lemma plain_escape b s : plain b (escape s) = true.
Proof.
  induction s as [|c s IH]; cbn [escape]; [reflexivity|].
  now rewrite plain_append, plain_escape_char, IH.
Qed.

Lemma plain_encode_string b s : plain b (encode_string s) = true.
Proof. unfold encode_string. now rewrite !plain_append, plain_escape. Qed.

Lemma plain_digits b u : plain b (digits u) = true.
Proof. induction u; cbn; auto. Qed.

Lemma plain_encode_int b z : plain b (encode_int z) = true.
Proof. unfold encode_int. destruct (Z.to_int z); cbn; apply plain_digits. Qed.

Lemma plain_spaces b n : plain b (spaces n) = true.
Proof. induction n; cbn; auto. Qed.

Lemma plain_newline_indent ind lvl : plain (breaks_of ind) (newline_indent ind lvl) = true.
Proof. destruct ind as [n|]; cbn; [apply plain_spaces|reflexivity]. Qed.

Lemma plain_item_separator b ind : plain b (item_separator ind) = true.
Proof. now destruct ind. Qed.

Lemma plain_encode ind v : forall lvl, plain (breaks_of ind) (encode ind lvl v) = true.
Proof.
  induction v as [|b|z|s|l IH|m IH] using json_nested_ind; intros lvl.
  - reflexivity.
  - now destruct b.
  - apply plain_encode_int.
  - apply plain_encode_string.
  - destruct IH as [|x xs Hx Hxs]; [reflexivity|]. rewrite encode_arr_cons.
    rewrite !plain_append, plain_newline_indent, Hx, plain_newline_indent.
    assert (Hitems : plain (breaks_of ind) (encode_items ind (S lvl) xs) = true).
    { induction Hxs as [|y ys Hy _ IHys]; cbn [encode_items]; [reflexivity|].
      now rewrite !plain_append, plain_item_separator, plain_newline_indent, Hy, IHys. }
    now rewrite Hitems.
  - destruct IH as [|[k x] xs Hx Hxs]; [reflexivity|]. rewrite encode_obj_cons.
    cbn [snd] in Hx.
    rewrite !plain_append, plain_newline_indent, plain_encode_string, Hx, plain_newline_indent.
    assert (Hmembers : plain (breaks_of ind) (encode_members ind (S lvl) xs) = true).
    { induction Hxs as [|[k' y] ys Hy _ IHys]; cbn [encode_members]; [reflexivity|].
      cbn [snd] in Hy.
      now rewrite !plain_append, plain_item_separator, plain_newline_indent,
        plain_encode_string, Hy, IHys. }
    now rewrite Hmembers.
Qed.

(** [json.dumps] prints printable ASCII only: whatever characters the
    value holds, its text has no control character and no character above
    [~], but for the line breaks of an indented text. *)
Theorem dumps_is_printable_ascii v :
  plain false (dumps None v) = true
  /\ forall n, plain true (dumps (Some n) v) = true.
Proof.
  split; [|intros n]; unfold dumps.
  - exact (plain_encode None v 0).
  - exact (plain_encode (Some n) v 0).
Qed.

(** ** What the prompt holds *)

Lemma occurs_join sep x parts : In x parts -> occurs x (join sep parts).
Proof.
  induction parts as [|p parts IH]; [intros []|].
  intros [->|Hin].
  - destruct parts as [|p' parts]; cbn [join]; [|apply occurs_here].
    exists "", "". cbn. now rewrite append_nil_r.
  - destruct parts as [|p' parts]; [destruct Hin|].
    change (join sep (p :: p' :: parts)) with (p ++ sep ++ join sep (p' :: parts)).
    apply occurs_left, occurs_left, IH, Hin.
Qed.

(** The prompt of an agent holds the goal given to the agent and the entry
    of every registered tool: the model is told of every command it can
    give. *)
Theorem prompt_shows_goal_and_every_tool a h :
  history (state a) = Some h ->
  exists prompt,
    _construct_prompt a = Some prompt
    /\ occurs (main_goal a) prompt
    /\ forall t, In t tools -> occurs (describe t) prompt.
Proof.
  intros Hh. unfold _construct_prompt. rewrite Hh. eexists. split; [reflexivity|].
  unfold SYSTEM_PROMPT_format. split.
  - apply occurs_right, occurs_left, occurs_here.
  - intros t Hin. apply occurs_right, occurs_left, occurs_left, occurs_left, occurs_right.
    unfold _get_tools_description. apply occurs_join, in_map, Hin.
Qed.

(** ** More on trimming *)

Section Cut.

Variable budget : nat.

(** The turns dropped are the first [k] for the least [k] at which the
    loop of [_construct_prompt] stops: every shorter cut leaves a text over
    the budget and more than one turn. *)
Theorem trim_cuts_no_more_than_needed h :
  exists k,
    trim budget h = skipn k h
    /\ (forall n, n < k ->
          budget < String.length (history_str (skipn n h)) /\ 1 < length (skipn n h))
    /\ (String.length (history_str (skipn k h)) <= budget \/ length (skipn k h) <= 1).
Proof.
  induction h as [|t rest IH].
  - exists 0. cbn. split; [reflexivity|]. split; [lia|]. right. lia.
  - cbn [trim].
    destruct (budget <? String.length (history_str (t :: rest)))%nat eqn:Hlen;
      [destruct (1 <? length (t :: rest))%nat eqn:Hn|]; cbn [andb].
    + destruct IH as (k & Hk & Hover & Hstop). exists (S k). cbn [skipn].
      split; [exact Hk|]. split; [|exact Hstop].
      intros [|n] Hlt; cbn [skipn].
      * apply Nat.ltb_lt in Hlen, Hn. auto.
      * apply Hover. lia.
    + exists 0. cbn [skipn]. split; [reflexivity|]. split; [lia|].
      right. apply Nat.ltb_ge in Hn. exact Hn.
    + exists 0. cbn [skipn]. split; [reflexivity|]. split; [lia|].
      left. apply Nat.ltb_ge in Hlen. exact Hlen.
Qed.

Lemma trim_stops h :
  (String.length (history_str h) <= budget \/ length h <= 1) -> trim budget h = h.
Proof.
  destruct h as [|t rest]; [reflexivity|]. intros H. cbn [trim].
  destruct (budget <? String.length (history_str (t :: rest)))%nat eqn:Hlen;
    [destruct (1 <? length (t :: rest))%nat eqn:Hn|]; cbn [andb]; try reflexivity.
  apply Nat.ltb_lt in Hlen, Hn. lia.
Qed.

(** A history whose text fits the budget, and a history of one turn, are
    kept whole; and a trimmed history is not trimmed further. *)
Theorem trim_keeps_what_fits h :
  (String.length (history_str h) <= budget -> trim budget h = h)
  /\ (length h <= 1 -> trim budget h = h)
  /\ trim budget (trim budget h) = trim budget h.
Proof.
  split; [|split].
  - intros H. apply trim_stops. now left.
  - intros H. apply trim_stops. now right.
  - induction h as [|t rest IH]; [reflexivity|]. cbn [trim].
    destruct ((budget <? String.length (history_str (t :: rest)))
              && (1 <? length (t :: rest)))%nat eqn:E; [exact IH|].
    cbn [trim]. now rewrite E.
Qed.

End Cut.

(** A larger budget drops no turn that a smaller one keeps. *)
Theorem bigger_budget_keeps_more smaller larger h :
  smaller <= larger ->
  exists more, trim larger h = (more ++ trim smaller h)%list.
Proof.
  intros Hle. induction h as [|t rest IH]; [exists []; reflexivity|].
  destruct ((larger <? String.length (history_str (t :: rest)))
            && (1 <? length (t :: rest)))%nat eqn:E2.
  - assert (E1 : ((smaller <? String.length (history_str (t :: rest)))
                  && (1 <? length (t :: rest)))%nat = true).
    { apply andb_true_iff in E2. destruct E2 as [Ha Hb]. apply Nat.ltb_lt in Ha.
      apply andb_true_iff. split; [apply Nat.ltb_lt; lia|exact Hb]. }
    cbn [trim]. rewrite E1, E2. exact IH.
  - replace (trim larger (t :: rest)) with (t :: rest) by (cbn [trim]; now rewrite E2).
    apply trim_suffix.
Qed.

(** ** The tools *)



Lemma wf_names files : wf (JArr (map JStr files)) = true.
Proof. cbn. induction files as [|f files IH]; cbn; auto. Qed.

(** The result of [list_directory] is the JSON text of the list of names
    the directory holds, in the order [os.listdir] gave them: [json.loads]
    reads the names back from it; an empty directory gives [[]]. *)
Theorem list_directory_result_decodes env path files w :
  listdir env path = Ok files ->
  exists result,
    list_directory env path w = (Ret result, w)
    /\ loads result = Some (JArr (map JStr files))
    /\ (files = [] -> result = "[]").
Proof.
  intros Hl. unfold list_directory, try_except, bind, lift. rewrite Hl. cbn [ret].
  eexists. split; [reflexivity|]. split.
  - unfold loads. now rewrite parse_dumps by apply wf_names.
  - intros ->. reflexivity.
Qed.

(** ** What a tool and [dispatch] can leave *)

Lemma printed_nil w : printed [] w = w.
Proof. unfold printed. rewrite List.app_nil_r. now destruct w. Qed.

Lemma caught_or_interrupted (m : M string) prefix w :
  (forall w0, match m w0 with
              | (SysExit _, _) => False
              | (_, w') => exists lines, w' = printed lines w0
              end) ->
  returns_or_is_interrupted
    (try_except m is_Exception (fun e => ret (prefix ++ exn_text e)) w) w.
Proof.
  intros H. unfold try_except. specialize (H w).
  destruct (m w) as [[r|e|c] w']; cbn; auto.
  destruct (is_Exception e) eqn:E; cbn; auto.
Qed.

(** Every tool but [finish] catches what its call to the outside raises. *)
Lemma tool_body_cases rt env t bound w :
  In t tools -> t_name t <> "finish" ->
  returns_or_is_interrupted (t_body t rt env bound w) w.
Proof.
  intros Hin Hname.
  destruct Hin as [<-|[<-|[<-|[<-|[<-|[<-|[]]]]]]];
    cbn [t_body execute_shell_tool read_file_tool write_file_tool list_directory_tool
           ask_llm_tool finish_tool].
  - apply caught_or_interrupted. intros w0. unfold bind, lift.
    destruct (shell env _) as [[out err]|e]; cbn.
    + match goal with |- context [if ?b then _ else _] => destruct b end;
        cbn; exists []; now rewrite printed_nil.
    + exists []. now rewrite printed_nil.
  - apply caught_or_interrupted. intros w0. unfold bind, lift.
    destruct (file_read env _) as [content|e]; cbn.
    + match goal with |- context [if ?b then _ else _] => destruct b end;
        cbn; exists []; now rewrite printed_nil.
    + exists []. now rewrite printed_nil.
  - apply caught_or_interrupted. intros w0. unfold bind, lift.
    destruct (file_write env _ _) as [[]|e]; cbn; exists []; now rewrite printed_nil.
  - apply caught_or_interrupted. intros w0. unfold bind, lift.
    destruct (listdir env _) as [files|e]; cbn; exists []; now rewrite printed_nil.
  - unfold ask_llm, bind at 1. rewrite print_eq.
    match goal with
    | |- returns_or_is_interrupted (try_except ?m _ _ (printed ?l w)) w =>
        pose proof (caught_or_interrupted m "Error querying LLM: " (printed l w)) as H
    end.
    match type of H with
    | ?P -> _ => assert (HP : P)
    end.
    { intros w0. unfold bind, lift. destruct (query_llm env _ _) as [text|e]; cbn.
      - eexists. unfold printed. reflexivity.
      - exists []. now rewrite printed_nil. }
    specialize (H HP). unfold returns_or_is_interrupted in *.
    destruct (try_except _ _ _ _) as [[r|e|c] w']; auto.
    destruct H as [l ->]. rewrite printed_printed. eauto.
  - now destruct Hname.
Qed.

Lemma finish_by_name t : In t tools -> t_name t = "finish" -> t = finish_tool.
Proof.
  intros Hin. destruct Hin as [<-|[<-|[<-|[<-|[<-|[<-|[]]]]]]]; cbn; intros H;
    try discriminate H; reflexivity.
Qed.

(** What a call of a registered tool other than [finish] leaves, and what
    the call of [finish] leaves. *)
Lemma call_cases rt env t args w :
  In t tools ->
  match call rt env t args w with
  | (Ret _, _) => True
  | (Raise e, _) => is_TypeError e = true \/ is_Exception e = false
  | (SysExit c, w') =>
      c = 0 /\ t = finish_tool
      /\ exists bound,
           bind_arguments (t_params finish_tool) args = Some bound
           /\ w' = printed ["--- AGENT FINISHED ---";
                            "Final Result: " ++ py_str rt (arg "result" bound)] w
  end.
Proof.
  intros Hin. unfold call.
  destruct (bind_arguments (t_params t) args) as [bound|] eqn:Hb; [|cbn; auto].
  destruct (string_dec (t_name t) "finish") as [Hf|Hf].
  - rewrite (finish_by_name t Hin Hf) in *. cbn [t_body finish_tool].
    unfold finish, bind. rewrite !print_eq, printed_printed. cbn.
    split; [reflexivity|]. split; [reflexivity|]. exists bound. auto.
  - pose proof (tool_body_cases rt env t bound w Hin Hf) as H.
    unfold returns_or_is_interrupted in H.
    destruct (t_body t rt env bound w) as [[r|e|c] w']; [exact I|now right|destruct H].
Qed.

Lemma dispatch_cases rt env name args w :
  match dispatch rt env name args w with
  | (Ret _, _) => True
  | (Raise e, _) =>
      (exn_class e = TypeError /\ registered rt name = Fails e) \/ is_Exception e = false
  | (SysExit c, w') =>
      c = 0 /\ name = JStr "finish"
      /\ exists bound,
           bind_arguments (t_params finish_tool) args = Some bound
           /\ w' = printed ["--- AGENT FINISHED ---";
                            "Final Result: " ++ py_str rt (arg "result" bound)] w
  end.
Proof.
  unfold dispatch. destruct (truthy name); cbn [negb]; [|exact I].
  destruct (registered rt name) as [[t|]|e] eqn:Hr; cbn [lift].
  - destruct (registered_inv rt name t Hr) as (Hn & Hin & _).
    unfold bind at 1. cbn [ret]. unfold try_except.
    pose proof (call_cases rt env t args w Hin) as H.
    destruct (call rt env t args w) as [[r|e|c] w'].
    + exact I.
    + destruct (is_TypeError e) eqn:E; [exact I|].
      destruct H as [H|H]; [congruence|now right].
    + destruct H as (Hc & Ht & H). subst t. split; [exact Hc|]. split; [exact Hn|exact H].
  - exact I.
  - left. split; [|reflexivity].
    destruct name; cbn in Hr; try discriminate; now injection Hr as <-.
Qed.

(** No failure of the call a tool makes to the outside leaves [dispatch]
    as an exception; the lines of [ask_llm] and [finish] are printed, as
    [print] takes it.  What [dispatch] raises is the [TypeError] of a name
    that cannot be looked up among the tools (a list or a dict), or an
    interruption, which is no [Exception]. *)
Theorem dispatch_returns_the_failures_of_tools rt env name args w e w' :
  dispatch rt env name args w = (Raise e, w') ->
  (exn_class e = TypeError /\ registered rt name = Fails e) \/ is_Exception e = false.
Proof.
  intros H. pose proof (dispatch_cases rt env name args w) as Hc. now rewrite H in Hc.
Qed.

(** Of all commands only [finish] ends the process, and only with
    arguments that bind, with exit code 0 and after its two lines. *)
Theorem only_finish_exits rt env name args w c w' :
  dispatch rt env name args w = (SysExit c, w') ->
  c = 0 /\ name = JStr "finish"
  /\ exists bound,
       bind_arguments (t_params finish_tool) args = Some bound
       /\ w' = printed ["--- AGENT FINISHED ---";
                        "Final Result: " ++ py_str rt (arg "result" bound)] w.
Proof.
  intros H. pose proof (dispatch_cases rt env name args w) as Hc. now rewrite H in Hc.
Qed.

(** ** How an iteration can end *)

Lemma not_Exception_class e : is_Exception e = false -> exn_class e = KeyboardInterrupt.
Proof. unfold is_Exception. destruct (exn_class e); congruence. Qed.

Section Outcomes.

Variables (rt : Runtime) (env : Env) (a : Agent) (h : list json).
Hypothesis has_turns : turns (state a) = Some h.

(** What [respond] can leave: no [RequestException], and no exit but with
    code 0. *)
Lemma respond_outcomes text w :
  match respond rt env a text w with
  | (Ret _, _) => True
  | (Raise e, _) => exn_class e <> RequestException
  | (SysExit c, _) => c = 0
  end.
Proof.
  destruct (json_loads rt text) as [v|] eqn:Hl;
    [|unfold respond; rewrite Hl; cbn; discriminate].
  destruct v as [| | | | |resp];
    try (unfold respond; rewrite Hl; cbn; discriminate).
  destruct (get_or "command" (JObj []) resp) as [| | | | |spec] eqn:Hc;
    try (unfold respond; rewrite Hl; unfold bind; cbn; rewrite Hc; cbn; discriminate).
  destruct (respond_dispatch rt env a text resp spec w Hl Hc) as [lines ->].
  match goal with
  | |- context [dispatch rt env ?n ?g ?w0] => pose proof (dispatch_cases rt env n g w0) as Hd
  end.
  destruct (dispatch _ _ _ _ _) as [[result|e|c] w1].
  - match goal with
    | |- context [record rt (state a) ?t ?w0] =>
        destruct (record_turns rt (state a) t w0 h has_turns) as (m & _ & _ & ->)
    end.
    exact I.
  - destruct Hd as [[Hd _]|Hd]; [|apply not_Exception_class in Hd]; congruence.
  - now destruct Hd.
Qed.

Lemma obtain_outcomes prompt w :
  _construct_prompt a = Some prompt ->
  match obtain rt env a prompt w with
  | (Ret _, _) => True
  | (Raise e, _) => fails_to_obtain env a e
  | (SysExit c, _) => c = 0
  end.
Proof.
  intros Hp. unfold fails_to_obtain. rewrite Hp. unfold obtain.
  destruct (manual_mode a).
  - unfold bind, lift. rewrite !print_eq. destruct (stdin_read env) as [text|e]; cbn; auto.
    destruct (String.eqb text ""); cbn; auto.
  - destruct (history_entry a h has_turns) as (m & Hm & E).
    rewrite Hm. unfold bind, lift, dict_index. rewrite print_eq, E. cbn.
    destruct (query_llm env _ _) as [text|e]; cbn; auto.
Qed.

Lemma handle_exit text e w c w' :
  handle rt a text e w = Exit c w' ->
  (c = 0 /\ exn_class e = KeyboardInterrupt) \/ (c = 1 /\ exn_class e = RequestException).
Proof.
  unfold handle.
  destruct (exn_class e) eqn:E;
    try (match goal with
         | |- context [record_error rt a ?msg w] =>
             destruct (record_error_turns rt a h has_turns msg w) as (a' & w1 & -> & _)
         end; discriminate).
  - rewrite print_eq. intros H. injection H as <- _. now right.
  - destruct ((_ ;; _) w). intros H. injection H as <- _. now left.
Qed.

(** The process ends an iteration with code 0 or 1 only, and with code 1
    only when obtaining the response raised [RequestException]; the state
    file is then as it was. *)
Theorem exit_code_is_0_or_1 w c w' :
  run_iteration rt env a w = Exit c w' ->
  c = 0
  \/ (c = 1 /\ state_file w' = state_file w
      /\ exists e, fails_to_obtain env a e /\ exn_class e = RequestException).
Proof.
  intros H. pose proof (run_iteration_ends rt env a h has_turns w) as Hends.
  rewrite H in Hends. cbn in Hends.
  destruct (turns_prompt a h has_turns) as [prompt Hp].
  unfold run_iteration in H. rewrite Hp in H.
  destruct ((_ ;; _) w) as [r0 w0].
  pose proof (obtain_outcomes prompt w0 Hp) as Ho.
  destruct (obtain rt env a prompt w0) as [[text|e|c0] w1].
  - pose proof (respond_outcomes text w1) as Hr.
    destruct (respond rt env a text w1) as [[st'|e|c1] w2]; [discriminate| |].
    + apply handle_exit in H. destruct H as [[-> _]|[_ He]]; [now left|congruence].
    + injection H as <- _. now left.
  - apply handle_exit in H. destruct H as [[-> _]|[-> He]]; [now left|].
    right. split; [reflexivity|]. split; [|eauto].
    destruct Hends as [[lines ->]|[Hc _]]; [reflexivity|discriminate].
  - injection H as <- _. now left.
Qed.

(** A command whose name is missing or not truthy ([null], [false], [0],
    the empty string, list or dict) is answered with the text of the
    malformed-response error as the result of a normal turn; the lines are
    printed and the state with the turn is saved, as [print] and
    [_save_state] take it. *)
Theorem falsy_name_is_malformed w text resp spec :
  obtains env a text ->
  json_loads rt text = Some (JObj resp) ->
  get_or "command" (JObj []) resp = JObj spec ->
  truthy (get_or "name" JNull spec) = false ->
  exists a' w',
    run_iteration rt env a w = Continue a' w'
    /\ turns (state a')
       = Some (h ++ [normal_turn (get_or "thoughts" (JStr "") resp) (JObj spec)
                       "Error: Malformed response. 'command' key with 'name' is required."])%list
    /\ state_file w' = Some (dumps (Some 4) (state a')).
Proof.
  intros Ho Hl Hc Hn.
  apply (iteration_records rt env a h has_turns w text resp spec _ Ho Hl Hc).
  intros w0. exists []. unfold dispatch. rewrite Hn. cbn. now rewrite printed_nil.
Qed.

(** A command whose name is a list or a dict that is not empty cannot be
    looked up among the tools: the [TypeError] of the lookup is no failure
    of the dispatch but an unexpected one, and gives an error turn. *)
Theorem unhashable_name_is_error_turn w text resp spec :
  obtains env a text ->
  json_loads rt text = Some (JObj resp) ->
  get_or "command" (JObj []) resp = JObj spec ->
  truthy (get_or "name" JNull spec) = true ->
  (exists items, get_or "name" JNull spec = JArr items)
  \/ (exists members, get_or "name" JNull spec = JObj members) ->
  exists a' w',
    run_iteration rt env a w = Continue a' w'
    /\ turns (state a')
       = Some (h ++ [error_turn ("An unexpected error occurred: "
                                 ++ error_text rt (Unhashable (get_or "name" JNull spec)))])%list
    /\ state_file w' = Some (dumps (Some 4) (state a')).
Proof.
  intros Ho Hl Hc Ht Hn.
  destruct (run_iteration_respond rt env a h has_turns text w Ho) as [l1 ->].
  destruct (respond_dispatch rt env a text resp spec (printed l1 w) Hl Hc) as [l2 ->].
  assert (Hr : registered rt (get_or "name" JNull spec)
               = Fails (Exc TypeError (error_text rt (Unhashable (get_or "name" JNull spec))))).
  { destruct Hn as [[items E]|[members E]]; rewrite E; reflexivity. }
  unfold dispatch. rewrite Ht, Hr. cbn [negb lift raise bind].
  unfold handle. cbn [exn_class exn_text]. apply record_error_turns. exact has_turns.
Qed.

(** A response whose [command] is no object is an unexpected failure as
    well: one error turn with the text of the [AttributeError]. *)
Theorem command_not_object_is_error_turn w text resp v :
  obtains env a text ->
  json_loads rt text = Some (JObj resp) ->
  get_or "command" (JObj []) resp = v ->
  (forall spec, v <> JObj spec) ->
  exists a' w',
    run_iteration rt env a w = Continue a' w'
    /\ turns (state a')
       = Some (h ++ [error_turn ("An unexpected error occurred: "
                                 ++ error_text rt (NoAttribute v "get"))])%list
    /\ state_file w' = Some (dumps (Some 4) (state a')).
Proof.
  intros Ho Hl Hc Hv.
  destruct (run_iteration_respond rt env a h has_turns text w Ho) as [l1 ->].
  unfold respond. rewrite Hl. unfold bind at 1. cbn [ret].
  unfold bind at 1. cbn [dict_get ret]. unfold bind at 1. cbn [dict_get ret]. rewrite Hc.
  unfold bind at 1.
  destruct v as [| | | | |spec];
    try (cbn [dict_get raise]; unfold handle; cbn [exn_class exn_text];
         apply record_error_turns; exact has_turns).
  destruct (Hv spec eq_refl).
Qed.

Lemma dispatch_interrupted name args t bound e prefix w :
  registered rt name = Ok (Some t) ->
  bind_arguments (t_params t) args = Some bound ->
  raises_inside env t bound e prefix ->
  is_Exception e = false ->
  exists lines, dispatch rt env name args w = (Raise e, printed lines w).
Proof.
  intros Hr Hb Hi He.
  destruct (registered_inv rt name t Hr) as (Hn & Hin & _).
  assert (Htr : truthy name = true) by (rewrite Hn; now apply tool_name_truthy).
  assert (Hte : is_TypeError e = false).
  { unfold is_Exception in He. unfold is_TypeError. destruct (exn_class e); congruence. }
  unfold dispatch. rewrite Hr, Htr.
  cbn [negb lift ret bind]. unfold try_except at 1, call. rewrite Hb.
  destruct Hi as [b e Hf|b e Hf|b e Hf|b e Hf|b e Hf];
    cbn [t_body execute_shell_tool read_file_tool write_file_tool list_directory_tool
           ask_llm_tool].
  - exists []. unfold execute_shell, try_except, bind, lift. rewrite Hf. cbn [raise].
    rewrite He, Hte, printed_nil. reflexivity.
  - exists []. unfold read_file, try_except, bind, lift. rewrite Hf. cbn [raise].
    rewrite He, Hte, printed_nil. reflexivity.
  - exists []. unfold write_file, try_except, bind, lift. rewrite Hf. cbn [raise].
    rewrite He, Hte, printed_nil. reflexivity.
  - exists []. unfold list_directory, try_except, bind, lift. rewrite Hf. cbn [raise].
    rewrite He, Hte, printed_nil. reflexivity.
  - eexists. unfold ask_llm, try_except, bind, lift. rewrite print_eq, Hf. cbn [raise].
    rewrite He, Hte. reflexivity.
Qed.

(** An interruption while a tool waits for the outside (a shell command
    that runs, a request of [ask_llm]) is not caught by the tool: the turn
    of the iteration is lost, the state is saved as it was before the
    iteration, and the process exits with code 0. *)
Theorem interrupted_tool_saves_and_exits w text resp spec t bound e prefix :
  obtains env a text ->
  json_loads rt text = Some (JObj resp) ->
  get_or "command" (JObj []) resp = JObj spec ->
  registered rt (get_or "name" JNull spec) = Ok (Some t) ->
  bind_arguments (t_params t) (get_or "args" (JObj []) spec) = Some bound ->
  raises_inside env t bound e prefix ->
  exn_class e = KeyboardInterrupt ->
  exists w',
    run_iteration rt env a w = Exit 0 w'
    /\ state_file w' = Some (dumps (Some 4) (state a)).
Proof.
  intros Ho Hl Hc Hr Hb Hi He.
  assert (Hne : is_Exception e = false) by (unfold is_Exception; now rewrite He).
  destruct (run_iteration_respond rt env a h has_turns text w Ho) as [l1 ->].
  destruct (respond_dispatch rt env a text resp spec (printed l1 w) Hl Hc) as [l2 ->].
  destruct (dispatch_interrupted _ _ t bound e prefix (printed l2 (printed l1 w)) Hr Hb Hi Hne)
    as [l3 ->].
  unfold handle. rewrite He. unfold bind. rewrite print_eq. cbn [_save_state].
  eexists. split; reflexivity.
Qed.

(** A failure to obtain the response that is neither a failed request nor
    an interruption is recorded and the loop goes on: a [JSONDecodeError]
    (the reply of the backend is no JSON) as the error turn of a response
    that is no JSON, with the empty text as the response; any other
    exception as an unexpected error. *)
Theorem obtain_failure_is_error_turn w e :
  fails_to_obtain env a e ->
  (exn_class e = JSONDecodeError ->
   exists a' w',
     run_iteration rt env a w = Continue a' w'
     /\ turns (state a')
        = Some (h ++ [error_turn ("Error: LLM did not return valid JSON. Response:" ++ nl)])%list
     /\ state_file w' = Some (dumps (Some 4) (state a')))
  /\ (exn_class e = TypeError \/ exn_class e = OtherException ->
      exists a' w',
        run_iteration rt env a w = Continue a' w'
        /\ turns (state a')
           = Some (h ++ [error_turn ("An unexpected error occurred: " ++ exn_text e)])%list
        /\ state_file w' = Some (dumps (Some 4) (state a'))).
Proof.
  intros Ho. destruct (run_iteration_fails rt env a h has_turns e w Ho) as [lines ->].
  split.
  - intros He. unfold handle. rewrite He.
    exact (record_error_turns rt a h has_turns _ _).
  - intros He. unfold handle.
    destruct He as [He|He]; rewrite He; exact (record_error_turns rt a h has_turns _ _).
Qed.

End Outcomes.

(** ** What an iteration that goes on has done *)

Lemma continue_turn rt env a w a' w' :
  run_iteration rt env a w = Continue a' w' ->
  exists t w1,
    record rt (state a) t w1 = (Ret (state a'), w')
    /\ a' = with_state a (state a')
    /\ ((exists text resp spec result,
            json_loads rt text = Some (JObj resp)
            /\ get_or "command" (JObj []) resp = JObj spec
            /\ t = normal_turn (get_or "thoughts" (JStr "") resp) (JObj spec) result)
        \/ exists error_msg, t = error_turn error_msg).
Proof.
  intros H. unfold run_iteration in H.
  destruct (_construct_prompt a) as [prompt|]; [|discriminate].
  destruct ((_ ;; _) w) as [r0 w0].
  destruct (obtain rt env a prompt w0) as [[text|e|c] w1]; try discriminate.
  - destruct (respond rt env a text w1) as [[st'|e|c] w2] eqn:Hr; try discriminate.
    + injection H as <- <-. apply respond_Ret in Hr.
      destruct Hr as (resp & spec & result & v0 & v1 & v2 & Hl & Hc & _ & Hrec).
      eexists _, _. split; [exact Hrec|]. split; [reflexivity|]. left. eauto 10.
    + apply handle_Continue in H. destruct H as (msg & v1 & H1 & H2).
      eexists _, _. split; [exact H1|]. split; [exact H2|]. right. eauto.
  - apply handle_Continue in H. destruct H as (msg & v1 & H1 & H2).
    eexists _, _. split; [exact H1|]. split; [exact H2|]. right. eauto.
Qed.

Lemma continue_appends rt env a w a' w' :
  run_iteration rt env a w = Continue a' w' ->
  exists m h t,
    state a = JObj m /\ turns (state a) = Some h
    /\ state a' = JObj (assign "history" (JArr (h ++ [t])) m)
    /\ a' = with_state a (state a')
    /\ is_turn t
    /\ state_file w' = Some (dumps (Some 4) (state a')).
Proof.
  intros H. destruct (continue_turn rt env a w a' w' H) as (t & w1 & Hrec & Ha & Ht).
  apply record_Ret in Hrec. destruct Hrec as (m & h & Hm & Hh & Hst & Hw).
  exists m, h, t. repeat split; auto.
  - unfold turns. now rewrite Hm, Hh.
  - destruct Ht as [(text & resp & spec & result & _ & _ & ->)|[msg ->]];
      [left|right]; eauto.
  - now rewrite Hw.
Qed.

(** The turn an iteration records is in the prompt of the next iteration,
    whole and last, however long it is; the turns before it are there as
    far as the budget allows. *)
Theorem recorded_turn_is_in_next_prompt rt env a w a' w' :
  run_iteration rt env a w = Continue a' w' ->
  exists h t dropped kept,
    turns (state a) = Some h
    /\ turns (state a') = Some (h ++ [t])%list
    /\ h = (dropped ++ kept)%list
    /\ _construct_prompt a'
       = Some (SYSTEM_PROMPT_format (main_goal a) _get_tools_description
               ++ nl ++ nl ++ "**History (Your previous actions):**" ++ nl
               ++ history_str (kept ++ [t])).
Proof.
  intros H. destruct (continue_appends rt env a w a' w' H) as (m & h & t & Hm & Hh & Hst & Ha & _).
  destruct (trim_keeps_latest CONTEXT_WINDOW_TOKEN_LIMIT h t) as [kept Hk].
  destruct (trim_suffix CONTEXT_WINDOW_TOKEN_LIMIT (h ++ [t])) as [dropped Hd].
  rewrite Hk, List.app_assoc in Hd. apply app_inv_tail in Hd.
  assert (Ht' : turns (state a') = Some (h ++ [t])%list) by (rewrite Hst; apply turns_assign).
  exists h, t, dropped, kept. repeat split; auto.
  unfold _construct_prompt. rewrite (turns_history _ _ Ht'), Hk. rewrite Ha. reflexivity.
Qed.

Lemma run_saves envs :
  forall rt a w a' w',
    envs <> [] -> run rt envs a w = Continue a' w' ->
    state_file w' = Some (dumps (Some 4) (state a')).
Proof.
  induction envs as [|env envs IH]; intros rt a w a' w' Hne H; [congruence|].
  cbn [run] in H.
  destruct (run_iteration rt env a w) as [a1 w1|c w1|e w1] eqn:Hit; try discriminate.
  destruct envs as [|env' envs'].
  - cbn in H. injection H as <- <-.
    destruct (continue_appends rt env a w a1 w1 Hit) as (m & h & t & _ & _ & _ & _ & _ & Hf).
    exact Hf.
  - apply (IH rt a1 w1 a' w'); [discriminate|exact H].
Qed.

(** ** The history over a run *)

(** Over a run the history only grows, by one turn for each iteration,
    each of them a normal turn or an error turn; the turns that were there
    stay as they were, and the state saved last is the state of the
    agent. *)
Theorem run_appends_a_turn_per_iteration rt envs :
  forall a w a' w' h,
    turns (state a) = Some h ->
    run rt envs a w = Continue a' w' ->
    exists new,
      turns (state a') = Some (h ++ new)%list
      /\ length new = length envs
      /\ Forall is_turn new
      /\ (envs <> [] -> state_file w' = Some (dumps (Some 4) (state a'))).
Proof.
  induction envs as [|env envs IH]; intros a w a' w' h Ht H.
  - cbn in H. injection H as <- <-. exists []. rewrite List.app_nil_r.
    repeat split; auto. congruence.
  - cbn [run] in H.
    destruct (run_iteration rt env a w) as [a1 w1|c w1|e w1] eqn:Hit; try discriminate.
    destruct (continue_appends rt env a w a1 w1 Hit)
      as (m & h1 & t & Hm & Hh & Hst & Ha & Hturn & Hf).
    assert (h1 = h) by congruence. subst h1.
    assert (Ht1 : turns (state a1) = Some (h ++ [t])%list) by (rewrite Hst; apply turns_assign).
    destruct (IH a1 w1 a' w' _ Ht1 H) as (new & H1 & H2 & H3 & H4).
    exists (t :: new). rewrite <- List.app_assoc in H1. cbn [length].
    split; [exact H1|]. split; [now rewrite H2|]. split; [now constructor|].
    intros _. destruct envs as [|env' envs'].
    + cbn in H. injection H as <- <-. exact Hf.
    + apply H4. discriminate.
Qed.

(** ** Restart *)




(** ** Startup *)

Lemma init_fresh rt goal manual w :
  state_file w = None ->
  __init__ rt goal manual w
  = (Ret (fresh goal manual), printed ["No state file found. Initializing new state."] w).
Proof.
  intros Hf. unfold __init__, bind, _load_state. rewrite Hf. unfold bind.
  rewrite print_eq. reflexivity.
Qed.

Lemma main_fresh rt goal manual envs w :
  state_file w = None ->
  exists lines, main rt goal manual envs w = run rt envs (fresh goal manual) (printed lines w).
Proof.
  intros Hf. unfold main. rewrite (init_fresh rt goal manual w Hf).
  destruct manual; [rewrite print_eq, printed_printed|unfold ret]; eexists; reflexivity.
Qed.

(** Without a state file the agent starts from the goal it was given and
    an empty history, and writes no file before its first iteration is
    complete.  From then on the saved state holds that goal and one turn
    for each iteration. *)
Theorem fresh_start_persists_the_goal rt goal manual envs w :
  state_file w = None ->
  (envs = [] -> state_file (world_of (main rt goal manual envs w)) = None)
  /\ (forall a' w',
        main rt goal manual envs w = Continue a' w' ->
        main_goal a' = goal
        /\ state_goal (state a') = Some (JStr goal)
        /\ exists new,
             turns (state a') = Some new /\ length new = length envs
             /\ (envs <> [] -> state_file w' = Some (dumps (Some 4) (state a')))).
Proof.
  intros Hf. destruct (main_fresh rt goal manual envs w Hf) as [lines ->]. split.
  - intros ->. cbn. exact Hf.
  - intros a' w' H.
    destruct (run_ends rt envs (fresh goal manual) [] (printed lines w) eq_refl) as [_ Hrun].
    rewrite H in Hrun. destruct Hrun as (new0 & Hturns & Hlen & Hg & _ & Hsg).
    rewrite List.app_nil_l in Hturns.
    split; [exact Hg|]. split; [exact Hsg|]. exists new0.
    split; [exact Hturns|]. split; [exact Hlen|].
    intros Hne. exact (run_saves envs rt _ _ a' w' Hne H).
Qed.

(** A state file that [json.load] cannot read ends the program at
    startup: the [JSONDecodeError] leaves [Agent.__init__], no iteration is
    run and the file stays as it is. *)
Theorem unreadable_state_file_is_fatal rt goal manual envs w text :
  state_file w = Some text ->
  json_loads rt text = None ->
  exists e w',
    main rt goal manual envs w = Crash e w'
    /\ exn_class e = JSONDecodeError
    /\ state_file w' = Some text
    /\ stdout w' = (stdout w ++ [("Loading state from " ++ STATE_FILE ++ "...")%string])%list.
Proof.
  intros Hf Hl. unfold main, __init__, bind, _load_state. rewrite Hf. unfold bind.
  rewrite print_eq, Hl. cbn. eexists _, _. split; [reflexivity|].
  split; [reflexivity|]. split; [exact Hf|reflexivity].
Qed.

(** A state without the key [history] gets a prompt with the empty
    history, but no iteration can be completed from it: where the response
    is asked of the model, the [KeyError] is raised again inside the
    handler that would record it, and leaves [run]; nothing is written. *)
Theorem state_without_history_cannot_go_on rt env a w m :
  state a = JObj m ->
  lookup "history" m = None ->
  _construct_prompt a
  = Some (SYSTEM_PROMPT_format (main_goal a) _get_tools_description
          ++ nl ++ nl ++ "**History (Your previous actions):**" ++ nl ++ "[]")
  /\ (forall a' w', run_iteration rt env a w <> Continue a' w')
  /\ (manual_mode a = false ->
      exists w',
        run_iteration rt env a w
        = Crash (Exc OtherException (error_text rt (MissingKey "history"))) w'
        /\ state_file w' = state_file w).
Proof.
  intros Hm Hh.
  assert (Hhist : history (state a) = Some []) by (unfold history; now rewrite Hm, Hh).
  split; [|split].
  - unfold _construct_prompt. rewrite Hhist. reflexivity.
  - intros a' w' H. destruct (continue_appends rt env a w a' w' H) as (m' & h & t & _ & Ht & _).
    unfold turns in Ht. rewrite Hm, Hh in Ht. discriminate.
  - intros Hmode. unfold run_iteration, _construct_prompt. rewrite Hhist.
    unfold bind at 1. rewrite !print_eq, printed_printed.
    unfold obtain. rewrite Hmode, Hm. unfold bind at 1. rewrite print_eq.
    unfold bind at 1. cbn [dict_index]. rewrite Hh. cbn [raise].
    unfold handle. cbn [exn_class exn_text]. unfold record_error, bind at 1.
    rewrite print_eq. unfold record, bind at 1, append_turn. rewrite Hm, Hh. cbn [raise].
    eexists. split; reflexivity.
Qed.

(** ** The theorems at concrete runs *)

(** Three dispatch failures of a fresh agent: a command that names no
    tool, [finish] without its argument, and [read_file] on a file the
    environment does not have. *)
Lemma dispatch_failure_recorded_witness :
  (exists a' w',
      run_iteration cpython (answering (response "t" "nope" (JObj []))) (fresh "g" false) blank
      = Continue a' w'
      /\ turns (state a')
         = Some [normal_turn (JStr "t") (JObj [("name", JStr "nope"); ("args", JObj [])])
                   "Error: Unknown command 'nope'."]
      /\ (forall msg,
            normal_turn (JStr "t") (JObj [("name", JStr "nope"); ("args", JObj [])])
              "Error: Unknown command 'nope'." <> error_turn msg)
      /\ state_file w' = Some (dumps (Some 4) (state a'))
      /\ (forall later,
            run cpython (answering (response "t" "nope" (JObj [])) :: later) (fresh "g" false)
              blank
            = run cpython later a' w'))
  /\ (exists a' w',
        run_iteration cpython (answering (response "t" "finish" (JObj []))) (fresh "g" false) blank
        = Continue a' w'
        /\ turns (state a')
           = Some [normal_turn (JStr "t") (JObj [("name", JStr "finish"); ("args", JObj [])])
                     "Error: Invalid arguments for command 'finish': finish() missing 1 required positional argument: 'result'"]
        /\ (forall msg,
              normal_turn (JStr "t") (JObj [("name", JStr "finish"); ("args", JObj [])])
                "Error: Invalid arguments for command 'finish': finish() missing 1 required positional argument: 'result'"
              <> error_turn msg)
        /\ state_file w' = Some (dumps (Some 4) (state a'))
        /\ (forall later,
              run cpython (answering (response "t" "finish" (JObj [])) :: later)
                (fresh "g" false) blank
              = run cpython later a' w'))
  /\ (exists a' w',
        run_iteration cpython
          (answering (response "t" "read_file" (JObj [("path", JStr "notes.txt")])))
          (fresh "g" true) blank
        = Continue a' w'
        /\ turns (state a')
           = Some [normal_turn (JStr "t")
                     (JObj [("name", JStr "read_file");
                            ("args", JObj [("path", JStr "notes.txt")])])
                     "Error reading file: [Errno 2] No such file or directory"]
        /\ (forall msg,
              normal_turn (JStr "t")
                (JObj [("name", JStr "read_file");
                       ("args", JObj [("path", JStr "notes.txt")])])
                "Error reading file: [Errno 2] No such file or directory"
              <> error_turn msg)
        /\ state_file w' = Some (dumps (Some 4) (state a'))
        /\ (forall later,
              run cpython
                (answering (response "t" "read_file" (JObj [("path", JStr "notes.txt")]))
                 :: later)
                (fresh "g" true) blank
              = run cpython later a' w')).
Proof.
  split; [|split].
  - apply (dispatch_failure_recorded_as_result cpython
             (answering (response "t" "nope" (JObj []))) (fresh "g" false) [] eq_refl blank
             (response "t" "nope" (JObj []))
             [("thoughts", JStr "t");
              ("command", JObj [("name", JStr "nope"); ("args", JObj [])])]
             [("name", JStr "nope"); ("args", JObj [])]).
    + vm_compute. reflexivity.
    + vm_compute. reflexivity.
    + reflexivity.
    + exact (unknown_tool cpython (answering (response "t" "nope" (JObj [])))
               (JStr "nope") (JObj []) eq_refl eq_refl).
  - apply (dispatch_failure_recorded_as_result cpython
             (answering (response "t" "finish" (JObj []))) (fresh "g" false) [] eq_refl blank
             (response "t" "finish" (JObj []))
             [("thoughts", JStr "t");
              ("command", JObj [("name", JStr "finish"); ("args", JObj [])])]
             [("name", JStr "finish"); ("args", JObj [])]).
    + vm_compute. reflexivity.
    + vm_compute. reflexivity.
    + reflexivity.
    + exact (arguments_do_not_bind cpython (answering (response "t" "finish" (JObj [])))
               (JStr "finish") (JObj []) finish_tool eq_refl eq_refl).
  - apply (dispatch_failure_recorded_as_result cpython
             (answering (response "t" "read_file" (JObj [("path", JStr "notes.txt")])))
             (fresh "g" true) [] eq_refl blank
             (response "t" "read_file" (JObj [("path", JStr "notes.txt")]))
             [("thoughts", JStr "t");
              ("command", JObj [("name", JStr "read_file");
                                ("args", JObj [("path", JStr "notes.txt")])])]
             [("name", JStr "read_file"); ("args", JObj [("path", JStr "notes.txt")])]).
    + vm_compute. split; [reflexivity|discriminate].
    + vm_compute. reflexivity.
    + reflexivity.
    + exact (handler_raises cpython
               (answering (response "t" "read_file" (JObj [("path", JStr "notes.txt")])))
               (JStr "read_file") (JObj [("path", JStr "notes.txt")])
               read_file_tool [("path", JStr "notes.txt")]
               (Exc OtherException "[Errno 2] No such file or directory")
               "Error reading file: " eq_refl eq_refl
               (file_read_fails
                  (answering (response "t" "read_file" (JObj [("path", JStr "notes.txt")])))
                  [("path", JStr "notes.txt")]
                  (Exc OtherException "[Errno 2] No such file or directory") eq_refl)
               eq_refl).
Defined.

(** C2 at the response [not json], and at a JSON object without
    [command]. *)
Lemma malformed_response_recorded_witness :
  (exists a' w',
      run_iteration cpython (answering "not json") (fresh "g" false) blank = Continue a' w'
      /\ turns (state a')
         = Some [error_turn ("Error: LLM did not return valid JSON. Response:" ++ nl
                             ++ "not json")]
      /\ state_file w' = Some (dumps (Some 4) (state a'))
      /\ (forall later,
            run cpython (answering "not json" :: later) (fresh "g" false) blank
            = run cpython later a' w'))
  /\ (exists a' w',
        run_iteration cpython (answering (dumps None (JObj [("thoughts", JStr "x")])))
          (fresh "g" false) blank
        = Continue a' w'
        /\ turns (state a')
           = Some [normal_turn (JStr "x") (JObj [])
                     "Error: Malformed response. 'command' key with 'name' is required."]
        /\ state_file w' = Some (dumps (Some 4) (state a'))
        /\ (forall later,
              run cpython (answering (dumps None (JObj [("thoughts", JStr "x")])) :: later)
                (fresh "g" false) blank
              = run cpython later a' w')).
Proof.
  split.
  - apply (proj1 (malformed_response_recorded cpython (answering "not json")
                    (fresh "g" false) [] eq_refl blank "not json"
                    ltac:(vm_compute; reflexivity))).
    vm_compute. reflexivity.
  - apply (proj1 (proj2 (malformed_response_recorded cpython
                           (answering (dumps None (JObj [("thoughts", JStr "x")])))
                           (fresh "g" false) [] eq_refl blank
                           (dumps None (JObj [("thoughts", JStr "x")]))
                           ltac:(vm_compute; reflexivity)))
             [("thoughts", JStr "x")]).
    + vm_compute. reflexivity.
    + reflexivity.
Defined.

(** C2 as stated fails on a response that is valid JSON without the key
    [command]: the turn added is a normal turn, not an error turn, and it
    does not hold the raw text. *)
Lemma missing_command_is_no_error_turn :
  json_loads cpython (dumps None (JObj [("thoughts", JStr "x")]))
  = Some (JObj [("thoughts", JStr "x")])
  /\ lookup "command" [("thoughts", JStr "x")] = None
  /\ exists a' w',
       run_iteration cpython (answering (dumps None (JObj [("thoughts", JStr "x")])))
         (fresh "g" false) blank
       = Continue a' w'
       /\ turns (state a')
          = Some [normal_turn (JStr "x") (JObj [])
                    "Error: Malformed response. 'command' key with 'name' is required."]
       /\ forall error_msg,
            normal_turn (JStr "x") (JObj [])
              "Error: Malformed response. 'command' key with 'name' is required."
            <> error_turn error_msg.
Proof.
  split; [vm_compute; reflexivity|]. split; [reflexivity|].
  eexists _, _. split; [vm_compute; reflexivity|]. split; [reflexivity|].
  intros error_msg. discriminate.
Qed.


(** C5 at the response that finishes with the result [done], and at a
    response whose command [finish] comes with a keyword the tool does not
    have. *)
Lemma finish_ends_the_loop_witness :
  (exists lines w',
      stdout w' = (stdout blank ++ lines ++ ["--- AGENT FINISHED ---"; "Final Result: done"])%list
      /\ state_file w' = state_file blank
      /\ run_iteration cpython
           (answering (response "t" "finish" (JObj [("result", JStr "done")])))
           (fresh "g" false) blank
         = Exit 0 w'
      /\ forall later,
           run cpython
             (answering (response "t" "finish" (JObj [("result", JStr "done")])) :: later)
             (fresh "g" false) blank
           = Exit 0 w')
  /\ (exists a' w',
        run_iteration cpython
          (answering (response "t" "finish"
                        (JObj [("result", JStr "done"); ("code", JInt 0)])))
          (fresh "g" false) blank
        = Continue a' w'
        /\ turns (state a')
           = Some [normal_turn (JStr "t")
                     (JObj [("name", JStr "finish");
                            ("args", JObj [("result", JStr "done"); ("code", JInt 0)])])
                     "Error: Invalid arguments for command 'finish': finish() got an unexpected keyword argument 'code'"]
        /\ (forall msg,
              normal_turn (JStr "t")
                (JObj [("name", JStr "finish");
                       ("args", JObj [("result", JStr "done"); ("code", JInt 0)])])
                "Error: Invalid arguments for command 'finish': finish() got an unexpected keyword argument 'code'"
              <> error_turn msg)
        /\ state_file w' = Some (dumps (Some 4) (state a'))
        /\ forall later,
             run cpython
               (answering (response "t" "finish"
                             (JObj [("result", JStr "done"); ("code", JInt 0)])) :: later)
               (fresh "g" false) blank
             = run cpython later a' w').
Proof.
  split.
  - apply (proj1 (finish_ends_the_loop cpython
                    (answering (response "t" "finish" (JObj [("result", JStr "done")])))
                    (fresh "g" false) [] eq_refl blank
                    (response "t" "finish" (JObj [("result", JStr "done")]))
                    [("thoughts", JStr "t");
                     ("command", JObj [("name", JStr "finish");
                                       ("args", JObj [("result", JStr "done")])])]
                    [("name", JStr "finish"); ("args", JObj [("result", JStr "done")])]
                    ltac:(vm_compute; reflexivity) ltac:(vm_compute; reflexivity)
                    eq_refl eq_refl)
             [("result", JStr "done")]).
    reflexivity.
  - apply (proj2 (finish_ends_the_loop cpython
                    (answering (response "t" "finish"
                                  (JObj [("result", JStr "done"); ("code", JInt 0)])))
                    (fresh "g" false) [] eq_refl blank
                    (response "t" "finish" (JObj [("result", JStr "done"); ("code", JInt 0)]))
                    [("thoughts", JStr "t");
                     ("command", JObj [("name", JStr "finish");
                                       ("args", JObj [("result", JStr "done");
                                                      ("code", JInt 0)])])]
                    [("name", JStr "finish");
                     ("args", JObj [("result", JStr "done"); ("code", JInt 0)])]
                    ltac:(vm_compute; reflexivity) ltac:(vm_compute; reflexivity)
                    eq_refl eq_refl)).
    reflexivity.
Defined.

(** C5 as stated fails on a command named [finish] whose arguments do not
    bind: the failure is recorded and the loop runs its next iteration. *)
Lemma finish_without_result_goes_on :
  exists a' w',
    run cpython
      [answering (response "t" "finish" (JObj []));
       answering (response "t" "finish" (JObj []))]
      (fresh "g" false) blank
    = Continue a' w'
    /\ turns (state a')
       = Some [normal_turn (JStr "t") (JObj [("name", JStr "finish"); ("args", JObj [])])
                 "Error: Invalid arguments for command 'finish': finish() missing 1 required positional argument: 'result'";
               normal_turn (JStr "t") (JObj [("name", JStr "finish"); ("args", JObj [])])
                 "Error: Invalid arguments for command 'finish': finish() missing 1 required positional argument: 'result'"].
Proof.
  eexists _, _. split; [vm_compute; reflexivity|]. reflexivity.
Qed.


(** C9 at a fresh agent: the response that finishes with [done] exits and
    leaves no state file, and the run over a failed [finish] and a response
    that is no JSON saves a state without a record of [finish]. *)
Lemma finish_never_persisted_witness :
  (exists w',
      run_iteration cpython
        (answering (response "t" "finish" (JObj [("result", JStr "done")])))
        (fresh "g" false) blank
      = Exit 0 w'
      /\ state_file w' = state_file blank
      /\ In "Final Result: done" (stdout w'))
  /\ (state_file
        (world_of (run cpython
                     [answering (response "t" "finish" (JObj [])); answering "not json"]
                     (fresh "g" false) blank))
      = state_file blank
      \/ exists st new,
           state_file
             (world_of (run cpython
                          [answering (response "t" "finish" (JObj [])); answering "not json"]
                          (fresh "g" false) blank))
           = Some (dumps (Some 4) st)
           /\ turns st = Some ([] ++ new)%list
           /\ Forall (fun t => ~ records_finish t) new).
Proof.
  pose proof (finish_never_persisted cpython
                [answering (response "t" "finish" (JObj [])); answering "not json"]
                (fresh "g" false) blank [] eq_refl) as [Hexit Hfile].
  split; [|exact Hfile].
  apply (Hexit (answering (response "t" "finish" (JObj [("result", JStr "done")])))
           (response "t" "finish" (JObj [("result", JStr "done")]))
           [("thoughts", JStr "t");
            ("command", JObj [("name", JStr "finish");
                              ("args", JObj [("result", JStr "done")])])]
           [("name", JStr "finish"); ("args", JObj [("result", JStr "done")])]
           [("result", JStr "done")]).
  - vm_compute. reflexivity.
  - vm_compute. reflexivity.
  - reflexivity.
  - reflexivity.
  - reflexivity.
Defined.

(** C10 at a state file that holds the goal [old goal] and an agent built
    with [new goal]: after an iteration the agent still shows [new goal]
    to the model and the saved state still holds [old goal]. *)
Lemma constructor_goal_never_persisted_witness :
  exists a' w',
    main cpython "new goal" false [answering "not json"]
      {| stdout := [];
         state_file := Some (dumps (Some 4)
                               (JObj [("main_goal", JStr "old goal"); ("history", JArr [])])) |}
    = Continue a' w'
    /\ main_goal a' = "new goal"
    /\ state_goal (state a') = Some (JStr "old goal")
    /\ state_file w' = Some (dumps (Some 4) (state a'))
    /\ exists prompt history_text,
         _construct_prompt a' = Some prompt
         /\ occurs "**Your Goal:** new goal" prompt
         /\ prompt = SYSTEM_PROMPT_format "new goal" _get_tools_description ++ history_text.
Proof.
  eexists _, _. split; [vm_compute; reflexivity|].
  pose proof (constructor_goal_never_persisted cpython "new goal" false
                {| stdout := [];
                   state_file := Some (dumps (Some 4)
                                         (JObj [("main_goal", JStr "old goal");
                                                ("history", JArr [])])) |}
                (dumps (Some 4) (JObj [("main_goal", JStr "old goal"); ("history", JArr [])]))
                (JObj [("main_goal", JStr "old goal"); ("history", JArr [])])
                [] [answering "not json"] eq_refl
                ltac:(vm_compute; reflexivity) eq_refl) as [_ H].
  destruct (H _ _ ltac:(vm_compute; reflexivity)) as (H1 & H2 & H3).
  split; [exact H1|]. split; [exact H2|]. split; [reflexivity|exact H3].
Defined.

(** C3 at an agent whose history holds a turn longer than the budget: the
    prompt holds the latest turn alone; and at a budget of ten characters
    and a history of two error turns. *)
Lemma trim_fits_budget_or_keeps_one_witness :
  (exists kept,
      kept = trim CONTEXT_WINDOW_TOKEN_LIMIT [error_turn (spaces 5000); error_turn "second"]
      /\ _construct_prompt veteran
         = Some (SYSTEM_PROMPT_format (main_goal veteran) _get_tools_description
                 ++ nl ++ nl ++ "**History (Your previous actions):**" ++ nl
                 ++ history_str kept)
      /\ (String.length (history_str kept) <= CONTEXT_WINDOW_TOKEN_LIMIT
          \/ length kept = 1)
      /\ (forall earlier latest,
            [error_turn (spaces 5000); error_turn "second"] = (earlier ++ [latest])%list ->
            exists before, kept = (before ++ [latest])%list))
  /\ trim CONTEXT_WINDOW_TOKEN_LIMIT [error_turn (spaces 5000); error_turn "second"]
     = [error_turn "second"]
  /\ CONTEXT_WINDOW_TOKEN_LIMIT
     < String.length (history_str [error_turn (spaces 5000); error_turn "second"])
  /\ (String.length (history_str (trim 10 [error_turn "first"; error_turn "second"])) <= 10
      \/ length (trim 10 [error_turn "first"; error_turn "second"]) = 1).
Proof.
  split; [|split; [|split]].
  - apply (proj1 trim_fits_budget_or_keeps_one veteran
             [error_turn (spaces 5000); error_turn "second"]).
    reflexivity.
  - vm_compute. reflexivity.
  - apply Nat.ltb_lt. vm_compute. reflexivity.
  - apply (proj1 (proj2 trim_fits_budget_or_keeps_one)). discriminate.
Defined.

(** C3 as stated fails on the empty history under a budget below two: no
    turn is dropped, the text [[]] of the history is longer than the
    budget, and the turns left are none, not one. *)
Lemma empty_history_exceeds_small_budget :
  trim 0 [] = []
  /\ ~ String.length (history_str (trim 0 [])) <= 0
  /\ length (trim 0 []) <> 1.
Proof.
  split; [reflexivity|]. split; [cbn; lia|discriminate].
Qed.

(** C7 at an agent whose history holds a turn longer than the budget: the
    first turn is dropped and the prompt holds the second, as it was. *)
Lemma trimmed_history_is_suffix_witness :
  (exists dropped kept,
      [error_turn (spaces 5000); error_turn "second"] = (dropped ++ kept)%list
      /\ _construct_prompt veteran
         = Some (SYSTEM_PROMPT_format (main_goal veteran) _get_tools_description
                 ++ nl ++ nl ++ "**History (Your previous actions):**" ++ nl
                 ++ history_str kept))
  /\ _construct_prompt veteran
     = Some (SYSTEM_PROMPT_format (main_goal veteran) _get_tools_description
             ++ nl ++ nl ++ "**History (Your previous actions):**" ++ nl
             ++ history_str [error_turn "second"])
  /\ (exists dropped,
        [error_turn "first"; error_turn "second"; error_turn "third"]
        = (dropped ++ trim 40 [error_turn "first"; error_turn "second"; error_turn "third"])%list)
  /\ trim 40 [error_turn "first"; error_turn "second"; error_turn "third"]
     = [error_turn "third"].
Proof.
  split; [|split; [|split]].
  - apply (proj2 trimmed_history_is_suffix veteran
             [error_turn (spaces 5000); error_turn "second"]).
    reflexivity.
  - vm_compute. reflexivity.
  - apply (proj1 trimmed_history_is_suffix).
  - vm_compute. reflexivity.
Defined.


(** A fresh agent in manual mode that is given no input. *)
Lemma no_input_exits_cleanly_witness :
  exists w',
    run_iteration cpython (answering "") (fresh "g" true) blank = Exit 0 w'
    /\ state_file w' = state_file blank
    /\ In (nl ++ "No input received. Exiting.") (stdout w').
Proof.
  apply (no_input_exits_cleanly cpython (answering "") (fresh "g" true) blank []);
    reflexivity.
Defined.

(** A fresh agent whose backend refuses the connection. *)
Lemma request_failure_is_fatal_witness :
  exists w',
    run_iteration cpython
      (outside (Fails (Exc RequestException "Connection refused")) (Ok "")) (fresh "g" false)
      blank
    = Exit 1 w'
    /\ state_file w' = state_file blank
    /\ In ("Error: Could not connect to LLM API at " ++ LLM_API_URL
           ++ ". Is it running? Details: Connection refused") (stdout w').
Proof.
  apply (request_failure_is_fatal cpython
           (outside (Fails (Exc RequestException "Connection refused")) (Ok ""))
           (fresh "g" false) [] eq_refl blank (Exc RequestException "Connection refused")).
  - vm_compute. reflexivity.
  - reflexivity.
Defined.

(** A fresh agent interrupted while it waits for the model. *)
Lemma interruption_saves_and_exits_witness :
  exists w',
    run_iteration cpython (outside (Fails (Exc KeyboardInterrupt "")) (Ok "")) (fresh "g" false)
      blank
    = Exit 0 w'
    /\ state_file w' = Some (dumps (Some 4) (state (fresh "g" false))).
Proof.
  apply (interruption_saves_and_exits cpython
           (outside (Fails (Exc KeyboardInterrupt "")) (Ok "")) (fresh "g" false) [] eq_refl
           blank (Exc KeyboardInterrupt "")).
  - vm_compute. reflexivity.
  - reflexivity.
Defined.

(** A response that is a JSON list. *)
Lemma unexpected_failure_is_error_turn_witness :
  exists a' w',
    run_iteration cpython (answering "[1]") (fresh "g" false) blank = Continue a' w'
    /\ turns (state a')
       = Some [error_turn "An unexpected error occurred: 'list' object has no attribute 'get'"]
    /\ state_file w' = Some (dumps (Some 4) (state a')).
Proof.
  apply (unexpected_failure_is_error_turn cpython (answering "[1]") (fresh "g" false) []
           eq_refl blank "[1]" (JArr [JInt 1])).
  - vm_compute. reflexivity.
  - vm_compute. reflexivity.
  - discriminate.
Defined.

(** Two iterations of a fresh agent. *)
Lemma run_never_crashes_witness :
  ~ exists e w',
      run cpython [answering "not json"; answering "[1]"] (fresh "g" false) blank = Crash e w'.
Proof.
  intros (e & w' & H).
  exact (run_never_crashes cpython [answering "not json"; answering "[1]"] (fresh "g" false)
           blank [] eq_refl e w' H).
Defined.

(** A file of 2001 blanks. *)
Lemma long_results_are_cut_and_marked_witness :
  read_file (outside (Ok "") (Ok (spaces 2001))) (JStr "notes.txt") blank
  = (Ret ("Content truncated:" ++ nl ++ take 2000 (spaces 2001)), blank)
  /\ String.length (take 2000 (spaces 2001)) = 2000.
Proof.
  apply (proj1 (long_results_are_cut_and_marked (outside (Ok "") (Ok (spaces 2001))) blank)).
  - reflexivity.
  - apply Nat.ltb_lt. vm_compute. reflexivity.
Defined.

(** [json.dumps] of a text with a quote, a line break and a character above
    ASCII. *)
Lemma dumps_is_printable_ascii_witness :
  plain false (dumps None (JStr (String "034"%char (String "010"%char (String "233"%char "")))))
  = true.
Proof.
  apply (proj1 (dumps_is_printable_ascii
                  (JStr (String "034"%char (String "010"%char (String "233"%char "")))))).
Defined.

(** A history of one error turn at the budget of the program. *)
Lemma trim_keeps_what_fits_witness :
  trim CONTEXT_WINDOW_TOKEN_LIMIT [error_turn "e"] = [error_turn "e"].
Proof.
  apply (proj1 (trim_keeps_what_fits CONTEXT_WINDOW_TOKEN_LIMIT [error_turn "e"])).
  apply Nat.leb_le. vm_compute. reflexivity.
Defined.

(** Two error turns at a budget of ten characters and at the budget of the
    program. *)
Lemma bigger_budget_keeps_more_witness :
  exists more,
    trim CONTEXT_WINDOW_TOKEN_LIMIT [error_turn "first"; error_turn "second"]
    = (more ++ trim 10 [error_turn "first"; error_turn "second"])%list.
Proof.
  apply (bigger_budget_keeps_more 10 CONTEXT_WINDOW_TOKEN_LIMIT).
  apply Nat.leb_le. vm_compute. reflexivity.
Defined.


(** A directory with two files. *)
Lemma list_directory_result_decodes_witness :
  exists result,
    list_directory (directory ["a.txt"; "b.txt"]) (JStr ".") blank = (Ret result, blank)
    /\ loads result = Some (JArr [JStr "a.txt"; JStr "b.txt"])
    /\ (["a.txt"; "b.txt"] = [] -> result = "[]").
Proof.
  apply (list_directory_result_decodes (directory ["a.txt"; "b.txt"]) (JStr ".")
           ["a.txt"; "b.txt"] blank).
  reflexivity.
Defined.

(** A command whose name is a list. *)
Lemma dispatch_returns_the_failures_of_tools_witness :
  (exn_class (Exc TypeError "unhashable type: 'list'") = TypeError
   /\ registered cpython (JArr [JInt 1]) = Fails (Exc TypeError "unhashable type: 'list'"))
  \/ is_Exception (Exc TypeError "unhashable type: 'list'") = false.
Proof.
  apply (dispatch_returns_the_failures_of_tools cpython (answering "") (JArr [JInt 1])
           (JObj []) blank (Exc TypeError "unhashable type: 'list'") blank).
  reflexivity.
Defined.

(** The command [finish] with the result [done]. *)
Lemma only_finish_exits_witness :
  0 = 0 /\ JStr "finish" = JStr "finish"
  /\ exists bound,
       bind_arguments (t_params finish_tool) (JObj [("result", JStr "done")]) = Some bound
       /\ printed ["--- AGENT FINISHED ---"; "Final Result: done"] blank
          = printed ["--- AGENT FINISHED ---";
                     "Final Result: " ++ py_str cpython (arg "result" bound)] blank.
Proof.
  apply (only_finish_exits cpython (answering "") (JStr "finish")
           (JObj [("result", JStr "done")]) blank 0
           (printed ["--- AGENT FINISHED ---"; "Final Result: done"] blank)).
  reflexivity.
Defined.

(** A fresh agent whose backend refuses the connection. *)
Lemma exit_code_is_0_or_1_witness :
  1 = 0
  \/ (1 = 1
      /\ state_file
           (world_of (run_iteration cpython
                        (outside (Fails (Exc RequestException "Connection refused")) (Ok ""))
                        (fresh "g" false) blank))
         = state_file blank
      /\ exists e,
           fails_to_obtain (outside (Fails (Exc RequestException "Connection refused")) (Ok ""))
             (fresh "g" false) e
           /\ exn_class e = RequestException).
Proof.
  apply (exit_code_is_0_or_1 cpython
           (outside (Fails (Exc RequestException "Connection refused")) (Ok ""))
           (fresh "g" false) [] eq_refl blank).
  vm_compute. reflexivity.
Defined.

(** A command with the name [0]. *)
Lemma falsy_name_is_malformed_witness :
  exists a' w',
    run_iteration cpython
      (answering (dumps None (JObj [("thoughts", JStr "t");
                                    ("command", JObj [("name", JInt 0)])])))
      (fresh "g" false) blank
    = Continue a' w'
    /\ turns (state a')
       = Some [normal_turn (JStr "t") (JObj [("name", JInt 0)])
                 "Error: Malformed response. 'command' key with 'name' is required."]
    /\ state_file w' = Some (dumps (Some 4) (state a')).
Proof.
  apply (falsy_name_is_malformed cpython
           (answering (dumps None (JObj [("thoughts", JStr "t");
                                         ("command", JObj [("name", JInt 0)])])))
           (fresh "g" false) [] eq_refl blank
           (dumps None (JObj [("thoughts", JStr "t"); ("command", JObj [("name", JInt 0)])]))
           [("thoughts", JStr "t"); ("command", JObj [("name", JInt 0)])]
           [("name", JInt 0)]).
  - vm_compute. reflexivity.
  - vm_compute. reflexivity.
  - reflexivity.
  - reflexivity.
Defined.

(** A command whose name is the list [[1]]. *)
Lemma unhashable_name_is_error_turn_witness :
  exists a' w',
    run_iteration cpython
      (answering (dumps None (JObj [("thoughts", JStr "t");
                                    ("command", JObj [("name", JArr [JInt 1])])])))
      (fresh "g" false) blank
    = Continue a' w'
    /\ turns (state a')
       = Some [error_turn "An unexpected error occurred: unhashable type: 'list'"]
    /\ state_file w' = Some (dumps (Some 4) (state a')).
Proof.
  apply (unhashable_name_is_error_turn cpython
           (answering (dumps None (JObj [("thoughts", JStr "t");
                                         ("command", JObj [("name", JArr [JInt 1])])])))
           (fresh "g" false) [] eq_refl blank
           (dumps None (JObj [("thoughts", JStr "t");
                              ("command", JObj [("name", JArr [JInt 1])])]))
           [("thoughts", JStr "t"); ("command", JObj [("name", JArr [JInt 1])])]
           [("name", JArr [JInt 1])]).
  - vm_compute. reflexivity.
  - vm_compute. reflexivity.
  - reflexivity.
  - reflexivity.
  - left. exists [JInt 1]. reflexivity.
Defined.

(** A response whose command is the string [ls]. *)
Lemma command_not_object_is_error_turn_witness :
  exists a' w',
    run_iteration cpython
      (answering (dumps None (JObj [("thoughts", JStr "t"); ("command", JStr "ls")])))
      (fresh "g" false) blank
    = Continue a' w'
    /\ turns (state a')
       = Some [error_turn "An unexpected error occurred: 'str' object has no attribute 'get'"]
    /\ state_file w' = Some (dumps (Some 4) (state a')).
Proof.
  apply (command_not_object_is_error_turn cpython
           (answering (dumps None (JObj [("thoughts", JStr "t"); ("command", JStr "ls")])))
           (fresh "g" false) [] eq_refl blank
           (dumps None (JObj [("thoughts", JStr "t"); ("command", JStr "ls")]))
           [("thoughts", JStr "t"); ("command", JStr "ls")]
           (JStr "ls")).
  - vm_compute. reflexivity.
  - vm_compute. reflexivity.
  - reflexivity.
  - discriminate.
Defined.

(** A fresh agent interrupted while [read_file] reads. *)
Lemma interrupted_tool_saves_and_exits_witness :
  exists w',
    run_iteration cpython
      (outside (Ok (response "t" "read_file" (JObj [("path", JStr "notes.txt")])))
         (Fails (Exc KeyboardInterrupt "")))
      (fresh "g" false) blank
    = Exit 0 w'
    /\ state_file w' = Some (dumps (Some 4) (state (fresh "g" false))).
Proof.
  apply (interrupted_tool_saves_and_exits cpython
           (outside (Ok (response "t" "read_file" (JObj [("path", JStr "notes.txt")])))
              (Fails (Exc KeyboardInterrupt "")))
           (fresh "g" false) [] eq_refl blank
           (response "t" "read_file" (JObj [("path", JStr "notes.txt")]))
           [("thoughts", JStr "t");
            ("command", JObj [("name", JStr "read_file");
                              ("args", JObj [("path", JStr "notes.txt")])])]
           [("name", JStr "read_file"); ("args", JObj [("path", JStr "notes.txt")])]
           read_file_tool [("path", JStr "notes.txt")] (Exc KeyboardInterrupt "")
           "Error reading file: ").
  - vm_compute. reflexivity.
  - vm_compute. reflexivity.
  - reflexivity.
  - reflexivity.
  - reflexivity.
  - exact (file_read_fails
             (outside (Ok (response "t" "read_file" (JObj [("path", JStr "notes.txt")])))
                (Fails (Exc KeyboardInterrupt "")))
             [("path", JStr "notes.txt")] (Exc KeyboardInterrupt "") eq_refl).
  - reflexivity.
Defined.

(** A fresh agent whose backend replies with a body that is no JSON. *)
Lemma obtain_failure_is_error_turn_witness :
  exists a' w',
    run_iteration cpython (outside (Fails (Exc JSONDecodeError "Expecting value")) (Ok ""))
      (fresh "g" false) blank
    = Continue a' w'
    /\ turns (state a')
       = Some [error_turn ("Error: LLM did not return valid JSON. Response:" ++ nl)]
    /\ state_file w' = Some (dumps (Some 4) (state a')).
Proof.
  apply (proj1 (obtain_failure_is_error_turn cpython
                  (outside (Fails (Exc JSONDecodeError "Expecting value")) (Ok ""))
                  (fresh "g" false) [] eq_refl blank (Exc JSONDecodeError "Expecting value")
                  ltac:(vm_compute; reflexivity))).
  reflexivity.
Defined.

(** The iteration of a fresh agent that gets the response [not json]. *)
Lemma recorded_turn_is_in_next_prompt_witness :
  exists a' w',
    run_iteration cpython (answering "not json") (fresh "g" false) blank = Continue a' w'
    /\ exists h t dropped kept,
         turns (state (fresh "g" false)) = Some h
         /\ turns (state a') = Some (h ++ [t])%list
         /\ h = (dropped ++ kept)%list
         /\ _construct_prompt a'
            = Some (SYSTEM_PROMPT_format (main_goal (fresh "g" false)) _get_tools_description
                    ++ nl ++ nl ++ "**History (Your previous actions):**" ++ nl
                    ++ history_str (kept ++ [t])).
Proof.
  eexists _, _. split; [vm_compute; reflexivity|].
  eapply (recorded_turn_is_in_next_prompt cpython (answering "not json") (fresh "g" false) blank).
  vm_compute. reflexivity.
Defined.

(** Two iterations of a fresh agent. *)
Lemma run_appends_a_turn_per_iteration_witness :
  exists a' w',
    run cpython [answering "not json"; answering "[1]"] (fresh "g" false) blank = Continue a' w'
    /\ exists new,
         turns (state a') = Some ([] ++ new)%list
         /\ length new = 2
         /\ Forall is_turn new
         /\ ([answering "not json"; answering "[1]"] <> [] ->
             state_file w' = Some (dumps (Some 4) (state a'))).
Proof.
  eexists _, _. split; [vm_compute; reflexivity|].
  apply (run_appends_a_turn_per_iteration cpython [answering "not json"; answering "[1]"]
           (fresh "g" false) blank _ _ [] eq_refl).
  vm_compute. reflexivity.
Defined.


(** An agent started without a state file that runs one iteration. *)
Lemma fresh_start_persists_the_goal_witness :
  exists a' w',
    main cpython "g" false [answering "not json"] blank = Continue a' w'
    /\ main_goal a' = "g"
    /\ state_goal (state a') = Some (JStr "g")
    /\ exists new,
         turns (state a') = Some new /\ length new = 1
         /\ ([answering "not json"] <> [] -> state_file w' = Some (dumps (Some 4) (state a'))).
Proof.
  eexists _, _. split; [vm_compute; reflexivity|].
  apply (proj2 (fresh_start_persists_the_goal cpython "g" false [answering "not json"] blank
                  eq_refl)).
  vm_compute. reflexivity.
Defined.

(** A state file that holds the text [not json]. *)
Lemma unreadable_state_file_is_fatal_witness :
  exists e w',
    main cpython "g" false [answering "not json"]
      {| stdout := []; state_file := Some "not json" |}
    = Crash e w'
    /\ exn_class e = JSONDecodeError
    /\ state_file w' = Some "not json"
    /\ stdout w' = ([] ++ [("Loading state from " ++ STATE_FILE ++ "...")%string])%list.
Proof.
  apply (unreadable_state_file_is_fatal cpython "g" false [answering "not json"]
           {| stdout := []; state_file := Some "not json" |} "not json").
  - reflexivity.
  - vm_compute. reflexivity.
Defined.

(** An agent whose state holds a goal and nothing else. *)
Lemma state_without_history_cannot_go_on_witness :
  exists w',
    run_iteration cpython (answering "not json")
      {| main_goal := "g"; manual_mode := false; state := JObj [("main_goal", JStr "g")] |}
      blank
    = Crash (Exc OtherException "'history'") w'
    /\ state_file w' = state_file blank.
Proof.
  apply (proj2 (proj2 (state_without_history_cannot_go_on cpython (answering "not json")
                         {| main_goal := "g"; manual_mode := false;
                            state := JObj [("main_goal", JStr "g")] |}
                         blank [("main_goal", JStr "g")] eq_refl eq_refl))).
  reflexivity.
Defined.

(** The prompt of a fresh agent. *)
Lemma prompt_shows_goal_and_every_tool_witness :
  exists prompt,
    _construct_prompt (fresh "g" false) = Some prompt
    /\ occurs (main_goal (fresh "g" false)) prompt
    /\ forall t, In t tools -> occurs (describe t) prompt.
Proof.
  apply (prompt_shows_goal_and_every_tool (fresh "g" false) []). reflexivity.
Defined.
